(** * open_clip/model.py: a shallow embedding of the dual-tower model code

    The file follows [src/open_clip/model.py] class by class.  Python values
    are modelled as the code has them: integers as [Z], strings as [string],
    [None]-able arguments as [option], exceptions as an error result, the
    attributes of an [nn.Module] as named entries, and a checkpoint state
    dict as a [gmap string _].  The primitives of the tensor runtime (torch)
    that the code calls into, and that are not part of this repository, are
    the fields of the class [Runtime].

    Part I holds the embedding, Part II the properties. *)

From Stdlib Require Import ZArith QArith Qround Qreals List String Ascii Bool Lia Reals Lra.
From stdpp Require Import base option gmap strings list pretty.

Open Scope Z_scope.
Open Scope string_scope.

(** * Part I: the embedding *)

(** ** Python results *)

(** The exceptions the modelled code raises. *)
Inductive exn : Type :=
| AttributeError (msg : string)
| ValueError (msg : string)
| AssertionError (msg : string)
| KeyError (key : string)
| TypeError (msg : string)
| RuntimeError (msg : string)
| IndexError (msg : string)
| NotImplementedError (msg : string)
| ZeroDivisionError (msg : string).

(** A call either returns a value or raises. *)
Inductive result (A : Type) : Type :=
| Ok (a : A)
| Raise (e : exn).
Arguments Ok {A} a.
Arguments Raise {A} e.

Definition result_bind {A B : Type} (f : A -> result B) (m : result A) : result B :=
  match m with
  | Ok a => f a
  | Raise e => Raise e
  end.

Definition result_map {A B : Type} (f : A -> B) (m : result A) : result B :=
  match m with
  | Ok a => Ok (f a)
  | Raise e => Raise e
  end.

#[global] Instance result_mbind : MBind result := @result_bind.
#[global] Instance result_fmap : FMap result := @result_map.
#[global] Instance result_mret : MRet result := @Ok.

Definition is_Ok {A : Type} (m : result A) : Prop := exists a, m = Ok a.

(** [assert cond, msg] *)
Definition py_assert (cond : bool) (msg : string) : result unit :=
  if cond then Ok tt else Raise (AssertionError msg).

(** [s] occurs in [msg]. *)
Definition contains (msg s : string) : Prop :=
  exists pre post, msg = pre ++ s ++ post.

(** ** Tensors *)

Inductive dtype : Type := float16 | bfloat16 | float32 | float64.

#[global] Instance dtype_eq_dec : EqDecision dtype.
Proof. solve_decision. Defined.

(** Number of significand bits, the order of precision. *)
Definition precision (d : dtype) : Z :=
  match d with
  | bfloat16 => 8
  | float16 => 11
  | float32 => 24
  | float64 => 53
  end.

(** A tensor: its dtype, its shape and its elements in row-major order. *)
Record tensor (E : Type) : Type := Tensor {
  t_dtype : dtype;
  t_shape : list Z;
  t_data : list E
}.
Arguments Tensor {E} _ _ _.
Arguments t_dtype {E} _.
Arguments t_shape {E} _.
Arguments t_data {E} _.

(** [x.to(dtype)]: the same tensor when the dtype already matches, else a
    copy whose elements are converted by the runtime's [cast]. *)
Definition tensor_to {E : Type} (cast : dtype -> E -> E) (d : dtype) (x : tensor E)
  : tensor E :=
  if decide (t_dtype x = d) then x
  else Tensor d (t_shape x) (cast d <$> t_data x).

(** ** Layers of [torch.nn] the code instantiates *)

Inductive act_layer : Type := GELU | QuickGELU.

Inductive layer : Type :=
| Conv1d (in_channels out_channels kernel_size stride : Z) (bias : bool)
| Conv2d (in_channels out_channels kernel_size stride padding : Z) (bias : bool)
| BatchNorm2d (num_features : Z)
| ReLU (inplace : bool)
| AvgPool2d (kernel_size : Z)
| Identity
| Linear (in_features out_features : Z)
| Dropout (p : Q)
| Act (a : act_layer)
| MultiheadAttention (embed_dim num_heads : Z)
| Embedding (num_embeddings embedding_dim : Z).

(** [nn.Sequential(OrderedDict([...]))]: named children, run in order. *)
Definition Sequential : Type := list (string * layer).

(** The Python values a configuration dict holds. *)
Inductive pyval : Type :=
| PNone
| PInt (z : Z)
| PFloat (q : Q)
| PStr (s : string)
| PList (l : list Z).

(** The encoder classes the two models instantiate, with the arguments of
    each constructor call.  Arguments read from a configuration dict are
    Python values. *)
Inductive encoder_spec : Type :=
| TimmModel (model_name : string) (pretrained : bool) (pool proj : string)
    (embed_dim : Z) (image_size : Z + Z * Z)
| ModifiedResNet (layers : list Z) (output_dim heads : Z) (image_size : Z + Z * Z)
    (width : Z)
| VisualTransformer (image_size : Z + Z * Z) (patch_size width layers heads : Z)
    (mlp_ratio : Q) (output_dim : Z) (act : act_layer)
| MLP (input_dim : pyval) (output_dim : Z) (hidden_dim num_layers : pyval)
    (act : act_layer)
| NewVoxel3dConvEncoder (dims : pyval) (attention_width output_dim : Z)
    (average_output : bool) (act : act_layer)
| EmbeddingVoxel3dConvEncoder (dims : pyval) (attention_width c_in : Z)
    (vocab_size : pyval) (output_dim : Z) (act : act_layer)
| Voxel2DVisualTransformer (image_size patch_size width layers heads mlp_ratio : pyval)
    (output_dim : Z) (act : act_layer) (input_channels channel_dim : pyval)
    (dropout : Q)
| VisualTransformer3d (space_size : list Z) (patch_size width layers heads : Z)
    (mlp_ratio : Q) (output_dim : Z) (act : act_layer) (dropout : Q)
| FlatTransformerSpec (width layers heads : Z) (mlp_ratio : Q) (output_dim : Z)
    (act : act_layer) (dropout : Q).

(** A standard deviation as [init_parameters] computes it. *)
Inductive std_val : Type :=
| StdLit (q : Q)
| StdPowNegHalf (base : Z)          (* [base ** -0.5] *)
| StdMul (a b : std_val).

(** The tensor runtime (torch): what calling a primitive layer or operator
    does.  A layer is called at the attribute path that owns its weights.
    The last three fields stand for the encoder classes whose bodies this
    development does not unfold ([ModifiedResNet], [VisualTransformer], the
    3-D encoders, [MLP], and [TimmModel]): building one gives its [forward]
    as an opaque function. *)
Class Runtime (E : Type) : Type := {
  (* [layer(x)] for a [torch.nn] layer stored at [path] *)
  nn_call : string -> layer -> tensor E -> result (tensor E);
  (* [attn(x, x, x, need_weights=False, attn_mask=mask)[0]] *)
  attn_call : string -> layer -> tensor E -> option (tensor E) -> result (tensor E);
  (* [a + b], also [a += b] *)
  tensor_add : tensor E -> tensor E -> result (tensor E);
  (* [F.layer_norm(x, normalized_shape, weight, bias, eps)], the weight and
     bias being those stored at [path] *)
  F_layer_norm : string -> list Z -> Q -> tensor E -> result (tensor E);
  (* conversion of one element to a dtype *)
  cast : dtype -> E -> E;
  (* the order in which [permute] lays out the elements *)
  permute_data : list Z -> list Z -> list E -> list E;
  (* [a @ b] with [b] the parameter stored at [path] *)
  matmul_param : string -> tensor E -> result (tensor E);
  (* [x[:, 0, :]] *)
  select_first_token : tensor E -> result (tensor E);
  (* [p.repeat(n, 1)] with [p] the parameter stored at [path] *)
  param_repeat : string -> Z -> result (tensor E);
  (* [a @ b] *)
  matmul : tensor E -> tensor E -> result (tensor E);
  (* [x[torch.arange(x.shape[0]), text.argmax(dim=-1)]] *)
  select_eot : tensor E -> tensor E -> result (tensor E);
  (* [np.log(q)] as an element *)
  np_log : Q -> E;
  (* the element [torch.empty(shape)] happens to hold at a flat index *)
  uninit : list Z -> nat -> E;
  (* [nn.init.normal_(t, std=std)] *)
  normal_ : std_val -> tensor E -> result (tensor E);
  (* the element [F.interpolate(x, size, mode, align_corners=True)] has at a
     flat index of its output, from the input's shape and elements *)
  interpolate_data : string -> list Z -> list E -> Z * Z -> nat -> E;
  (* building an encoder: its [forward], or the error its constructor
     raises *)
  instantiate : encoder_spec -> result (tensor E -> result (tensor E));
  (* Modelled from the spec: [TimmModel] of [open_clip/timm_model.py], which
     is not among the source files, exposes [init_parameters()]
     "optionally"; whether it does is left open. *)
  timm_has_init_parameters : bool;
  (* [module.init_parameters()] of such an encoder *)
  reinit : encoder_spec -> (tensor E -> result (tensor E))
           -> result (tensor E -> result (tensor E))
}.

(** The two float constants the code writes into a tensor. *)
Class Specials (E : Type) : Type := {
  (* [float("-inf")] *)
  neg_inf : E;
  (* [0] *)
  zero : E
}.

(** [torch.nn.functional] operators whose values the claims speak about. *)
Class Functional (E : Type) : Type := {
  (* [F.normalize(x, dim=-1)] *)
  F_normalize : tensor E -> result (tensor E);
  (* [x.exp()] *)
  tensor_exp : tensor E -> tensor E
}.

(** A callable module: [module(x)]. *)
Definition callable (E : Type) : Type := tensor E -> result (tensor E).

(** Calling with an argument that is [None]: the first tensor operation on
    it raises. *)
Definition call_on {E : Type} (f : callable E) (arg : option (tensor E))
  : result (tensor E) :=
  match arg with
  | Some x => f x
  | None => Raise (TypeError "argument must be Tensor, not NoneType")
  end.

(** ** Python values held by configuration dicts *)

(** [d[key]] *)
Definition dict_get (d : gmap string pyval) (key : string) : result pyval :=
  match d !! key with
  | Some v => Ok v
  | None => Raise (KeyError key)
  end.

(** [a // b] *)
Definition py_floordiv (a b : pyval) : result pyval :=
  match a, b with
  | PInt x, PInt y =>
      if bool_decide (y = 0)
      then Raise (ZeroDivisionError "integer division or modulo by zero")
      else Ok (PInt (x / y))
  | PInt x, PFloat y =>
      if Qeq_bool y 0 then Raise (ZeroDivisionError "float divmod()")
      else Ok (PFloat (inject_Z (Qfloor (inject_Z x / y))))
  | PFloat x, PInt y =>
      if bool_decide (y = 0) then Raise (ZeroDivisionError "float divmod()")
      else Ok (PFloat (inject_Z (Qfloor (x / inject_Z y))))
  | PFloat x, PFloat y =>
      if Qeq_bool y 0 then Raise (ZeroDivisionError "float divmod()")
      else Ok (PFloat (inject_Z (Qfloor (x / y))))
  | _, _ => Raise (TypeError "unsupported operand type(s) for //")
  end.

(** [a // b] on integers *)
Definition int_floordiv (a b : Z) : result Z :=
  if bool_decide (b = 0)
  then Raise (ZeroDivisionError "integer division or modulo by zero")
  else Ok (a / b).

(** ** Tensor operations that only move elements *)

Module torch.
Section Ops.
Context {E : Type} {RT : Runtime E}.

(** Number of elements of a shape. *)
Definition numel (shape : list Z) : Z := fold_right Z.mul 1 shape.

(** The elements at offset [k] of every group of [d] consecutive ones. *)
Fixpoint pick (fuel : nat) (k d : nat) (l : list E) : list E :=
  match fuel with
  | O => []
  | S fuel' =>
      match l !! k with
      | Some v => v :: pick fuel' k d (drop d l)
      | None => []
      end
  end.

(** [x[..., k]] for a literal [k >= 0] *)
Definition select_last (k : Z) (x : tensor E) : result (tensor E) :=
  match rev (t_shape x) with
  | [] => Raise (IndexError "too many indices for tensor of dimension 0")
  | d :: pre =>
      if bool_decide (0 <= k < d)
      then Ok (Tensor (t_dtype x) (rev pre)
                 (pick (length (t_data x)) (Z.to_nat k) (Z.to_nat d) (t_data x)))
      else Raise (IndexError "index is out of bounds")
  end.

(** [x[i, j]] on a matrix, for [i, j >= 0] *)
Definition entry (x : tensor E) (i j : Z) : option E :=
  match t_shape x with
  | [rows; cols] =>
      if bool_decide (0 <= i < rows /\ 0 <= j < cols)
      then t_data x !! Z.to_nat (i * cols + j)
      else None
  | _ => None
  end.

(** [x.shape[0]] *)
Definition shape0 (x : tensor E) : result Z :=
  match t_shape x with
  | [] => Raise (IndexError "tuple index out of range")
  | n :: _ => Ok n
  end.

(** [x.unsqueeze(1)] *)
Definition unsqueeze1 (x : tensor E) : result (tensor E) :=
  match t_shape x with
  | [] => Raise (IndexError "Dimension out of range")
  | n :: rest => Ok (Tensor (t_dtype x) (n :: 1 :: rest) (t_data x))
  end.

(** [dims] names every axis [0 .. n-1] exactly once. *)
Definition is_permutation (n : nat) (dims : list Z) : bool :=
  bool_decide (length dims = n) &&
  forallb (fun a => existsb (Z.eqb (Z.of_nat a)) dims) (seq 0 n).

(** [x.permute(dims...)]: the shape is reordered here, the elements by the
    runtime. *)
Definition permute (dims : list Z) (x : tensor E) : result (tensor E) :=
  if is_permutation (length (t_shape x)) dims
  then Ok (Tensor (t_dtype x)
             ((fun a => nth (Z.to_nat a) (t_shape x) 0) <$> dims)
             (permute_data (t_shape x) dims (t_data x)))
  else Raise (RuntimeError "permute: dims do not match the tensor").

(** [x[:k]] for a literal [k >= 0] *)
Definition slice_to (k : Z) (x : tensor E) : result (tensor E) :=
  match t_shape x with
  | [] => Raise (IndexError "slice() cannot be applied to a 0-dim tensor")
  | n :: rest =>
      let n' := Z.min k n in
      Ok (Tensor (t_dtype x) (n' :: rest) (take (Z.to_nat (n' * numel rest)) (t_data x)))
  end.

(** [x[k:]] for a literal [k >= 0] *)
Definition slice_from (k : Z) (x : tensor E) : result (tensor E) :=
  match t_shape x with
  | [] => Raise (IndexError "slice() cannot be applied to a 0-dim tensor")
  | n :: rest =>
      let k' := Z.min k n in
      Ok (Tensor (t_dtype x) (n - k' :: rest) (drop (Z.to_nat (k' * numel rest)) (t_data x)))
  end.

(** [len(x)] *)
Definition len (x : tensor E) : result Z :=
  match t_shape x with
  | [] => Raise (TypeError "len() of a 0-d tensor")
  | n :: _ => Ok n
  end.

(** [x[0]] *)
Definition index0 (x : tensor E) : result (tensor E) :=
  match t_shape x with
  | [] => Raise (IndexError "invalid index of a 0-dim tensor")
  | n :: rest =>
      if bool_decide (0 < n)
      then Ok (Tensor (t_dtype x) rest (take (Z.to_nat (numel rest)) (t_data x)))
      else Raise (IndexError "index 0 is out of bounds for dimension 0 with size 0")
  end.

(** [x.reshape(dims...)], one of the [dims] possibly [-1]: the elements keep
    their row-major order. *)
Definition reshape (dims : list Z) (x : tensor E) : result (tensor E) :=
  let n := numel (t_shape x) in
  let known := numel (filter (fun d => d <> -1) dims) in
  if bool_decide (Exists (fun d => d < -1) dims) then
    Raise (RuntimeError "invalid shape dimension")
  else if bool_decide (length (filter (fun d => d = -1) dims) = 0%nat) then
    if bool_decide (known = n)
    then Ok (Tensor (t_dtype x) dims (t_data x))
    else Raise (RuntimeError "shape is invalid for input size")
  else if bool_decide (length (filter (fun d => d = -1) dims) = 1%nat) then
    if bool_decide (known = 0) then
      Raise (RuntimeError "cannot reshape: the unspecified dimension is ambiguous")
    else if bool_decide (n mod known = 0) then
      Ok (Tensor (t_dtype x)
            ((fun d => if bool_decide (d = -1) then n / known else d) <$> dims)
            (t_data x))
    else Raise (RuntimeError "shape is invalid for input size")
  else Raise (RuntimeError "only one dimension can be inferred").

(** [torch.cat([a, b], dim=0)] *)
Definition cat0 (a b : tensor E) : result (tensor E) :=
  match t_shape a, t_shape b with
  | na :: resta, nb :: restb =>
      if bool_decide (resta = restb)
      then Ok (Tensor (t_dtype a) (na + nb :: resta) (t_data a ++ t_data b))
      else Raise (RuntimeError "Sizes of tensors must match except in dimension 0")
  | _, _ => Raise (RuntimeError "zero-dimensional tensor cannot be concatenated")
  end.

(** [F.interpolate(x, size=size, mode=mode, align_corners=True)] for a
    2-D interpolation mode: a 4-D input with positive spatial sizes gives
    [N, C, size[0], size[1]]; the elements are the runtime's. *)
Definition F_interpolate (x : tensor E) (size : Z * Z) (mode : string)
  : result (tensor E) :=
  match t_shape x with
  | [n; c; h; w] =>
      if bool_decide (0 < c /\ 0 < h /\ 0 < w /\ 0 < fst size /\ 0 < snd size)
      then
        let shape := [n; c; fst size; snd size] in
        Ok (Tensor (t_dtype x) shape
              (interpolate_data mode (t_shape x) (t_data x) size
                 <$> seq 0 (Z.to_nat (numel shape))))
      else Raise (RuntimeError "Input and output sizes should be greater than 0")
  | _ => Raise (RuntimeError "Got an input of the wrong dimension for this mode")
  end.

End Ops.
End torch.

(** [nn.Sequential.forward]: each child is applied to the previous output. *)
Fixpoint Sequential_forward {E : Type} {RT : Runtime E}
    (path : string) (s : Sequential) (x : tensor E) : result (tensor E) :=
  match s with
  | [] => Ok x
  | (name, l) :: rest =>
      x' ← nn_call (path ++ "." ++ name) l x;
      Sequential_forward path rest x'
  end.

(** ** [class Bottleneck] *)

Module Bottleneck.

Definition expansion : Z := 4.

Record t : Type := Make {
  conv1 : layer; bn1 : layer; relu1 : layer;
  conv2 : layer; bn2 : layer; relu2 : layer;
  avgpool : layer;
  conv3 : layer; bn3 : layer; relu3 : layer;
  downsample : option Sequential;
  stride : Z
}.

(** [Bottleneck.__init__(self, inplanes, planes, stride=1)] *)
Definition __init__ (inplanes planes : Z) (stride : Z) : t :=
  {| conv1 := Conv2d inplanes planes 1 1 0 false;
     bn1 := BatchNorm2d planes;
     relu1 := ReLU true;
     conv2 := Conv2d planes planes 3 1 1 false;
     bn2 := BatchNorm2d planes;
     relu2 := ReLU true;
     avgpool := if bool_decide (stride > 1) then AvgPool2d stride else Identity;
     conv3 := Conv2d planes (planes * expansion) 1 1 0 false;
     bn3 := BatchNorm2d (planes * expansion);
     relu3 := ReLU true;
     downsample :=
       if bool_decide (stride > 1) || negb (bool_decide (inplanes = planes * expansion))
       then Some [ ("-1", AvgPool2d stride);
                   ("0", Conv2d inplanes (planes * expansion) 1 1 0 false);
                   ("1", BatchNorm2d (planes * expansion)) ]
       else None;
     stride := stride |}.

Section Forward.
Context {E : Type} {RT : Runtime E}.

(** [Bottleneck.forward(self, x)] *)
Definition forward (self : t) (x : tensor E) : result (tensor E) :=
  let identity := x in
  out ← nn_call "conv1" (conv1 self) x;
  out ← nn_call "bn1" (bn1 self) out;
  out ← nn_call "relu1" (relu1 self) out;
  out ← nn_call "conv2" (conv2 self) out;
  out ← nn_call "bn2" (bn2 self) out;
  out ← nn_call "relu2" (relu2 self) out;
  out ← nn_call "avgpool" (avgpool self) out;
  out ← nn_call "conv3" (conv3 self) out;
  out ← nn_call "bn3" (bn3 self) out;
  identity ← match downsample self with
             | Some ds => Sequential_forward "downsample" ds x
             | None => Ok identity
             end;
  out ← tensor_add out identity;
  nn_call "relu3" (relu3 self) out.

End Forward.
End Bottleneck.

(** ** [class LayerNorm(nn.LayerNorm)] *)

Module LayerNorm.

Record t : Type := Make { normalized_shape : list Z; eps : Q }.

(** [LayerNorm(d)], with [nn.LayerNorm]'s default [eps=1e-5] *)
Definition __init__ (d : Z) : t :=
  {| normalized_shape := [d]; eps := (1 # 100000)%Q |}.

(** [LayerNorm.forward(self, x)] *)
Definition forward {E : Type} {RT : Runtime E}
    (path : string) (self : t) (x : tensor E) : result (tensor E) :=
  let orig_type := t_dtype x in
  x ← F_layer_norm path (normalized_shape self) (eps self) x;
  Ok (tensor_to cast orig_type x).

End LayerNorm.

(** [a > b] on floats *)
Definition Qgtb (a b : Q) : bool := negb (Qle_bool a b).

(** [int(q)] of a float: truncation towards zero. *)
Definition py_int (q : Q) : Z :=
  if Qle_bool 0 q then Qfloor q else Qceiling q.

(** ** [class ResidualAttentionBlock] *)

Module ResidualAttentionBlock.

Record t : Type := Make {
  attn : layer;
  ln_1 : LayerNorm.t;
  mlp : Sequential;
  ln_2 : LayerNorm.t
}.

(** [ResidualAttentionBlock.__init__(self, d_model, n_head, mlp_ratio,
    act_layer, dropout)] *)
Definition __init__ (d_model n_head : Z) (mlp_ratio : Q) (act : act_layer) (dropout : Q)
  : t :=
  let mlp_width := py_int (inject_Z d_model * mlp_ratio)%Q in
  let layers := [("c_fc", Linear d_model mlp_width)] in
  let layers :=
    if Qgtb dropout 0 then (layers ++ [("c_drop", Dropout dropout)])%list
    else layers in
  let layers :=
    (layers ++ [("c_act", Act act); ("proj", Linear mlp_width d_model)])%list in
  {| attn := MultiheadAttention d_model n_head;
     ln_1 := LayerNorm.__init__ d_model;
     mlp := layers;
     ln_2 := LayerNorm.__init__ d_model |}.

Section Forward.
Context {E : Type} {RT : Runtime E}.

(** [ResidualAttentionBlock.attention(self, x, attn_mask)] *)
Definition attention (path : string) (self : t) (x : tensor E)
    (attn_mask : option (tensor E)) : result (tensor E) :=
  attn_call (path ++ ".attn") (attn self) x attn_mask.

(** [ResidualAttentionBlock.forward(self, x, attn_mask)] *)
Definition forward (path : string) (self : t) (x : tensor E)
    (attn_mask : option (tensor E)) : result (tensor E) :=
  h ← LayerNorm.forward (path ++ ".ln_1") (ln_1 self) x;
  a ← attention path self h attn_mask;
  x ← tensor_add x a;
  h ← LayerNorm.forward (path ++ ".ln_2") (ln_2 self) x;
  m ← Sequential_forward (path ++ ".mlp") (mlp self) h;
  tensor_add x m.

End Forward.
End ResidualAttentionBlock.

(** ** [class Transformer] *)

Module Transformer.

Record t : Type := Make {
  width : Z;
  layers : Z;
  grad_checkpointing : bool;
  resblocks : list ResidualAttentionBlock.t
}.

(** [Transformer.__init__(self, width, layers, heads, mlp_ratio, act_layer,
    dropout)]; [range(layers)] is empty for [layers <= 0]. *)
Definition __init__ (width layers heads : Z) (mlp_ratio : Q) (act : act_layer)
    (dropout : Q) : t :=
  {| width := width;
     layers := layers;
     grad_checkpointing := false;
     resblocks :=
       replicate (Z.to_nat layers)
         (ResidualAttentionBlock.__init__ width heads mlp_ratio act dropout) |}.

Section Forward.
Context {E : Type} {RT : Runtime E}.

(** The loop of [Transformer.forward]; [i] is the index of the next block.
    [checkpoint(r, x, attn_mask)] returns what [r(x, attn_mask)] returns. *)
Fixpoint run_blocks (path : string) (checkpointing : bool) (i : nat)
    (blocks : list ResidualAttentionBlock.t) (x : tensor E)
    (attn_mask : option (tensor E)) : result (tensor E) :=
  match blocks with
  | [] => Ok x
  | r :: rest =>
      x ← (if checkpointing
           then ResidualAttentionBlock.forward (path ++ ".resblocks." ++ pretty i) r x attn_mask
           else ResidualAttentionBlock.forward (path ++ ".resblocks." ++ pretty i) r x attn_mask);
      run_blocks path checkpointing (S i) rest x attn_mask
  end.

(** [Transformer.forward(self, x, attn_mask)] *)
Definition forward (path : string) (self : t) (x : tensor E)
    (attn_mask : option (tensor E)) : result (tensor E) :=
  run_blocks path (grad_checkpointing self) 0 (resblocks self) x attn_mask.

End Forward.
End Transformer.

(** ** [class FlatTransformer] *)

Module FlatTransformer.

Record t : Type := Make {
  width : Z;
  conv1 : layer;
  ln_pre : LayerNorm.t;
  transformer : Transformer.t;
  ln_post : LayerNorm.t;
  (* shapes of the parameters [positional_embedding] and [proj] *)
  positional_embedding : list Z;
  proj : option (list Z)
}.

(** [FlatTransformer.__init__(self, width, layers, heads, mlp_ratio,
    output_dim, act_layer, dropout)] *)
Definition __init__ (width layers heads : Z) (mlp_ratio : Q) (output_dim : Z)
    (act : act_layer) (dropout : Q) : t :=
  {| width := width;
     conv1 := Conv1d 1 width 1 1 false;
     ln_pre := LayerNorm.__init__ width;
     transformer := Transformer.__init__ width layers heads mlp_ratio act dropout;
     ln_post := LayerNorm.__init__ width;
     positional_embedding := [width];
     proj := Some [width; output_dim] |}.

Section Forward.
Context {E : Type} {RT : Runtime E}.

(** [FlatTransformer.generate_positional_encoding(self, x)] *)
Definition generate_positional_encoding (self : t) (x : tensor E)
  : result (tensor E) :=
  p_x ← torch.select_last 1 x;
  p_y ← torch.select_last 2 x;
  p_z ← torch.select_last 3 x;
  n ← torch.shape0 p_x;
  param_repeat "positional_embedding" n.

(** [FlatTransformer.forward(self, x)] *)
Definition forward (self : t) (x : tensor E) : result (tensor E) :=
  t ← torch.select_last 0 x;
  t1 ← torch.unsqueeze1 t;
  e ← nn_call "conv1" (conv1 self) t1;
  e ← torch.permute [0; 2; 1] e;
  pe ← generate_positional_encoding self x;
  e ← tensor_add e pe;
  e ← LayerNorm.forward "ln_pre" (ln_pre self) e;
  e ← torch.permute [1; 0; 2] e;
  e ← Transformer.forward "transformer" (transformer self) e None;
  e ← torch.permute [1; 0; 2] e;
  e ← select_first_token e;
  e ← LayerNorm.forward "ln_post" (ln_post self) e;
  match proj self with
  | Some _ => matmul_param "proj" e
  | None => Ok e
  end.

End Forward.
End FlatTransformer.

(** ** Configuration dataclasses *)

Module CLIPVisionCfg.
Record t : Type := Make {
  layers : Z + list Z;          (* an int, or a tuple of stage sizes *)
  width : Z;
  head_width : Z;
  mlp_ratio : Q;
  patch_size : Z;
  image_size : Z + Z * Z;
  timm_model_name : option string;
  timm_model_pretrained : bool;
  timm_pool : string;
  timm_proj : string
}.
End CLIPVisionCfg.

Module CLIPTextCfg.
Record t : Type := Make {
  context_length : Z;
  vocab_size : Z;
  width : Z;
  heads : Z;
  layers : Z
}.
End CLIPTextCfg.

Module CLIPVoxelCfg.
(** Each sub-configuration is subscripted by the constructor
    ([config_mlp["voxel_dim"]]), so it is a dict, or [None]. *)
Record t : Type := Make {
  config_mlp : option (gmap string pyval);
  config_2d_visual_transformer : option (gmap string pyval);
  config_3d_conv : option (gmap string pyval);
  config_3d_transformer : option (gmap string pyval)
}.
End CLIPVoxelCfg.

(** An encoder held by a model: the class it was built from and its
    [forward]. *)
Record module (E : Type) : Type := Module_ {
  m_spec : encoder_spec;
  m_call : callable E
}.
Arguments Module_ {E} _ _.
Arguments m_spec {E} _.
Arguments m_call {E} _.

(** [self.<name>] on an instance of [cls] whose attribute may not be set. *)
Definition getattr {A : Type} (cls name : string) (o : option A) : result A :=
  match o with
  | Some a => Ok a
  | None =>
      Raise (AttributeError ("'" ++ cls ++ "' object has no attribute '" ++ name ++ "'"))
  end.

(** What [forward] returns: one embedding, or the two normalized embeddings
    with the temperature. *)
Inductive forward_out (E : Type) : Type :=
| Single (features : tensor E)
| Triple (image_features text_features logit_scale : tensor E).
Arguments Single {E} _.
Arguments Triple {E} _ _ _.

Section Towers.
Context {E : Type} {RT : Runtime E} {FN : Functional E}.

(** [hasattr(module, 'init_parameters')] *)
Definition has_init_parameters (m : module E) : bool :=
  match m_spec m with
  | ModifiedResNet _ _ _ _ _ => true
  | TimmModel _ _ _ _ _ _ => timm_has_init_parameters
  | _ => false
  end.

(** [if hasattr(self.visual, 'init_parameters'): self.visual.init_parameters()] *)
Definition visual_init_parameters (v : module E) : result (module E) :=
  if has_init_parameters v
  then f ← reinit (m_spec v) (m_call v); Ok (Module_ (m_spec v) f)
  else Ok v.

(** [torch.ones([]) * np.log(1 / 0.07)] *)
Definition initial_logit_scale : tensor E :=
  Tensor float32 [] [np_log (100 # 7)].

(** The vision tower, as both constructors build it (the same lines open
    [VoxelCLIP.__init__] and [CLIP.__init__]); returns the tower and the
    activation the second tower is to use. *)
Definition build_visual (embed_dim : Z) (vision_cfg : CLIPVisionCfg.t)
    (quick_gelu : bool) : result (module E * act_layer) :=
  let act := if quick_gelu then QuickGELU else GELU in
  match CLIPVisionCfg.timm_model_name vision_cfg with
  | Some (String c rest as name) =>
      let spec := TimmModel name
                    (CLIPVisionCfg.timm_model_pretrained vision_cfg)
                    (CLIPVisionCfg.timm_pool vision_cfg)
                    (CLIPVisionCfg.timm_proj vision_cfg)
                    embed_dim
                    (CLIPVisionCfg.image_size vision_cfg) in
      f ← instantiate spec;
      Ok (Module_ spec f, GELU)
  | _ =>
      match CLIPVisionCfg.layers vision_cfg with
      | inr layers =>
          vision_heads ← int_floordiv (CLIPVisionCfg.width vision_cfg * 32)
                           (CLIPVisionCfg.head_width vision_cfg);
          let spec := ModifiedResNet layers embed_dim vision_heads
                        (CLIPVisionCfg.image_size vision_cfg)
                        (CLIPVisionCfg.width vision_cfg) in
          f ← instantiate spec;
          Ok (Module_ spec f, act)
      | inl layers =>
          vision_heads ← int_floordiv (CLIPVisionCfg.width vision_cfg)
                           (CLIPVisionCfg.head_width vision_cfg);
          let spec := VisualTransformer
                        (CLIPVisionCfg.image_size vision_cfg)
                        (CLIPVisionCfg.patch_size vision_cfg)
                        (CLIPVisionCfg.width vision_cfg)
                        layers vision_heads
                        (CLIPVisionCfg.mlp_ratio vision_cfg)
                        embed_dim act in
          f ← instantiate spec;
          Ok (Module_ spec f, act)
      end
  end.

End Towers.

(** ** [class VoxelCLIP] *)

Module VoxelCLIP.

(** The attributes of an instance; [None] while not yet assigned. *)
Record t (E : Type) : Type := Make {
  visual : option (module E);
  voxel_type : option string;
  voxel_encoder : option (module E);
  logit_scale : option (tensor E)
}.
Arguments Make {E} _ _ _ _.
Arguments visual {E} _.
Arguments voxel_type {E} _.
Arguments voxel_encoder {E} _.
Arguments logit_scale {E} _.

(** The discriminator strings the constructor accepts. *)
Definition accepted_voxel_types : list string :=
  ["mlp"; "3d-conv"; "embedding-3d-conv"; "3d-vision-transformer";
   "3d-transformer"; "flat-transformer"].

(** The declared default of the parameter [voxel_type]. *)
Definition default_voxel_type : string := "flat".

Section Methods.
Context {E : Type} {RT : Runtime E} {FN : Functional E}.

(** The [if voxel_type == ...: ... else: raise ValueError] chain of
    [__init__]: the voxel encoder, or the error. *)
Definition build_voxel_encoder (embed_dim : Z) (voxel_cfg : CLIPVoxelCfg.t)
    (act : act_layer) (voxel_type : string) : result (module E) :=
  if decide (voxel_type = "mlp") then
    _ ← py_assert (bool_decide (is_Some (CLIPVoxelCfg.config_mlp voxel_cfg)))
          "config_mlp is required for voxel_type=flat";
    cfg ← getattr "CLIPVoxelCfg" "config_mlp" (CLIPVoxelCfg.config_mlp voxel_cfg);
    input_dim ← dict_get cfg "voxel_dim";
    hidden_dim ← dict_get cfg "layer_width";
    num_layers ← dict_get cfg "layers";
    let spec := MLP input_dim embed_dim hidden_dim num_layers act in
    f ← instantiate spec; Ok (Module_ spec f)
  else if decide (voxel_type = "3d-conv") then
    _ ← py_assert (bool_decide (is_Some (CLIPVoxelCfg.config_3d_conv voxel_cfg)))
          "config_3d_conv is required for voxel_type=3d";
    cfg ← getattr "CLIPVoxelCfg" "config_3d_conv" (CLIPVoxelCfg.config_3d_conv voxel_cfg);
    dims ← dict_get cfg "dims";
    let spec := NewVoxel3dConvEncoder dims 64 embed_dim false act in
    f ← instantiate spec; Ok (Module_ spec f)
  else if decide (voxel_type = "embedding-3d-conv") then
    _ ← py_assert (bool_decide (is_Some (CLIPVoxelCfg.config_3d_conv voxel_cfg)))
          "config_3d_conv is required for voxel_type=3d";
    cfg ← getattr "CLIPVoxelCfg" "config_3d_conv" (CLIPVoxelCfg.config_3d_conv voxel_cfg);
    dims ← dict_get cfg "dims";
    vocab_size ← dict_get cfg "vocab_size";
    let spec := EmbeddingVoxel3dConvEncoder dims 64 64 vocab_size embed_dim act in
    f ← instantiate spec; Ok (Module_ spec f)
  else if decide (voxel_type = "3d-vision-transformer") then
    _ ← py_assert
          (bool_decide (is_Some (CLIPVoxelCfg.config_2d_visual_transformer voxel_cfg)))
          "config_2d_visual_transformer is required for voxel_type=3d";
    cfg ← getattr "CLIPVoxelCfg" "config_2d_visual_transformer"
            (CLIPVoxelCfg.config_2d_visual_transformer voxel_cfg);
    w ← dict_get cfg "width";
    hw ← dict_get cfg "head_width";
    vision_heads ← py_floordiv w hw;
    image_size ← dict_get cfg "image_size";
    patch_size ← dict_get cfg "patch_size";
    width ← dict_get cfg "width";
    layers ← dict_get cfg "layers";
    mlp_ratio ← dict_get cfg "mlp_ratio";
    input_channels ← dict_get cfg "channels";
    channel_dim ← dict_get cfg "channel_dim";
    let spec := Voxel2DVisualTransformer image_size patch_size width layers
                  vision_heads mlp_ratio embed_dim act input_channels channel_dim
                  (2 # 10) in
    f ← instantiate spec; Ok (Module_ spec f)
  else if decide (voxel_type = "3d-transformer") then
    _ ← py_assert (bool_decide (is_Some (CLIPVoxelCfg.config_3d_transformer voxel_cfg)))
          "config_3d_transformer is required for voxel_type=3d";
    let spec := VisualTransformer3d [42; 46; 61] 8 1408 14 8 (43637 # 10000)
                  embed_dim act (4 # 10) in
    f ← instantiate spec; Ok (Module_ spec f)
  else if decide (voxel_type = "flat-transformer") then
    let spec := FlatTransformerSpec 512 4 8 4 embed_dim act (4 # 10) in
    Ok (Module_ spec
          (FlatTransformer.forward
             (FlatTransformer.__init__ 512 4 8 4 embed_dim act (4 # 10))))
  else
    Raise (ValueError ("Invalid voxel type: " ++ voxel_type)).

(** [VoxelCLIP.init_parameters(self)] *)
Definition init_parameters (self : t E) : result (t E) :=
  _ ← getattr "VoxelCLIP" "logit_scale" (logit_scale self);
  let logit_scale' := initial_logit_scale in
  v ← getattr "VoxelCLIP" "visual" (visual self);
  v ← visual_init_parameters v;
  let self := Make (Some v) (voxel_type self) (voxel_encoder self) (Some logit_scale') in
  vt ← getattr "VoxelCLIP" "voxel_type" (voxel_type self);
  if decide (vt = "flat") then
    ve ← getattr "VoxelCLIP" "voxel_encoder" (voxel_encoder self);
    match m_spec ve with
    | MLP _ _ _ _ _ =>
        f ← reinit (m_spec ve) (m_call ve);
        Ok (Make (visual self) (voxel_type self) (Some (Module_ (m_spec ve) f))
              (logit_scale self))
    | _ => Raise (AttributeError "object has no attribute 'layers'")
    end
  else if decide (vt = "3d") then Ok self
  else if decide (vt = "3d-flat") then
    Raise (NotImplementedError "3D flat voxel encoder initializer not implemented")
  else Ok self.

(** [VoxelCLIP.__init__(self, embed_dim, vision_cfg, voxel_cfg, quick_gelu,
    voxel_type="flat", **kwargs)], started from the configuration records (a
    dict argument is first turned into its record).  [voxel_type = None]
    stands for a call that does not pass the argument.  The result is the
    instance as the constructor leaves it, and the exception if it raised. *)
Definition __init__ (embed_dim : Z) (vision_cfg : CLIPVisionCfg.t)
    (voxel_cfg : CLIPVoxelCfg.t) (quick_gelu : bool) (voxel_type : option string)
  : t E * option exn :=
  let voxel_type := default default_voxel_type voxel_type in
  let self := Make None None None None in
  match build_visual embed_dim vision_cfg quick_gelu with
  | Raise e => (self, Some e)
  | Ok (v, act) =>
      let self := Make (Some v) None None None in
      let self := Make (visual self) (Some voxel_type) None None in
      match build_voxel_encoder embed_dim voxel_cfg act voxel_type with
      | Raise e => (self, Some e)
      | Ok ve =>
          let self := Make (visual self) (VoxelCLIP.voxel_type self) (Some ve) None in
          let self := Make (visual self) (VoxelCLIP.voxel_type self)
                        (voxel_encoder self) (Some initial_logit_scale) in
          match init_parameters self with
          | Raise e => (self, Some e)
          | Ok self' => (self', None)
          end
      end
  end.

(** [VoxelCLIP.encode_image(self, image)] *)
Definition encode_image (self : t E) (image : tensor E) : result (tensor E) :=
  v ← getattr "VoxelCLIP" "visual" (visual self);
  m_call v image.

(** [VoxelCLIP.encode_voxel(self, voxel)] *)
Definition encode_voxel (self : t E) (voxel : tensor E) : result (tensor E) :=
  v ← getattr "VoxelCLIP" "voxel_encoder" (voxel_encoder self);
  m_call v voxel.

(** [self.<name>] for a name that is then called with one tensor: the
    methods the class defines with that signature and the encoders
    registered on the instance.  The class defines [__init__],
    [init_parameters], [lock_image_tower], [encode_image], [encode_voxel]
    and [forward]; for any other name [nn.Module.__getattr__] raises. *)
Definition getattr_callable (self : t E) (name : string) : result (callable E) :=
  if decide (name = "encode_image") then Ok (encode_image self)
  else if decide (name = "encode_voxel") then Ok (encode_voxel self)
  else if decide (name = "visual") then
    m_call <$> getattr "VoxelCLIP" name (visual self)
  else if decide (name = "voxel_encoder") then
    m_call <$> getattr "VoxelCLIP" name (voxel_encoder self)
  else getattr "VoxelCLIP" name None.

(** [VoxelCLIP.forward(self, image, text)] *)
Definition forward (self : t E) (image text : option (tensor E))
  : result (forward_out E) :=
  match image with
  | None =>
      f ← getattr_callable self "encode_text";
      Single <$> call_on f text
  | Some image =>
      match text with
      | None =>
          f ← getattr_callable self "encode_image";
          Single <$> f image
      | Some text =>
          f ← getattr_callable self "encode_image";
          image_features ← f image;
          image_features ← F_normalize image_features;
          g ← getattr_callable self "encode_voxel";
          text_features ← g text;
          text_features ← F_normalize text_features;
          ls ← getattr "VoxelCLIP" "logit_scale" (logit_scale self);
          Ok (Triple image_features text_features (tensor_exp ls))
      end
  end.

End Methods.
End VoxelCLIP.

(** ** [class CLIP] *)

Module CLIP.

(** The attributes of an instance; [None] while not yet assigned.
    [_parameters] and [_buffers] are the registries of [nn.Module]: a
    parameter is trainable state, a buffer is not; a buffer carries its
    [persistent] flag. *)
Record t (E : Type) : Type := Make {
  context_length : option Z;
  visual : option (module E);
  transformer : option Transformer.t;
  vocab_size : option Z;
  token_embedding : option layer;
  ln_final : option LayerNorm.t;
  _parameters : gmap string (tensor E);
  _buffers : gmap string (tensor E * bool)
}.
Arguments Make {E} _ _ _ _ _ _ _ _.
Arguments context_length {E} _.
Arguments visual {E} _.
Arguments transformer {E} _.
Arguments vocab_size {E} _.
Arguments token_embedding {E} _.
Arguments ln_final {E} _.
Arguments _parameters {E} _.
Arguments _buffers {E} _.

Section Methods.
Context {E : Type} {RT : Runtime E} {SP : Specials E} {FN : Functional E}.

(** [torch.empty(rows, cols)] *)
Definition torch_empty (rows cols : Z) : result (tensor E) :=
  if bool_decide (0 <= rows /\ 0 <= cols)
  then Ok (Tensor float32 [rows; cols]
             (uninit [rows; cols] <$> seq 0 (Z.to_nat (rows * cols))))
  else Raise (RuntimeError "Trying to create tensor with negative dimension").

(** [t.fill_(v)] *)
Definition fill_ (v : E) (x : tensor E) : tensor E :=
  Tensor (t_dtype x) (t_shape x) ((fun _ => v) <$> t_data x).

(** [t.triu_(diagonal)] on a matrix: the elements below the [diagonal]-th
    diagonal become zero, the others stay. *)
Definition triu_ (diagonal : Z) (x : tensor E) : result (tensor E) :=
  match t_shape x with
  | [rows; cols] =>
      Ok (Tensor (t_dtype x) (t_shape x)
            (imap (fun k v =>
                     let i := Z.of_nat k / cols in
                     let j := Z.of_nat k mod cols in
                     if bool_decide (j - i >= diagonal) then v else zero)
               (t_data x)))
  | _ => Raise (RuntimeError "triu: input tensor must have at least 2 dimensions")
  end.

(** [CLIP.build_attention_mask(self)] *)
Definition build_attention_mask (self : t E) : result (tensor E) :=
  L ← getattr "CLIP" "context_length" (context_length self);
  mask ← torch_empty L L;
  let mask := fill_ neg_inf mask in
  triu_ 1 mask.

(** [self.register_buffer(name, tensor, persistent)] *)
Definition register_buffer (name : string) (x : tensor E) (persistent : bool)
    (self : t E) : result (t E) :=
  if bool_decide (is_Some (_parameters self !! name))
  then Raise (KeyError ("attribute '" ++ name ++ "' already exists"))
  else Ok (Make (context_length self) (visual self) (transformer self)
             (vocab_size self) (token_embedding self) (ln_final self)
             (_parameters self) (<[name := (x, persistent)]> (_buffers self))).

(** [self.<name> = nn.Parameter(x)] *)
Definition set_parameter (name : string) (x : tensor E) (self : t E) : t E :=
  Make (context_length self) (visual self) (transformer self)
    (vocab_size self) (token_embedding self) (ln_final self)
    (<[name := x]> (_parameters self)) (_buffers self).

(** [self.<name>] for a parameter *)
Definition parameter (self : t E) (name : string) : result (tensor E) :=
  getattr "CLIP" name (_parameters self !! name).

(** [self.<name>] for a buffer *)
Definition buffer (self : t E) (name : string) : result (tensor E) :=
  fst <$> getattr "CLIP" name (_buffers self !! name).

(** [base ** -0.5] *)
Definition pow_neg_half (base : Z) : result std_val :=
  if bool_decide (base = 0)
  then Raise (ZeroDivisionError "0.0 cannot be raised to a negative power")
  else Ok (StdPowNegHalf base).

(** [seq.<name>] for a child of an [nn.Sequential] *)
Definition Sequential_getattr (seq : Sequential) (name : string) : result layer :=
  match list_find (fun kv => bool_decide (fst kv = name)) seq with
  | Some (_, (_, l)) => Ok l
  | None => Raise (AttributeError ("'Sequential' object has no attribute '" ++ name ++ "'"))
  end.

(** The body of the loop of [init_parameters] for one block; the weights of
    the layers it re-draws live in the runtime, only the lookups are kept. *)
Definition init_block (block : ResidualAttentionBlock.t) : result unit :=
  _ ← Sequential_getattr (ResidualAttentionBlock.mlp block) "c_fc";
  _ ← Sequential_getattr (ResidualAttentionBlock.mlp block) "c_proj";
  Ok tt.

Fixpoint init_blocks (blocks : list ResidualAttentionBlock.t) : result unit :=
  match blocks with
  | [] => Ok tt
  | block :: rest => _ ← init_block block; init_blocks rest
  end.

(** [CLIP.init_parameters(self)] *)
Definition init_parameters (self : t E) : result (t E) :=
  _ ← getattr "CLIP" "token_embedding" (token_embedding self);
  pos ← parameter self "positional_embedding";
  pos ← normal_ (StdLit (1 # 100)) pos;
  let self := set_parameter "positional_embedding" pos self in
  _ ← parameter self "logit_scale";
  let self := set_parameter "logit_scale" initial_logit_scale self in
  v ← getattr "CLIP" "visual" (visual self);
  v ← visual_init_parameters v;
  let self := Make (context_length self) (Some v) (transformer self)
                (vocab_size self) (token_embedding self) (ln_final self)
                (_parameters self) (_buffers self) in
  tr ← getattr "CLIP" "transformer" (transformer self);
  a ← pow_neg_half (Transformer.width tr);
  b ← pow_neg_half (2 * Transformer.layers tr);
  let proj_std := StdMul a b in
  attn_std ← pow_neg_half (Transformer.width tr);
  fc_std ← pow_neg_half (2 * Transformer.width tr);
  _ ← init_blocks (Transformer.resblocks tr);
  match _parameters self !! "text_projection" with
  | Some tp =>
      std ← pow_neg_half (Transformer.width tr);
      tp ← normal_ std tp;
      Ok (set_parameter "text_projection" tp self)
  | None => Ok self
  end.

(** The attribute assignments of [__init__] up to the call of
    [init_parameters]. *)
Definition init_fields (embed_dim : Z) (vision_cfg : CLIPVisionCfg.t)
    (text_cfg : CLIPTextCfg.t) (quick_gelu : bool) : result (t E) :=
  let L := CLIPTextCfg.context_length text_cfg in
  '(v, act) ← build_visual embed_dim vision_cfg quick_gelu;
  let tr := Transformer.__init__ (CLIPTextCfg.width text_cfg)
              (CLIPTextCfg.layers text_cfg) (CLIPTextCfg.heads text_cfg)
              4 act 0 in
  pos ← torch_empty L (CLIPTextCfg.width text_cfg);
  tp ← torch_empty (CLIPTextCfg.width text_cfg) embed_dim;
  let self :=
    Make (Some L) (Some v) (Some tr)
      (Some (CLIPTextCfg.vocab_size text_cfg))
      (Some (Embedding (CLIPTextCfg.vocab_size text_cfg) (CLIPTextCfg.width text_cfg)))
      (Some (LayerNorm.__init__ (CLIPTextCfg.width text_cfg)))
      (<["logit_scale" := initial_logit_scale]>
         (<["text_projection" := tp]> (<["positional_embedding" := pos]> ∅)))
      ∅ in
  mask ← build_attention_mask self;
  register_buffer "attn_mask" mask false self.

(** [CLIP.__init__(self, embed_dim, vision_cfg, text_cfg, quick_gelu)],
    started from the configuration records. *)
Definition __init__ (embed_dim : Z) (vision_cfg : CLIPVisionCfg.t)
    (text_cfg : CLIPTextCfg.t) (quick_gelu : bool) : result (t E) :=
  self ← init_fields embed_dim vision_cfg text_cfg quick_gelu;
  init_parameters self.

(** [CLIP.encode_image(self, image)] *)
Definition encode_image (self : t E) (image : tensor E) : result (tensor E) :=
  v ← getattr "CLIP" "visual" (visual self);
  m_call v image.

(** [CLIP.encode_text(self, text)] *)
Definition encode_text (self : t E) (text : tensor E) : result (tensor E) :=
  emb ← getattr "CLIP" "token_embedding" (token_embedding self);
  x ← nn_call "token_embedding" emb text;
  pos ← parameter self "positional_embedding";
  x ← tensor_add x pos;
  x ← torch.permute [1; 0; 2] x;
  tr ← getattr "CLIP" "transformer" (transformer self);
  mask ← buffer self "attn_mask";
  x ← Transformer.forward "transformer" tr x (Some mask);
  x ← torch.permute [1; 0; 2] x;
  ln ← getattr "CLIP" "ln_final" (ln_final self);
  x ← LayerNorm.forward "ln_final" ln x;
  x ← select_eot x text;
  tp ← parameter self "text_projection";
  matmul x tp.

(** [self.<name>] for a name that is then called with one tensor: the
    methods of the class with that signature and the modules registered on
    the instance; for any other name [nn.Module.__getattr__] raises. *)
Definition getattr_callable (self : t E) (name : string) : result (callable E) :=
  if decide (name = "encode_image") then Ok (encode_image self)
  else if decide (name = "encode_text") then Ok (encode_text self)
  else if decide (name = "visual") then
    m_call <$> getattr "CLIP" name (visual self)
  else if decide (name = "transformer") then
    (fun tr x => Transformer.forward "transformer" tr x None)
      <$> getattr "CLIP" name (transformer self)
  else if decide (name = "token_embedding") then
    nn_call "token_embedding" <$> getattr "CLIP" name (token_embedding self)
  else if decide (name = "ln_final") then
    LayerNorm.forward "ln_final" <$> getattr "CLIP" name (ln_final self)
  else getattr "CLIP" name None.

(** [CLIP.forward(self, image, text)] *)
Definition forward (self : t E) (image text : option (tensor E))
  : result (forward_out E) :=
  match image with
  | None =>
      f ← getattr_callable self "encode_text";
      Single <$> call_on f text
  | Some image =>
      match text with
      | None =>
          f ← getattr_callable self "encode_image";
          Single <$> f image
      | Some text =>
          f ← getattr_callable self "encode_image";
          image_features ← f image;
          image_features ← F_normalize image_features;
          g ← getattr_callable self "encode_text";
          text_features ← g text;
          text_features ← F_normalize text_features;
          ls ← parameter self "logit_scale";
          Ok (Triple image_features text_features (tensor_exp ls))
      end
  end.

End Methods.
End CLIP.

(** ** [convert_weights_to_fp16] *)

(** The classes [isinstance] tells apart. *)
Inductive pyclass : Type :=
| C_Conv1d | C_Conv2d | C_Conv3d
| C_Linear
| C_NonDynamicallyQuantizableLinear     (* [MultiheadAttention.out_proj] *)
| C_MultiheadAttention
| C_Other (name : string).

#[global] Instance pyclass_eq_dec : EqDecision pyclass.
Proof. solve_decision. Defined.

(** A module with its attributes that hold a tensor or [None] (the dicts of
    parameters and buffers) and its child modules, in registration order. *)
#[warnings="-register-all"]
Inductive mod_tree (E : Type) : Type :=
| ModTree (cls : pyclass) (tensors : gmap string (option (tensor E)))
    (children : list (string * mod_tree E)).
Arguments ModTree {E} _ _ _.

Module fp16.
Section Convert.
Context {E : Type} {RT : Runtime E}.

(** [isinstance(l, (nn.Conv1d, nn.Conv2d, nn.Linear))] *)
Definition is_conv_or_linear (cls : pyclass) : bool :=
  match cls with
  | C_Conv1d | C_Conv2d | C_Linear | C_NonDynamicallyQuantizableLinear => true
  | _ => false
  end.

(** [isinstance(l, nn.MultiheadAttention)] *)
Definition is_mha (cls : pyclass) : bool :=
  match cls with
  | C_MultiheadAttention => true
  | _ => false
  end.

(** [t.half()] *)
Definition half (x : tensor E) : tensor E := tensor_to cast float16 x.

(** What [getattr(l, name)] finds: [nn.Module.__getattr__] looks among the
    parameters and buffers, then among the child modules. *)
Inductive attr : Type :=
| ATensor (x : tensor E)
| ANone
| AModule (m : mod_tree E)
| AMissing.

Definition lookup_attr (tensors : gmap string (option (tensor E)))
    (children : list (string * mod_tree E)) (name : string) : attr :=
  match tensors !! name with
  | Some (Some x) => ATensor x
  | Some None => ANone
  | None =>
      match list_find (fun kv => bool_decide (fst kv = name)) children with
      | Some (_, (_, m)) => AModule m
      | None => AMissing
      end
  end.

(** [getattr(l, name).data = getattr(l, name).data.half()] on the stored
    tensor. *)
Definition set_half (name : string) (tensors : gmap string (option (tensor E)))
  : gmap string (option (tensor E)) :=
  alter (fmap half) name tensors.

Definition no_attribute (name : string) : exn :=
  AttributeError ("object has no attribute '" ++ name ++ "'").

(** [l.weight.data = l.weight.data.half()] *)
Definition convert_required (name : string) (children : list (string * mod_tree E))
    (tensors : gmap string (option (tensor E)))
  : gmap string (option (tensor E)) * option exn :=
  match lookup_attr tensors children name with
  | ATensor _ => (set_half name tensors, None)
  | ANone => (tensors, Some (no_attribute "data"))
  | AModule _ => (tensors, Some (no_attribute "data"))
  | AMissing => (tensors, Some (no_attribute name))
  end.

(** [tensor = getattr(l, name)], then
    [if tensor is not None: tensor.data = tensor.data.half()] *)
Definition convert_optional (name : string) (children : list (string * mod_tree E))
    (tensors : gmap string (option (tensor E)))
  : gmap string (option (tensor E)) * option exn :=
  match lookup_attr tensors children name with
  | ATensor _ => (set_half name tensors, None)
  | ANone => (tensors, None)
  | AModule _ => (tensors, Some (no_attribute "data"))
  | AMissing => (tensors, Some (no_attribute name))
  end.

(** [if hasattr(l, name): attr = getattr(l, name); if attr is not None:
    attr.data = attr.data.half()] *)
Definition convert_if_present (name : string) (children : list (string * mod_tree E))
    (tensors : gmap string (option (tensor E)))
  : gmap string (option (tensor E)) * option exn :=
  match lookup_attr tensors children name with
  | ATensor _ => (set_half name tensors, None)
  | ANone => (tensors, None)
  | AModule _ => (tensors, Some (no_attribute "data"))
  | AMissing => (tensors, None)
  end.

(** Statements in sequence: the first exception stops the rest. *)
Definition and_then {S : Type} (f g : S -> S * option exn) (s : S) : S * option exn :=
  match f s with
  | (s', None) => g s'
  | (s', Some e) => (s', Some e)
  end.

Definition skip {S : Type} (s : S) : S * option exn := (s, None).

(** The names the loop over a [MultiheadAttention] goes through. *)
Definition mha_attrs : list string :=
  ["in_proj_weight"; "q_proj_weight"; "k_proj_weight"; "v_proj_weight";
   "in_proj_bias"; "bias_k"; "bias_v"].

(** The names the last loop goes through. *)
Definition projection_names : list string := ["text_projection"; "proj"].

(** [_convert_weights_to_fp16(l)], on the tensor attributes of [l] *)
Definition _convert_weights_to_fp16 (cls : pyclass)
    (children : list (string * mod_tree E))
  : gmap string (option (tensor E)) -> gmap string (option (tensor E)) * option exn :=
  and_then
    (if is_conv_or_linear cls
     then and_then (convert_required "weight" children)
                   (convert_optional "bias" children)
     else skip)
  (and_then
    (if is_mha cls
     then fold_right (fun name k => and_then (convert_optional name children) k)
            skip mha_attrs
     else skip)
    (fold_right (fun name k => and_then (convert_if_present name children) k)
       skip projection_names)).

(** The loop [for module in self.children(): module.apply(fn)]: the first
    exception stops it, with the children before it converted. *)
Fixpoint apply_children (apply : mod_tree E -> mod_tree E * option exn)
    (cs : list (string * mod_tree E)) : list (string * mod_tree E) * option exn :=
  match cs with
  | [] => ([], None)
  | nc :: rest =>
      match apply (snd nc) with
      | (c', Some e) => ((fst nc, c') :: rest, Some e)
      | (c', None) =>
          let '(rest', err) := apply_children apply rest in
          ((fst nc, c') :: rest', err)
      end
  end.

(** [module.apply(fn)] with [fn = _convert_weights_to_fp16]: the children
    first, in order, then the module itself.  The tree is returned as the
    call leaves it, with the exception if one was raised. *)
Fixpoint apply (m : mod_tree E) : mod_tree E * option exn :=
  match m with
  | ModTree cls tensors children =>
      match apply_children apply children with
      | (children', Some e) => (ModTree cls tensors children', Some e)
      | (children', None) =>
          let '(tensors', err) := _convert_weights_to_fp16 cls children' tensors in
          (ModTree cls tensors' children', err)
      end
  end.

(** [convert_weights_to_fp16(model)] *)
Definition convert_weights_to_fp16 (model : mod_tree E) : mod_tree E * option exn :=
  apply model.

End Convert.
End fp16.

(** ** [resize_pos_embed] *)

(** Modelled from the spec: [to_2tuple] of [open_clip/utils.py], which is not
    among the source files; the spec has the stored embeddings reshaped
    "into a square 2D grid" from one side length, so a single number is
    doubled into a pair and a pair is kept. *)
Definition to_2tuple (x : Z + Z * Z) : Z * Z :=
  match x with
  | inl n => (n, n)
  | inr p => p
  end.

Module pos_embed.
Section Resize.
Context {E : Type} {RT : Runtime E}.

(** [int(math.sqrt(n))] for [n >= 0] *)
Definition int_sqrt (n : Z) : Z := Z.sqrt n.

(** [resize_pos_embed(state_dict, model, interpolation, seq_dim)].
    [grid_size] is [model.visual.grid_size], [None] when the visual tower has
    no such attribute.  The result is the state dict after the call. *)
Definition resize_pos_embed (state_dict : gmap string (tensor E))
    (grid_size : option (Z + Z * Z)) (interpolation : string)
  : result (gmap string (tensor E)) :=
  match state_dict !! "visual.positional_embedding", grid_size with
  | Some old_pos_embed, Some grid_size =>
      let grid_size := to_2tuple grid_size in
      let extra_tokens := 1 in
      let new_seq_len := fst grid_size * snd grid_size + extra_tokens in
      old_len ← torch.shape0 old_pos_embed;
      if bool_decide (new_seq_len = old_len) then Ok state_dict
      else
        pos_emb_tok ← torch.slice_to extra_tokens old_pos_embed;
        pos_emb_img ← torch.slice_from extra_tokens old_pos_embed;
        n ← torch.len pos_emb_img;
        let old_grid_size := to_2tuple (inl (int_sqrt n)) in
        pos_emb_img ← torch.reshape [1; fst old_grid_size; snd old_grid_size; -1] pos_emb_img;
        pos_emb_img ← torch.permute [0; 3; 1; 2] pos_emb_img;
        pos_emb_img ← torch.F_interpolate pos_emb_img grid_size interpolation;
        pos_emb_img ← torch.permute [0; 2; 3; 1] pos_emb_img;
        pos_emb_img ← torch.reshape [1; fst grid_size * snd grid_size; -1] pos_emb_img;
        pos_emb_img ← torch.index0 pos_emb_img;
        new_pos_embed ← torch.cat0 pos_emb_tok pos_emb_img;
        Ok (<["visual.positional_embedding" := new_pos_embed]> state_dict)
  | _, _ => Ok state_dict
  end.

End Resize.
End pos_embed.

(** ** Python sequences *)

(** [seq[i]] on a list or tuple: an index below zero counts from the end.
    [kind] is the word the interpreter puts in the message. *)
Definition py_index {A : Type} (kind : string) (l : list A) (i : Z) : result A :=
  let n := Z.of_nat (length l) in
  let j := if bool_decide (i < 0) then n + i else i in
  match (if bool_decide (0 <= j) then l !! Z.to_nat j else None) with
  | Some a => Ok a
  | None => Raise (IndexError (kind ++ " index out of range"))
  end.

(** [range(n)] and [range(a, b)] *)
Definition range (n : Z) : list Z := seqZ 0 n.
Definition range_from (a b : Z) : list Z := seqZ a (b - a).

(** [for a in l: s = body(s, a)], stopped by the first exception. *)
Fixpoint py_for {A S : Type} (l : list A) (body : S -> A -> result S) (s : S)
  : result S :=
  match l with
  | [] => Ok s
  | a :: rest => s' ← body s a; py_for rest body s'
  end.

(** [[f(a) for a in l]], stopped by the first exception. *)
Fixpoint py_comprehension {A B : Type} (f : A -> result B) (l : list A)
  : result (list B) :=
  match l with
  | [] => Ok []
  | a :: rest => b ← f a; bs ← py_comprehension f rest; Ok (b :: bs)
  end.

(** [d[k] = v] on an [OrderedDict]: a key already present keeps its place
    and takes the new value, a new key goes to the end. *)
Definition OrderedDict_set {A : Type} (d : list (string * A)) (k : string) (v : A)
  : list (string * A) :=
  if bool_decide (k ∈ d.*1)
  then (fun kv : string * A => if bool_decide (kv.1 = k) then (k, v) else kv) <$> d
  else (d ++ [(k, v)])%list.

(** [OrderedDict(pairs)] *)
Definition OrderedDict {A : Type} (pairs : list (string * A)) : list (string * A) :=
  foldl (fun d kv => OrderedDict_set d kv.1 kv.2) [] pairs.

(** ** [class MLP] *)

Module MLP.

(** A child of the [nn.Sequential] the class builds: a layer of [torch.nn],
    or this file's [LayerNorm]. *)
Inductive child : Type :=
| Torch (l : layer)
| Norm (ln : LayerNorm.t).

Record t : Type := Make { layers : list (string * child) }.

(** The four entries the loop of [__init__] appends for the index [i]. *)
Definition hidden (hidden_dim : Z) (act : act_layer) (i : Z) : list (string * child) :=
  [ ("fc" ++ pretty i, Torch (Linear hidden_dim hidden_dim));
    ("gelu" ++ pretty (i + 2), Torch (Act act));
    ("dropout" ++ pretty (i + 2), Torch (Dropout (3 # 10)));
    ("ln" ++ pretty (i + 2), Norm (LayerNorm.__init__ hidden_dim)) ].

(** The list [layers] as [__init__] has it before it is made an
    [OrderedDict]. *)
Definition layer_list (input_dim output_dim hidden_dim num_layers : Z) (act : act_layer)
  : list (string * child) :=
  let input_layer := Linear input_dim hidden_dim in
  let output_layer := Linear hidden_dim output_dim in
  let layers := [("input", Torch input_layer)] in
  let layers :=
    foldl (fun layers i => (layers ++ hidden hidden_dim act i)%list) layers
      (range (num_layers - 1)) in
  (layers ++ [("output", Torch output_layer)])%list.

(** [MLP.__init__(self, input_dim, output_dim, hidden_dim, num_layers,
    act_layer)] *)
Definition __init__ (input_dim output_dim hidden_dim num_layers : Z) (act : act_layer)
  : t :=
  {| layers := OrderedDict (layer_list input_dim output_dim hidden_dim num_layers act) |}.

Section Forward.
Context {E : Type} {RT : Runtime E}.

(** Calling one child, stored at [path]. *)
Definition call_child (path : string) (c : child) (x : tensor E) : result (tensor E) :=
  match c with
  | Torch l => nn_call path l x
  | Norm ln => LayerNorm.forward path ln x
  end.

(** [nn.Sequential.forward] over the children. *)
Fixpoint run (path : string) (cs : list (string * child)) (x : tensor E)
  : result (tensor E) :=
  match cs with
  | [] => Ok x
  | (name, c) :: rest =>
      x' ← call_child (path ++ "." ++ name) c x;
      run path rest x'
  end.

(** [MLP.forward(self, x)] *)
Definition forward (self : t) (x : tensor E) : result (tensor E) :=
  run "layers" (layers self) x.

End Forward.
End MLP.

(** ** [class AttentionPool2d] and [class ModifiedResNet]: construction *)

(** [a or b] on an optional integer: [None] and [0] are false. *)
Definition py_or (a : option Z) (b : Z) : Z :=
  match a with
  | Some v => if bool_decide (v = 0) then b else v
  | None => b
  end.

(** [l.in_features] *)
Definition in_features (l : layer) : result Z :=
  match l with
  | Linear i _ => Ok i
  | _ => Raise (AttributeError "object has no attribute 'in_features'")
  end.

Module AttentionPool2d.

Record t : Type := Make {
  (* shape of the parameter [positional_embedding] *)
  positional_embedding : list Z;
  k_proj : layer;
  q_proj : layer;
  v_proj : layer;
  c_proj : layer;
  num_heads : Z
}.

(** [AttentionPool2d.__init__(self, spacial_dim, embed_dim, num_heads,
    output_dim=None)] *)
Definition __init__ (spacial_dim embed_dim num_heads : Z) (output_dim : option Z) : t :=
  {| positional_embedding := [spacial_dim ^ 2 + 1; embed_dim];
     k_proj := Linear embed_dim embed_dim;
     q_proj := Linear embed_dim embed_dim;
     v_proj := Linear embed_dim embed_dim;
     c_proj := Linear embed_dim (py_or output_dim embed_dim);
     num_heads := num_heads |}.

End AttentionPool2d.

Module ModifiedResNet.

(** The attributes of an instance; a stage is the list of the blocks of its
    [nn.Sequential]. *)
Record t : Type := Make {
  output_dim : Z;
  image_size : Z + Z * Z;
  conv1 : layer; bn1 : layer; relu1 : layer;
  conv2 : layer; bn2 : layer; relu2 : layer;
  conv3 : layer; bn3 : layer; relu3 : layer;
  avgpool : layer;
  _inplanes : Z;
  layer1 : list Bottleneck.t;
  layer2 : list Bottleneck.t;
  layer3 : list Bottleneck.t;
  layer4 : list Bottleneck.t;
  attnpool : AttentionPool2d.t
}.

(** [ModifiedResNet._make_layer(self, planes, blocks, stride=1)]: the blocks
    of the stage and the value it leaves in [self._inplanes]. *)
Definition _make_layer (_inplanes : Z) (planes blocks stride : Z)
  : list Bottleneck.t * Z :=
  let layers := [Bottleneck.__init__ _inplanes planes stride] in
  let _inplanes := planes * Bottleneck.expansion in
  let layers :=
    foldl (fun layers _ => (layers ++ [Bottleneck.__init__ _inplanes planes 1])%list)
      layers (range_from 1 blocks) in
  (layers, _inplanes).

(** [ModifiedResNet.init_parameters(self)]: the weights it re-draws and
    zeroes live in the runtime; what is kept is the standard deviation it
    computes first. *)
Definition init_parameters (self : t) : result unit :=
  n ← in_features (AttentionPool2d.c_proj (attnpool self));
  _ ← CLIP.pow_neg_half n;
  Ok tt.

(** [ModifiedResNet.__init__(self, layers, output_dim, heads,
    image_size=224, width=64)] *)
Definition __init__ (layers : list Z) (output_dim heads : Z) (image_size : Z + Z * Z)
    (width : Z) : result t :=
  let _inplanes := width in
  blocks1 ← py_index "tuple" layers 0;
  let '(layer1, _inplanes) := _make_layer _inplanes width blocks1 1 in
  blocks2 ← py_index "tuple" layers 1;
  let '(layer2, _inplanes) := _make_layer _inplanes (width * 2) blocks2 2 in
  blocks3 ← py_index "tuple" layers 2;
  let '(layer3, _inplanes) := _make_layer _inplanes (width * 4) blocks3 2 in
  blocks4 ← py_index "tuple" layers 3;
  let '(layer4, _inplanes) := _make_layer _inplanes (width * 8) blocks4 2 in
  let embed_dim := width * 32 in
  spacial_dim ← match image_size with
                | inl n => Ok (n / 32)
                | inr _ =>
                    Raise (TypeError "unsupported operand type(s) for //: 'tuple' and 'int'")
                end;
  let self :=
    {| output_dim := output_dim;
       image_size := image_size;
       conv1 := Conv2d 3 (width / 2) 3 2 1 false;
       bn1 := BatchNorm2d (width / 2);
       relu1 := ReLU true;
       conv2 := Conv2d (width / 2) (width / 2) 3 1 1 false;
       bn2 := BatchNorm2d (width / 2);
       relu2 := ReLU true;
       conv3 := Conv2d (width / 2) width 3 1 1 false;
       bn3 := BatchNorm2d width;
       relu3 := ReLU true;
       avgpool := AvgPool2d 2;
       _inplanes := _inplanes;
       layer1 := layer1; layer2 := layer2; layer3 := layer3; layer4 := layer4;
       attnpool := AttentionPool2d.__init__ spacial_dim embed_dim heads (Some output_dim) |} in
  _ ← init_parameters self;
  Ok self.

End ModifiedResNet.

(** ** [class Voxel2DVisualTransformer]: forward *)

Module Voxel2DVisualTransformer.

(** The attributes the subclass sets after [super().__init__]: the channel
    axis and the image size, which replaces the pair the superclass
    stored. *)
Record t : Type := Make {
  channel_dim : Z;
  image_size : Z
}.

Section Forward.
Context {E : Type} {RT : Runtime E} {SP : Specials E}.

(** [x.permute(dims...)] for computed axes: torch checks their number, then
    counts an axis below zero from the end. *)
Definition permute (dims : list Z) (x : tensor E) : result (tensor E) :=
  let n := Z.of_nat (length (t_shape x)) in
  if bool_decide (length dims = length (t_shape x)) then
    if forallb (fun d => bool_decide (- n <= d < n)) dims
    then torch.permute ((fun d => if bool_decide (d < 0) then d + n else d) <$> dims) x
    else Raise (IndexError "Dimension out of range")
  else
    Raise (RuntimeError
             "permute: number of dimensions in the tensor input does not match the length of the desired ordering").

(** [F.pad(x, (0, right, 0, bottom), mode='constant', value=0)]: the last
    axis grows by [right] and the one before it by [bottom], both at the
    end; an element outside the old extent is zero. *)
Definition F_pad (x : tensor E) (right bottom : Z) : result (tensor E) :=
  match rev (t_shape x) with
  | w :: h :: pre =>
      let w' := w + right in
      let h' := h + bottom in
      if bool_decide (0 <= w' /\ 0 <= h') then
        let planes := torch.numel (rev pre) in
        Ok (Tensor (t_dtype x) (rev pre ++ [h'; w'])
              ((fun k : Z =>
                  let j := k mod w' in
                  let i := (k / w') mod h' in
                  let p := k / (w' * h') in
                  if bool_decide (i < h /\ j < w)
                  then default zero (t_data x !! Z.to_nat ((p * h + i) * w + j))
                  else zero)
                 <$> seqZ 0 (planes * h' * w')))
      else Raise (RuntimeError "The input size plus negative padding resulted in a negative output size")
  | _ => Raise (RuntimeError "Padding length should be less than or equal to two times the input dimension")
  end.

(** The lines of [forward] before [super().forward(x)]: the permuted and
    padded input. *)
Definition prepare (self : t) (x : tensor E) : result (tensor E) :=
  let other_dims :=
    (fun i => i + 1) <$> filter (fun x => x <> channel_dim self) [0; 1; 2] in
  x ← permute (0 :: channel_dim self + 1 :: other_dims) x;
  last ← py_index "tuple" (t_shape x) (-1);
  _ ← py_assert (bool_decide (last <= image_size self))
        ("Last channel dimension " ++ pretty last
         ++ " is larger than image size " ++ pretty (image_size self));
  second ← py_index "tuple" (t_shape x) (-2);
  _ ← py_assert (bool_decide (second <= image_size self))
        ("Second to last channel dimension " ++ pretty second
         ++ " is larger than image size " ++ pretty (image_size self));
  let channel_1_pad := image_size self - last in
  let channel_0_pad := image_size self - second in
  F_pad x channel_1_pad channel_0_pad.

(** [Voxel2DVisualTransformer.forward(self, x)]; [super_forward] is
    [VisualTransformer.forward] on the same instance. *)
Definition forward (super_forward : callable E) (self : t) (x : tensor E)
  : result (tensor E) :=
  x ← prepare self x;
  super_forward x.

End Forward.
End Voxel2DVisualTransformer.

(** ** The 3-D convolution encoders: construction *)

(** [nn.Sequential(nn.Conv3d(c_in, c_out, kernel_size, stride, padding,
    dilation), nn.Dropout3d(0.1), act_layer())], as [_get_conv_layer]
    returns it. *)
Record conv3d_block : Type := Conv3dBlock {
  cb_in : Z;
  cb_out : Z;
  cb_kernel_size : Z;
  cb_stride : Z;
  cb_padding : Z;
  cb_dilation : Z;
  cb_dropout : Q;
  cb_act : act_layer
}.

(** [int((d + 2*padding - dialation*(kernel - 1) - 1)/(stride) + 1)].  The
    quotient is a float; for [|d| < 2^52] and the strides 1 and 2 of the
    encoders no rounding takes place and it is the rational one. *)
Definition conv_out_dim (padding dialation kernel stride : Z) (d : Z) : result Z :=
  if bool_decide (stride = 0) then Raise (ZeroDivisionError "division by zero")
  else
    Ok (py_int (inject_Z (d + 2 * padding - dialation * (kernel - 1) - 1)
                  / inject_Z stride + 1)%Q).

(** The message of the assertion on the five lists. *)
Definition lengths_message (a b c d e : nat) : string :=
  "Lengths of channels, strides, padding, dialation, and kernel must be the same. Got "
  ++ pretty a ++ ", " ++ pretty b ++ ", " ++ pretty c ++ ", " ++ pretty d ++ ", "
  ++ pretty e.

Module NewVoxel3dConvEncoder.

Record t : Type := Make {
  average_output : bool;
  channels : list Z;
  strides : list Z;
  padding : list Z;
  dialation : list Z;
  kernel : list Z;
  conv_blocks : list conv3d_block;
  transformer : Transformer.t;
  (* the parameter [proj] by its shape, or the layer [proj] *)
  proj : list Z + layer
}.

(** [NewVoxel3dConvEncoder._get_conv_layer(self, c_in, c_out, kernel_size,
    stride, padding, dilation, act_layer)] *)
Definition _get_conv_layer (c_in c_out kernel_size stride padding dilation : Z)
    (act : act_layer) : conv3d_block :=
  Conv3dBlock c_in c_out kernel_size stride padding dilation (1 # 10) act.

(** [NewVoxel3dConvEncoder.__init__(self, dims, attention_width, output_dim,
    c_in=1, average_output=False, act_layer)] *)
Definition __init__ (dims : list Z) (attention_width output_dim c_in : Z)
    (average_output : bool) (act : act_layer) : result t :=
  let channels_ := [64; 128; 256; 256; 256; attention_width] in
  let strides_ := [1; 1; 1; 2; 2; 2] in
  let padding_ := [1; 1; 1; 0; 1; 0] in
  let dialation_ := [1; 1; 1; 1; 1; 1] in
  let kernel_ := [3; 3; 3; 3; 3; 3] in
  _ ← py_assert
        (bool_decide (length channels_ = length strides_)
         && bool_decide (length strides_ = length padding_)
         && bool_decide (length padding_ = length dialation_)
         && bool_decide (length dialation_ = length kernel_))
        (lengths_message (length channels_) (length strides_) (length padding_)
           (length dialation_) (length kernel_));
  let channels' := c_in :: channels_ in
  blocks ← py_comprehension
             (fun i =>
                a ← py_index "list" channels' i;
                b ← py_index "list" channels' (i + 1);
                k ← py_index "list" kernel_ i;
                s ← py_index "list" strides_ i;
                p ← py_index "list" padding_ i;
                d ← py_index "list" dialation_ i;
                Ok (_get_conv_layer a b k s p d act))
             (range (Z.of_nat (length channels_)));
  dims ← py_for (range (Z.of_nat (length channels_)))
           (fun dims n =>
              stride ← py_index "list" strides_ n;
              dialation ← py_index "list" dialation_ n;
              padding ← py_index "list" padding_ n;
              kernel ← py_index "list" kernel_ n;
              py_comprehension (conv_out_dim padding dialation kernel stride) dims)
           dims;
  let transformer := Transformer.__init__ attention_width 2 8 4 act 0 in
  d0 ← py_index "list" dims 0;
  d1 ← py_index "list" dims 1;
  d2 ← py_index "list" dims 2;
  let features := attention_width * d0 * d1 * d2 in
  proj ← (if average_output
          then _ ← CLIP.pow_neg_half attention_width;
               Ok (inl [attention_width; output_dim])
          else Ok (inr (Linear features output_dim)));
  Ok {| average_output := average_output;
        channels := channels_;
        strides := strides_;
        padding := padding_;
        dialation := dialation_;
        kernel := kernel_;
        conv_blocks := blocks;
        transformer := transformer;
        proj := proj |}.

End NewVoxel3dConvEncoder.

Module Voxel3dConvEncoder.

Record t : Type := Make {
  conv_blocks : list conv3d_block;
  mlp : MLP.t
}.

(** [Voxel3dConvEncoder._get_conv_layer(self, c_in, c_out, kernel_size,
    stride, act_layer)]: [nn.Conv3d]'s defaults are no padding and dilation
    one. *)
Definition _get_conv_layer (c_in c_out kernel_size stride : Z) (act : act_layer)
  : conv3d_block :=
  Conv3dBlock c_in c_out kernel_size stride 0 1 (1 # 10) act.

(** [Voxel3dConvEncoder.__init__(self, dims, layers, output_dim,
    act_layer)]; the MLP is built without [act_layer], so with its default
    [nn.GELU]. *)
Definition __init__ (dims : list Z) (layers output_dim : Z) (act : act_layer)
  : result t :=
  let channels := [1; 32; 64; 64; 32; 32; 32; 32; 32] in
  let strides := [1; 1; 2; 1; 1; 1; 2; 1] in
  blocks ← py_comprehension
             (fun i =>
                a ← py_index "list" channels i;
                b ← py_index "list" channels (i + 1);
                s ← py_index "list" strides i;
                Ok (_get_conv_layer a b 3 s act))
             (range layers);
  dims ← py_for (range layers)
           (fun dims n =>
              stride ← py_index "list" strides n;
              let dialation := 1 in
              let padding := 0 in
              let kernel := 3 in
              py_comprehension (conv_out_dim padding dialation kernel stride) dims)
           dims;
  c ← py_index "list" channels layers;
  d0 ← py_index "list" dims 0;
  d1 ← py_index "list" dims 1;
  d2 ← py_index "list" dims 2;
  Ok {| conv_blocks := blocks;
        mlp := MLP.__init__ (c * d0 * d1 * d2) output_dim (output_dim * 4) 3 GELU |}.

End Voxel3dConvEncoder.

(** ** [class QuickGELU], in exact real arithmetic *)

Module QuickGELU.

(** [torch.sigmoid] on one element *)
Definition sigmoid (z : R) : R := (1 / (1 + exp (- z)))%R.

(** [x * torch.sigmoid(1.702 * x)] on one element *)
Definition quick_gelu (v : R) : R := (v * sigmoid (1.702 * v))%R.

(** [QuickGELU.forward(self, x)] *)
Definition forward (x : tensor R) : tensor R :=
  Tensor (t_dtype x) (t_shape x) (quick_gelu <$> t_data x).

End QuickGELU.

(** ** [build_model_from_openai_state_dict] *)

(** [k.startswith(p)] *)
Definition startswith (k p : string) : bool := String.prefix p k.

(** [k.endswith(s)]: [k] or one of its tails is [s]. *)
Fixpoint endswith (k s : string) : bool :=
  String.eqb k s
  || match k with
     | EmptyString => false
     | String _ rest => endswith rest s
     end.

(** [k.split(".")]: the pieces between the dots, empty ones included. *)
Fixpoint split_dot (k : string) : list string :=
  match k with
  | EmptyString => [EmptyString]
  | String c rest =>
      if Ascii.eqb c "." then EmptyString :: split_dot rest
      else match split_dot rest with
           | [] => [String c EmptyString]
           | w :: ws => String c w :: ws
           end
  end.

Module openai.
Section Build.
Context {E : Type} {RT : Runtime E} {SP : Specials E} {FN : Functional E}.

(** [state_dict[key]] *)
Definition getitem (state_dict : gmap string (tensor E)) (key : string)
  : result (tensor E) :=
  match state_dict !! key with
  | Some x => Ok x
  | None => Raise (KeyError key)
  end.

(** [x.shape[i]] *)
Definition shape_at (x : tensor E) (i : Z) : result Z :=
  py_index "tuple" (t_shape x) i.

(** [round(m ** 0.5)] on an integer: a negative [m] has a complex power,
    which [round] rejects; otherwise the integer nearest to the square
    root (no integer has its root halfway between two integers). *)
Definition round_sqrt (m : Z) : result Z :=
  if bool_decide (m < 0)
  then Raise (TypeError "type complex doesn't define __round__ method")
  else
    let s := Z.sqrt m in
    Ok (if bool_decide (m - s * s <= s) then s else s + 1).

(** [len(set(k.split(".")[2] for k in state_dict if k.startswith(prefix)))] *)
Definition count_blocks (keys : list string) (prefix : string) : result Z :=
  parts ← py_comprehension (fun k => py_index "list" (split_dot k) 2)
             (filter (fun k => startswith k prefix = true) keys);
  Ok (Z.of_nat (size (list_to_set parts : gset string))).

(** [build_model_from_openai_state_dict(state_dict)].  [finish] stands for
    the calls on the constructed model that end the function, after the
    three keys are popped: [convert_weights_to_fp16(model)],
    [model.load_state_dict(state_dict)] and [model.eval()].  On the
    residual path the code passes [patch_size=None], a field the residual
    branch of the constructor does not read; the record holds 0 there. *)
Definition build_model_from_openai_state_dict {A : Type}
    (finish : CLIP.t E -> gmap string (tensor E) -> result A)
    (state_dict : gmap string (tensor E)) : result A :=
  let keys := (map_to_list state_dict).*1 in
  let vit := bool_decide (is_Some (state_dict !! "visual.proj")) in
  '(vision_layers, vision_width, vision_patch_size, image_size) ←
    (if vit then
       w ← getitem state_dict "visual.conv1.weight";
       vision_width ← shape_at w 0;
       let vision_layers :=
         Z.of_nat (length (filter (fun k => startswith k "visual." = true
                                            /\ endswith k ".attn.in_proj_weight" = true)
                             keys)) in
       w ← getitem state_dict "visual.conv1.weight";
       vision_patch_size ← shape_at w (-1);
       pe ← getitem state_dict "visual.positional_embedding";
       n ← shape_at pe 0;
       grid_size ← round_sqrt (n - 1);
       let image_size := vision_patch_size * grid_size in
       Ok (inl vision_layers, vision_width, Some vision_patch_size, image_size)
     else
       counts ← py_comprehension
                  (fun b : Z => count_blocks keys ("visual.layer" ++ pretty b))
                  [1; 2; 3; 4];
       let vision_layers := counts in
       w ← getitem state_dict "visual.layer1.0.conv1.weight";
       vision_width ← shape_at w 0;
       pe ← getitem state_dict "visual.attnpool.positional_embedding";
       n ← shape_at pe 0;
       output_width ← round_sqrt (n - 1);
       let vision_patch_size := None in
       pe ← getitem state_dict "visual.attnpool.positional_embedding";
       n ← shape_at pe 0;
       _ ← py_assert (bool_decide (output_width ^ 2 + 1 = n)) "";
       let image_size := output_width * 32 in
       Ok (inr vision_layers, vision_width, vision_patch_size, image_size));
  tp ← getitem state_dict "text_projection";
  embed_dim ← shape_at tp 1;
  pe ← getitem state_dict "positional_embedding";
  context_length ← shape_at pe 0;
  te ← getitem state_dict "token_embedding.weight";
  vocab_size ← shape_at te 0;
  ln ← getitem state_dict "ln_final.weight";
  transformer_width ← shape_at ln 0;
  let transformer_heads := transformer_width / 64 in
  transformer_layers ← count_blocks keys "transformer.resblocks";
  let vision_cfg :=
    CLIPVisionCfg.Make vision_layers vision_width 64 4
      (default 0 vision_patch_size) (inl image_size) None false "avg" "linear" in
  let text_cfg :=
    CLIPTextCfg.Make context_length vocab_size transformer_width transformer_heads
      transformer_layers in
  model ← CLIP.__init__ embed_dim vision_cfg text_cfg true;
  let state_dict :=
    foldl (fun sd key => delete key sd) state_dict
      ["input_resolution"; "context_length"; "vocab_size"] in
  finish model state_dict.

End Build.
End openai.

(** * Part II: properties *)

(** ** A small runtime to evaluate the embedding on *)

(** Elements for concrete runs: minus infinity and integers. *)
Inductive val : Type := VNegInf | VNum (z : Z).

#[global] Instance val_eq_dec : EqDecision val.
Proof. solve_decision. Defined.

(** A runtime whose layers return their input, and whose [layer_norm]
    reports the precision of the tensor it is given. *)
Definition probe_runtime : Runtime val := {|
  nn_call := fun _ _ x => Ok x;
  attn_call := fun _ _ x _ => Ok x;
  tensor_add := fun a _ => Ok a;
  F_layer_norm := fun _ _ _ x =>
    Ok (Tensor (t_dtype x) (t_shape x) [VNum (precision (t_dtype x))]);
  cast := fun _ v => v;
  permute_data := fun _ _ l => l;
  matmul_param := fun _ x => Ok x;
  select_first_token := fun x => Ok x;
  param_repeat := fun _ n => Ok (Tensor float32 [n; 1] []);
  matmul := fun a _ => Ok a;
  select_eot := fun x _ => Ok x;
  np_log := fun _ => VNum 0;
  uninit := fun _ k => VNum (Z.of_nat k);
  normal_ := fun _ x => Ok x;
  interpolate_data := fun _ _ _ _ k => VNum (Z.of_nat k);
  instantiate := fun _ => Ok (fun x => Ok x);
  timm_has_init_parameters := false;
  reinit := fun _ f => Ok f
|}.

Definition probe_specials : Specials val := {|
  neg_inf := VNegInf;
  zero := VNum 0
|}.

Definition probe_functional : Functional val := {|
  F_normalize := fun x => Ok x;
  tensor_exp := fun x => x
|}.

(** Inversion of a successful run: every step before the result returned. *)
Ltac bind_inv H :=
  repeat match type of H with
         | (?m ≫= _) = Ok _ =>
             let x := fresh "x" in
             let Hx := fresh "Hx" in
             destruct m as [x|] eqn:Hx; cbn in H; [|discriminate H]
         | (let (_, _) := ?p in _) = Ok _ => destruct p; cbn in H
         | (if ?b then _ else _) = Ok _ =>
             let Hb := fresh "Hb" in
             destruct b eqn:Hb; cbn in H; try discriminate H
         | (match ?m with _ => _ end) = Ok _ =>
             let Hm := fresh "Hm" in
             destruct m eqn:Hm; cbn in H; try discriminate H
         end.

(** ** Bottleneck *)

Module Bottleneck_facts.
Section Facts.
Context {E : Type} {RT : Runtime E}.

(** The three convolutions of the block with their normalizations, up to
    [bn3]: the part of [forward] computed before the shortcut is added. *)
Definition main_path (conv1 bn1 relu1 conv2 bn2 relu2 avgpool conv3 bn3 : layer)
    (x : tensor E) : result (tensor E) :=
  out ← nn_call "conv1" conv1 x;
  out ← nn_call "bn1" bn1 out;
  out ← nn_call "relu1" relu1 out;
  out ← nn_call "conv2" conv2 out;
  out ← nn_call "bn2" bn2 out;
  out ← nn_call "relu2" relu2 out;
  out ← nn_call "avgpool" avgpool out;
  out ← nn_call "conv3" conv3 out;
  nn_call "bn3" bn3 out.

(** The shortcut: the input, downsampled when the block has a downsample
    path. *)
Definition identity_branch (downsample : option Sequential) (x : tensor E)
  : result (tensor E) :=
  match downsample with
  | Some ds => Sequential_forward "downsample" ds x
  | None => Ok x
  end.

(** C8: a Bottleneck built with [inplanes], [planes] and [stride] has a
    downsample path exactly when [stride > 1] or [inplanes] differs from
    [planes * 4]; the path is an average pooling, then a 1x1 convolution of
    stride 1, then a batch normalization, run in that order; and [forward]
    adds the downsampled input to the output of the main path, which is
    computed from the block's other layers only. *)
Theorem downsample_iff_and_shortcut_only (inplanes planes stride : Z) :
  let b := Bottleneck.__init__ inplanes planes stride in
  (is_Some (Bottleneck.downsample b)
     <-> (stride > 1 \/ inplanes <> planes * Bottleneck.expansion))
  /\ (forall ds, Bottleneck.downsample b = Some ds ->
        ds = [("-1", AvgPool2d stride);
              ("0", Conv2d inplanes (planes * 4) 1 1 0 false);
              ("1", BatchNorm2d (planes * 4))]
        /\ forall x,
            Sequential_forward "downsample" ds x =
              (pooled ← nn_call "downsample.-1" (AvgPool2d stride) x;
               projected ← nn_call "downsample.0"
                             (Conv2d inplanes (planes * 4) 1 1 0 false) pooled;
               nn_call "downsample.1" (BatchNorm2d (planes * 4)) projected))
  /\ (forall x,
        Bottleneck.forward b x =
          (out ← main_path (Bottleneck.conv1 b) (Bottleneck.bn1 b) (Bottleneck.relu1 b)
                   (Bottleneck.conv2 b) (Bottleneck.bn2 b) (Bottleneck.relu2 b)
                   (Bottleneck.avgpool b) (Bottleneck.conv3 b) (Bottleneck.bn3 b) x;
           identity ← identity_branch (Bottleneck.downsample b) x;
           out ← tensor_add out identity;
           nn_call "relu3" (Bottleneck.relu3 b) out))
  /\ (Bottleneck.downsample b = None ->
        forall x, identity_branch (Bottleneck.downsample b) x = Ok x).
Proof.
  intros b. split; [|split; [|split]].
  - subst b. cbn. split.
    + intros [ds Hds].
      destruct (bool_decide (stride > 1)) eqn:Hs.
      * left. by apply bool_decide_eq_true in Hs.
      * destruct (bool_decide (inplanes = planes * Bottleneck.expansion)) eqn:Hp;
          cbn in Hds; [discriminate|].
        right. by apply bool_decide_eq_false in Hp.
    + intros [H|H].
      * rewrite (bool_decide_eq_true_2 _ H). cbn. eauto.
      * rewrite (bool_decide_eq_false_2 _ H). rewrite orb_true_r. eauto.
  - intros ds Hds. subst b. cbn in Hds.
    destruct (_ || _); [|discriminate]. inversion Hds; subst ds. clear Hds.
    split; [reflexivity|]. intros x. cbn.
    destruct (nn_call _ _ x) as [x1|]; cbn; [|reflexivity].
    destruct (nn_call _ _ x1) as [x2|]; cbn; [|reflexivity].
    destruct (nn_call _ _ x2) as [x3|]; cbn; reflexivity.
  - intros x. unfold Bottleneck.forward, main_path.
    repeat match goal with
           | |- context [nn_call ?p ?l ?y ≫= _] =>
               is_var y; destruct (nn_call p l y) as [?|?]; cbn; [|reflexivity]
           end.
    reflexivity.
  - intros H x. rewrite H. reflexivity.
Qed.

End Facts.
End Bottleneck_facts.

(** ** The causal attention mask *)

Module attention_mask.
Section Facts.
Context {E : Type} {RT : Runtime E} {SP : Specials E}.

(** The mask in closed form, from the context length alone: row-major,
    minus infinity strictly above the diagonal and zero elsewhere. *)
Definition causal_mask (L : Z) : tensor E :=
  Tensor float32 [L; L]
    ((fun k : nat =>
        if bool_decide (Z.of_nat k mod L - Z.of_nat k / L >= 1) then neg_inf else zero)
       <$> seq 0 (Z.to_nat (L * L))).

Lemma mask_data_closed_form (L : Z) (n : nat) :
  imap (fun (k : nat) (v : E) =>
          if bool_decide (Z.of_nat k mod L - Z.of_nat k / L >= 1) then v else zero)
       ((fun _ : E => neg_inf) <$> (uninit [L; L] <$> seq 0 n))
  = (fun k : nat =>
       if bool_decide (Z.of_nat k mod L - Z.of_nat k / L >= 1) then neg_inf else zero)
      <$> seq 0 n.
Proof.
  apply list_eq. intros k.
  rewrite list_lookup_imap, !list_lookup_fmap.
  destruct (seq 0 n !! k) as [k'|] eqn:Hk; cbn; [|reflexivity].
  apply lookup_seq in Hk as [-> _]. reflexivity.
Qed.

Lemma build_attention_mask_closed_form (self : CLIP.t E) (L : Z) :
  0 <= L ->
  CLIP.context_length self = Some L ->
  CLIP.build_attention_mask self = Ok (causal_mask L).
Proof.
  intros HL Hctx. unfold CLIP.build_attention_mask. rewrite Hctx. cbn.
  unfold CLIP.torch_empty. rewrite bool_decide_eq_true_2 by lia. cbn.
  unfold causal_mask. f_equal. f_equal. apply mask_data_closed_form.
Qed.

Lemma causal_mask_entry (L i j : Z) :
  0 <= i < L -> 0 <= j < L ->
  torch.entry (causal_mask L) i j
  = Some (if bool_decide (j - i >= 1) then neg_inf else zero).
Proof.
  intros Hi Hj. unfold torch.entry, causal_mask. cbn.
  rewrite bool_decide_eq_true_2 by lia.
  rewrite list_lookup_fmap.
  assert (Hlt : (Z.to_nat (i * L + j) < Z.to_nat (L * L))%nat) by nia.
  rewrite (lookup_seq_lt _ _ _ Hlt). cbn.
  rewrite Z2Nat.id by nia.
  replace ((i * L + j) mod L) with j
    by (apply (Z.mod_unique_pos _ _ i); lia).
  replace ((i * L + j) / L) with i
    by (apply (Z.div_unique_pos _ _ _ j); lia).
  reflexivity.
Qed.

Lemma register_buffer_stores (self m : CLIP.t E) (name : string) (x : tensor E)
    (persistent : bool) :
  CLIP.register_buffer name x persistent self = Ok m ->
  CLIP._buffers m !! name = Some (x, persistent)
  /\ CLIP._parameters m = CLIP._parameters self
  /\ CLIP._parameters self !! name = None
  /\ CLIP.context_length m = CLIP.context_length self.
Proof.
  unfold CLIP.register_buffer. intros H.
  destruct (bool_decide _) eqn:Hb; [discriminate|].
  inversion H; subst m; clear H. cbn.
  apply bool_decide_eq_false in Hb.
  rewrite lookup_insert_eq. repeat split.
  destruct (CLIP._parameters self !! name) eqn:Hp; [|reflexivity].
  exfalso. apply Hb. eauto.
Qed.

(** The state [__init__] hands to [init_parameters] holds the mask as a
    buffer that is not persistent, and no parameter of that name. *)
Lemma init_fields_registers_mask (embed_dim : Z) (vision_cfg : CLIPVisionCfg.t)
    (text_cfg : CLIPTextCfg.t) (quick_gelu : bool) (m : CLIP.t E) :
  CLIP.init_fields embed_dim vision_cfg text_cfg quick_gelu = Ok m ->
  CLIP._buffers m !! "attn_mask"
    = Some (causal_mask (CLIPTextCfg.context_length text_cfg), false)
  /\ CLIP._parameters m !! "attn_mask" = None.
Proof.
  unfold CLIP.init_fields. intros H.
  destruct (build_visual _ _ _) as [[v act]|]; cbn in H; [|discriminate].
  destruct (CLIP.torch_empty (CLIPTextCfg.context_length text_cfg)
              (CLIPTextCfg.width text_cfg)) as [pos|] eqn:Hpos;
    cbn in H; [|discriminate].
  destruct (CLIP.torch_empty (CLIPTextCfg.width text_cfg) embed_dim) as [tp|];
    cbn in H; [|discriminate].
  assert (HL : 0 <= CLIPTextCfg.context_length text_cfg).
  { unfold CLIP.torch_empty in Hpos.
    destruct (bool_decide _) eqn:Hb; [|discriminate].
    apply bool_decide_eq_true in Hb. lia. }
  change (CLIP.torch_empty (CLIPTextCfg.context_length text_cfg)
            (CLIPTextCfg.context_length text_cfg)
          ≫= (fun mask : tensor E => CLIP.triu_ 1 (CLIP.fill_ neg_inf mask)))
    with (CLIP.build_attention_mask
            (CLIP.Make (Some (CLIPTextCfg.context_length text_cfg)) None None None
               None None ∅ ∅)) in H.
  rewrite (build_attention_mask_closed_form _ (CLIPTextCfg.context_length text_cfg) HL)
    in H by reflexivity.
  cbn in H.
  apply register_buffer_stores in H as (Hbuf & Hpar & Hnone & _).
  split; [exact Hbuf|]. rewrite Hpar. exact Hnone.
Qed.

(** [init_parameters] leaves the buffers alone and adds no parameter named
    like the mask. *)
Lemma init_parameters_keeps_buffers (m m' : CLIP.t E) :
  CLIP.init_parameters m = Ok m' ->
  CLIP._buffers m' = CLIP._buffers m
  /\ (CLIP._parameters m !! "attn_mask" = None ->
      CLIP._parameters m' !! "attn_mask" = None).
Proof.
  unfold CLIP.init_parameters. intros H. bind_inv H;
    inversion H; subst m'; clear H; cbn; (split; [reflexivity|]); intros Hn;
    rewrite ?lookup_insert_ne by discriminate; exact Hn.
Qed.

(** C6: for a context length [L >= 1] the mask [build_attention_mask]
    returns is an [L] by [L] matrix whose entry [(i, j)] is minus infinity
    exactly when [j > i] and zero exactly when [j <= i]; it is the closed
    form [causal_mask L], a function of [L] alone; and the constructor
    registers it under [attn_mask] as a buffer that is not persistent and
    not as a parameter, which [init_parameters] does not change. *)
Theorem attention_mask_is_causal (self : CLIP.t E) (L : Z) :
  1 <= L ->
  neg_inf <> zero :> E ->
  CLIP.context_length self = Some L ->
  exists mask,
    CLIP.build_attention_mask self = Ok mask
    /\ t_shape mask = [L; L]
    /\ length (t_data mask) = Z.to_nat (L * L)
    /\ (forall i j, 0 <= i < L -> 0 <= j < L ->
          exists v, torch.entry mask i j = Some v
                    /\ (v = neg_inf <-> j > i)
                    /\ (v = zero <-> j <= i))
    /\ mask = causal_mask L
    /\ (forall embed_dim vision_cfg text_cfg quick_gelu m,
          CLIPTextCfg.context_length text_cfg = L ->
          (CLIP.init_fields embed_dim vision_cfg text_cfg quick_gelu = Ok m
           \/ CLIP.__init__ embed_dim vision_cfg text_cfg quick_gelu = Ok m) ->
          CLIP._buffers m !! "attn_mask" = Some (mask, false)
          /\ CLIP._parameters m !! "attn_mask" = None).
Proof.
  intros HL Hne Hctx. exists (causal_mask L).
  split; [apply build_attention_mask_closed_form; [lia|exact Hctx]|].
  split; [reflexivity|].
  split; [cbn; by rewrite length_fmap, length_seq|].
  split.
  { intros i j Hi Hj. eexists. split; [apply causal_mask_entry; assumption|].
    destruct (bool_decide (j - i >= 1)) eqn:Hb.
    - apply bool_decide_eq_true in Hb. split; split; intros; try lia; try reflexivity.
      exfalso. by apply Hne.
    - apply bool_decide_eq_false in Hb. split; split; intros; try lia; try reflexivity.
      exfalso. apply Hne. by symmetry. }
  split; [reflexivity|].
  intros embed_dim vision_cfg text_cfg quick_gelu m <- [H|H].
  - by apply init_fields_registers_mask in H.
  - unfold CLIP.__init__ in H.
    destruct (CLIP.init_fields _ _ _ _) as [m0|] eqn:H0; cbn in H; [|discriminate].
    apply init_fields_registers_mask in H0 as [Hbuf Hpar].
    apply init_parameters_keeps_buffers in H as [Hb Hp].
    rewrite Hb. split; [exact Hbuf|by apply Hp].
Qed.

End Facts.

#[local] Existing Instances probe_runtime probe_specials probe_functional.

(** The theorem at [L = 3], on the small runtime. *)
Lemma attention_mask_is_causal_witness :
  exists mask,
    CLIP.build_attention_mask
      (CLIP.Make (Some 3) None None None None None ∅ ∅) = Ok mask
    /\ t_shape mask = [3; 3]
    /\ t_data mask = [VNum 0; VNegInf; VNegInf;
                      VNum 0; VNum 0; VNegInf;
                      VNum 0; VNum 0; VNum 0].
Proof.
  destruct (attention_mask_is_causal (RT := probe_runtime)
              (CLIP.Make (Some 3) None None None None None ∅ ∅) 3)
    as (mask & Hb & Hs & _ & _ & Hc & _); [lia|discriminate|reflexivity|].
  exists mask. split; [exact Hb|]. split; [exact Hs|]. rewrite Hc. reflexivity.
Defined.

End attention_mask.

(** ** CLIP: which constructions complete *)

Module CLIP_facts.
Section Facts.
Context {E : Type} {RT : Runtime E} {SP : Specials E}.

Lemma init_fields_transformer (embed_dim : Z) (vision_cfg : CLIPVisionCfg.t)
    (text_cfg : CLIPTextCfg.t) (quick_gelu : bool) (m : CLIP.t E) :
  CLIP.init_fields embed_dim vision_cfg text_cfg quick_gelu = Ok m ->
  exists act,
    CLIP.transformer m
    = Some (Transformer.__init__ (CLIPTextCfg.width text_cfg)
              (CLIPTextCfg.layers text_cfg) (CLIPTextCfg.heads text_cfg) 4 act 0).
Proof.
  unfold CLIP.init_fields. intros H.
  destruct (build_visual _ _ _) as [[v act]|]; cbn in H; [|discriminate].
  exists act. bind_inv H. unfold CLIP.register_buffer in H.
  destruct (bool_decide _); cbn in H; [discriminate|].
  inversion H; subst m. reflexivity.
Qed.

Lemma init_parameters_needs_no_blocks (self self' : CLIP.t E) (tr : Transformer.t) :
  CLIP.init_parameters self = Ok self' ->
  CLIP.transformer self = Some tr ->
  Transformer.layers tr <> 0 /\ CLIP.init_blocks (Transformer.resblocks tr) = Ok tt.
Proof.
  unfold CLIP.init_parameters. intros H Htr.
  destruct (getattr "CLIP" "token_embedding" _) as [emb|]; cbn in H; [|discriminate].
  destruct (CLIP.parameter self "positional_embedding") as [pos|]; cbn in H;
    [|discriminate].
  destruct (normal_ _ pos) as [pos'|]; cbn in H; [|discriminate].
  destruct (CLIP.parameter _ "logit_scale") as [ls|]; cbn in H; [|discriminate].
  destruct (getattr "CLIP" "visual" _) as [v|]; cbn in H; [|discriminate].
  destruct (visual_init_parameters v) as [v'|]; cbn in H; [|discriminate].
  rewrite Htr in H. cbn in H.
  destruct (CLIP.pow_neg_half (Transformer.width tr)) as [a|]; cbn in H; [|discriminate].
  destruct (CLIP.pow_neg_half (2 * Transformer.layers tr)) as [b|] eqn:Hl; cbn in H;
    [|discriminate].
  unfold CLIP.pow_neg_half in Hl.
  destruct (bool_decide (2 * Transformer.layers tr = 0)) eqn:Hl0; [discriminate|].
  apply bool_decide_eq_false in Hl0.
  destruct (CLIP.pow_neg_half (2 * Transformer.width tr)) as [fc|]; cbn in H;
    [|discriminate].
  destruct (CLIP.init_blocks (Transformer.resblocks tr)) as [[]|]; cbn in H;
    [|discriminate].
  split; [lia|reflexivity].
Qed.

(** The MLP of a block has no child named [c_proj]: the loop of
    [init_parameters] raises on the first block. *)
Lemma init_blocks_raises (width heads : Z) (act : act_layer) (n : nat) :
  CLIP.init_blocks
    (replicate (S n) (ResidualAttentionBlock.__init__ width heads 4 act 0))
  = Raise (AttributeError "'Sequential' object has no attribute 'c_proj'").
Proof. reflexivity. Qed.

(** [CLIP.__init__] returns an instance only for a text tower without
    blocks whose [layers] is not zero: with [layers >= 1] the loop of
    [init_parameters] looks up [block.mlp.c_proj], which the block's MLP
    does not have, and with [layers = 0] the standard deviation
    [(2 * layers) ** -0.5] divides by zero. *)
Lemma constructed_without_blocks (embed_dim : Z) (vision_cfg : CLIPVisionCfg.t)
    (text_cfg : CLIPTextCfg.t) (quick_gelu : bool) (m : CLIP.t E) :
  CLIP.__init__ embed_dim vision_cfg text_cfg quick_gelu = Ok m ->
  CLIPTextCfg.layers text_cfg < 0.
Proof.
  unfold CLIP.__init__. intros H.
  destruct (CLIP.init_fields _ _ _ _) as [m0|] eqn:H0; cbn in H; [|discriminate].
  apply init_fields_transformer in H0 as [act Htr].
  destruct (init_parameters_needs_no_blocks _ _ _ H Htr) as [Hne Hblocks].
  cbn in Hne, Hblocks.
  destruct (Z.to_nat (CLIPTextCfg.layers text_cfg)) as [|n] eqn:Hn; [lia|].
  rewrite init_blocks_raises in Hblocks. discriminate.
Qed.

End Facts.

#[local] Existing Instances probe_runtime probe_specials probe_functional.

Definition vit_cfg : CLIPVisionCfg.t :=
  CLIPVisionCfg.Make (inl 12) 768 64 4 16 (inl 224) None false "avg" "linear".

(** On the small runtime, the constructor raises for one block and for no
    block, and returns for a negative number of layers. *)
Lemma construction_examples :
  CLIP.__init__ 512 vit_cfg (CLIPTextCfg.Make 3 100 8 2 1) true
  = Raise (AttributeError "'Sequential' object has no attribute 'c_proj'")
  /\ CLIP.__init__ 512 vit_cfg (CLIPTextCfg.Make 3 100 8 2 0) true
     = Raise (ZeroDivisionError "0.0 cannot be raised to a negative power")
  /\ is_Ok (CLIP.__init__ 512 vit_cfg (CLIPTextCfg.Make 3 100 8 2 (-1)) true).
Proof.
  split; [vm_compute; reflexivity|]. split; [vm_compute; reflexivity|].
  eexists. vm_compute. reflexivity.
Qed.

End CLIP_facts.

(** ** LayerNorm *)

Module LayerNorm_facts.
Section Facts.
Context {E : Type} {RT : Runtime E}.





End Facts.

#[local] Existing Instances probe_runtime probe_specials probe_functional.


End LayerNorm_facts.

(** ** FlatTransformer *)

Module FlatTransformer_facts.
Section Facts.
Context {E : Type} {RT : Runtime E}.

Lemma select_last_in_range (k d : Z) (x : tensor E) :
  last (t_shape x) = Some d ->
  0 <= k < d ->
  torch.select_last k x
  = Ok (Tensor (t_dtype x) (removelast (t_shape x))
          (torch.pick (length (t_data x)) (Z.to_nat k) (Z.to_nat d) (t_data x))).
Proof.
  intros Hlast Hk. apply last_Some in Hlast as [pre Hpre].
  unfold torch.select_last. rewrite Hpre, rev_unit.
  rewrite bool_decide_eq_true_2 by lia.
  rewrite rev_involutive, removelast_last. reflexivity.
Qed.

(** The positional encoding reads the shape of its argument only. *)
Lemma positional_encoding_from_shape (self : FlatTransformer.t) (x x' : tensor E) :
  last (t_shape x) = Some 4 ->
  t_shape x = t_shape x' ->
  FlatTransformer.generate_positional_encoding self x
  = FlatTransformer.generate_positional_encoding self x'.
Proof.
  intros H4 Hs. assert (H4' : last (t_shape x') = Some 4) by (rewrite <- Hs; exact H4).
  unfold FlatTransformer.generate_positional_encoding.
  rewrite !(select_last_in_range _ 4 x) by (assumption || lia).
  rewrite !(select_last_in_range _ 4 x') by (assumption || lia).
  cbn. unfold torch.shape0. cbn. rewrite Hs. reflexivity.
Qed.

(** C9: two inputs of shape [..., 4] whose scalar channels [x[..., 0]] agree
    give the same result of [forward], whatever their coordinates
    [x[..., 1..3]] are: the positional encoding repeats one learned vector
    and reads only the batch size. *)
Theorem forward_ignores_coordinates (self : FlatTransformer.t) (x x' : tensor E) :
  last (t_shape x) = Some 4 ->
  last (t_shape x') = Some 4 ->
  torch.select_last 0 x = torch.select_last 0 x' ->
  FlatTransformer.forward self x = FlatTransformer.forward self x'.
Proof.
  intros H4 H4' Ht.
  assert (Hs : t_shape x = t_shape x').
  { rewrite (select_last_in_range 0 4 x), (select_last_in_range 0 4 x') in Ht
      by (assumption || lia).
    injection Ht as _ Hpre _.
    apply last_Some in H4 as [pre Hx], H4' as [pre' Hx'].
    rewrite Hx, Hx' in *. rewrite !removelast_last in Hpre. by rewrite Hpre. }
  unfold FlatTransformer.forward.
  rewrite Ht, (positional_encoding_from_shape self x x' H4 Hs). reflexivity.
Qed.

End Facts.

#[local] Existing Instances probe_runtime probe_specials probe_functional.

(** The theorem on two inputs that share the channel value 7 and differ in
    every coordinate. *)
Lemma forward_ignores_coordinates_witness :
  let self := FlatTransformer.__init__ 2 1 1 4 3 GELU 0 in
  FlatTransformer.forward self
    (Tensor float32 [1; 1; 4] [VNum 7; VNum 1; VNum 2; VNum 3])
  = FlatTransformer.forward self
      (Tensor float32 [1; 1; 4] [VNum 7; VNum 30; VNum 20; VNum 10]).
Proof.
  intros self.
  apply (forward_ignores_coordinates (RT := probe_runtime)); reflexivity.
Defined.

End FlatTransformer_facts.

(** ** forward: one input missing *)

Module forward_facts.
Section Facts.
Context {E : Type} {RT : Runtime E} {SP : Specials E} {FN : Functional E}.

(** [CLIP.forward(image, None)] is [encode_image(image)]. *)
Lemma CLIP_forward_image_only (self : CLIP.t E) (image : tensor E) :
  CLIP.forward self (Some image) None = Single <$> CLIP.encode_image self image.
Proof. reflexivity. Qed.

(** [CLIP.forward(None, text)] is [encode_text(text)]. *)
Lemma CLIP_forward_text_only (self : CLIP.t E) (text : tensor E) :
  CLIP.forward self None (Some text) = Single <$> CLIP.encode_text self text.
Proof. reflexivity. Qed.

(** [VoxelCLIP.forward(image, None)] is [encode_image(image)]. *)
Lemma VoxelCLIP_forward_image_only (self : VoxelCLIP.t E) (image : tensor E) :
  VoxelCLIP.forward self (Some image) None
  = Single <$> VoxelCLIP.encode_image self image.
Proof. reflexivity. Qed.

(** C1, where the code departs from it: [VoxelCLIP.forward(None, voxel)]
    looks up [self.encode_text], which a VoxelCLIP does not have, and raises
    [AttributeError] whatever the instance and the input are; it never
    returns the output of [encode_voxel]. *)
Theorem VoxelCLIP_forward_voxel_only_raises (self : VoxelCLIP.t E)
    (voxel : option (tensor E)) :
  VoxelCLIP.forward self None voxel
  = Raise (AttributeError "'VoxelCLIP' object has no attribute 'encode_text'").
Proof. reflexivity. Qed.

End Facts.

#[local] Existing Instances probe_runtime probe_specials probe_functional.

(** On an instance whose voxel encoder returns its input, [encode_voxel]
    returns the embedding and [forward(None, voxel)] raises. *)
Lemma VoxelCLIP_forward_voxel_only_example :
  let enc := Module_ (FlatTransformerSpec 512 4 8 4 2 GELU (4 # 10))
               (fun x : tensor val => Ok x) in
  let self := VoxelCLIP.Make (Some enc) (Some "flat-transformer") (Some enc)
                (Some (Tensor float32 [] [VNum 0])) in
  let voxel := Tensor float32 [1; 2] [VNum 1; VNum 2] in
  VoxelCLIP.encode_voxel self voxel = Ok voxel
  /\ VoxelCLIP.forward self None (Some voxel)
     = Raise (AttributeError "'VoxelCLIP' object has no attribute 'encode_text'").
Proof. split; reflexivity. Qed.

End forward_facts.

(** ** forward: both inputs present, in exact real arithmetic *)

Module real_arithmetic.

(** [torch.nn.functional.normalize] and [exp] over the reals: each vector
    along the last dimension is divided by [max(norm, eps)] with
    [eps = 1e-12], the default of [F.normalize]. *)

Definition sum_squares (v : list R) : R :=
  fold_right (fun x acc => (x * x + acc)%R) 0%R v.

Definition norm2 (v : list R) : R := sqrt (sum_squares v).

Definition eps : R := (/ 10 ^ 12)%R.

Definition normalize_row (v : list R) : list R :=
  (fun x => (x / Rmax (norm2 v) eps)%R) <$> v.

(** Consecutive groups of [d] elements. *)
Fixpoint chunks (fuel d : nat) (l : list R) : list (list R) :=
  match fuel with
  | O => []
  | S fuel' =>
      match l with
      | [] => []
      | _ => take d l :: chunks fuel' d (drop d l)
      end
  end.

(** The vectors along the last dimension; a 0-dim tensor is one vector. *)
Definition rows (x : tensor R) : list (list R) :=
  match rev (t_shape x) with
  | [] => [t_data x]
  | d :: _ => chunks (length (t_data x)) (Z.to_nat d) (t_data x)
  end.

Definition normalized (x : tensor R) : tensor R :=
  Tensor (t_dtype x) (t_shape x) (concat (normalize_row <$> rows x)).

#[local] Instance real_functional : Functional R := {|
  F_normalize := fun x => Ok (normalized x);
  tensor_exp := fun x => Tensor (t_dtype x) (t_shape x) (exp <$> t_data x)
|}.


Lemma sum_squares_nonneg (v : list R) : (0 <= sum_squares v)%R.
Proof.
  induction v as [|x v IH]; cbn; [lra|].
  fold (sum_squares v).
  pose proof (Rle_0_sqr x) as Hx. unfold Rsqr in Hx. lra.
Qed.




Section Facts.
Context {RT : Runtime R}.


End Facts.








End real_arithmetic.

(** ** VoxelCLIP: the voxel-type discriminator *)

Module VoxelCLIP_facts.
Section Facts.
Context {E : Type} {RT : Runtime E} {FN : Functional E}.

Lemma append_empty_r (s : string) : s ++ "" = s.
Proof.
  induction s as [|c s IH]; [reflexivity|].
  change (String c (s ++ "") = String c s). by rewrite IH.
Qed.

Lemma contains_suffix (pre s : string) : contains (pre ++ s) s.
Proof. exists pre, "". by rewrite append_empty_r. Qed.

(** A discriminator outside the accepted list falls through the whole
    chain. *)
Lemma build_voxel_encoder_invalid (embed_dim : Z) (voxel_cfg : CLIPVoxelCfg.t)
    (act : act_layer) (vt : string) :
  vt ∉ VoxelCLIP.accepted_voxel_types ->
  VoxelCLIP.build_voxel_encoder embed_dim voxel_cfg act vt
  = Raise (ValueError ("Invalid voxel type: " ++ vt)).
Proof.
  intros Hvt. unfold VoxelCLIP.build_voxel_encoder.
  repeat (destruct (decide _) as [->|_];
          [exfalso; apply Hvt; unfold VoxelCLIP.accepted_voxel_types;
           repeat (first [apply list_elem_of_here|apply list_elem_of_further])|]).
  reflexivity.
Qed.

(** The chain returns an encoder only for an accepted discriminator. *)
Lemma build_voxel_encoder_accepted (embed_dim : Z) (voxel_cfg : CLIPVoxelCfg.t)
    (act : act_layer) (vt : string) (ve : module E) :
  VoxelCLIP.build_voxel_encoder embed_dim voxel_cfg act vt = Ok ve ->
  vt ∈ VoxelCLIP.accepted_voxel_types.
Proof.
  intros H. destruct (decide (vt ∈ VoxelCLIP.accepted_voxel_types)) as [Hin|Hout];
    [exact Hin|].
  rewrite (build_voxel_encoder_invalid _ _ _ _ Hout) in H. discriminate.
Qed.

Lemma init_parameters_voxel_type (self self' : VoxelCLIP.t E) :
  VoxelCLIP.init_parameters self = Ok self' ->
  VoxelCLIP.voxel_type self' = VoxelCLIP.voxel_type self.
Proof.
  unfold VoxelCLIP.init_parameters. intros H.
  bind_inv H; inversion H; subst self'; reflexivity.
Qed.

(** An instance that [__init__] returns without an exception carries an
    accepted discriminator. *)
Lemma constructed_voxel_type_accepted (embed_dim : Z) (vision_cfg : CLIPVisionCfg.t)
    (voxel_cfg : CLIPVoxelCfg.t) (quick_gelu : bool) (voxel_type : option string)
    (self : VoxelCLIP.t E) :
  VoxelCLIP.__init__ embed_dim vision_cfg voxel_cfg quick_gelu voxel_type = (self, None) ->
  exists vt, VoxelCLIP.voxel_type self = Some vt
             /\ vt ∈ VoxelCLIP.accepted_voxel_types.
Proof.
  unfold VoxelCLIP.__init__. intros H.
  destruct (build_visual _ _ _) as [[v act]|]; [|discriminate].
  destruct (VoxelCLIP.build_voxel_encoder _ _ _ _) as [ve|] eqn:Hve; [|discriminate].
  apply build_voxel_encoder_accepted in Hve.
  destruct (VoxelCLIP.init_parameters _) as [self'|] eqn:Hinit; [|discriminate].
  inversion H; subst self'; clear H.
  apply init_parameters_voxel_type in Hinit. cbn in Hinit.
  eexists. split; [exact Hinit|exact Hve].
Qed.

(** The constructor on a discriminator (passed or default) that is not
    accepted: the [ValueError] once the vision tower is built, an exception
    in every case, and no voxel encoder. *)
Lemma init_with_invalid_voxel_type (embed_dim : Z) (vision_cfg : CLIPVisionCfg.t)
    (voxel_cfg : CLIPVoxelCfg.t) (quick_gelu : bool) (voxel_type : option string) :
  let vt := default VoxelCLIP.default_voxel_type voxel_type in
  vt ∉ VoxelCLIP.accepted_voxel_types ->
  (forall v act,
      build_visual embed_dim vision_cfg quick_gelu = Ok (v, act) ->
      VoxelCLIP.__init__ embed_dim vision_cfg voxel_cfg quick_gelu voxel_type
      = (VoxelCLIP.Make (Some v) (Some vt) None None,
         Some (ValueError ("Invalid voxel type: " ++ vt))))
  /\ (exists e,
        snd (VoxelCLIP.__init__ embed_dim vision_cfg voxel_cfg quick_gelu voxel_type)
        = Some e)
  /\ VoxelCLIP.voxel_encoder
       (fst (VoxelCLIP.__init__ embed_dim vision_cfg voxel_cfg quick_gelu voxel_type))
     = None.
Proof.
  intros vt Hvt. split.
  - intros v act Hv. unfold VoxelCLIP.__init__. rewrite Hv. cbn.
    fold vt. rewrite (build_voxel_encoder_invalid _ _ _ _ Hvt). reflexivity.
  - unfold VoxelCLIP.__init__.
    destruct (build_visual _ _ _) as [[v act]|e]; cbn.
    + fold vt. rewrite (build_voxel_encoder_invalid _ _ _ _ Hvt). cbn. eauto.
    + eauto.
Qed.

(** C3: when the discriminator is none of the accepted strings, the
    constructor raises: once the vision tower is built, the exception is
    the [ValueError] whose message ends with the discriminator, and the
    instance is left with its vision tower and discriminator only; in every
    case an exception is raised and no voxel encoder is assigned. *)
Theorem invalid_voxel_type_fails_construction (embed_dim : Z)
    (vision_cfg : CLIPVisionCfg.t) (voxel_cfg : CLIPVoxelCfg.t) (quick_gelu : bool)
    (vt : string) :
  vt ∉ VoxelCLIP.accepted_voxel_types ->
  (forall v act,
      build_visual embed_dim vision_cfg quick_gelu = Ok (v, act) ->
      VoxelCLIP.__init__ embed_dim vision_cfg voxel_cfg quick_gelu (Some vt)
      = (VoxelCLIP.Make (Some v) (Some vt) None None,
         Some (ValueError ("Invalid voxel type: " ++ vt))))
  /\ contains ("Invalid voxel type: " ++ vt) vt
  /\ (exists e,
        snd (VoxelCLIP.__init__ embed_dim vision_cfg voxel_cfg quick_gelu (Some vt))
        = Some e)
  /\ VoxelCLIP.voxel_encoder
       (fst (VoxelCLIP.__init__ embed_dim vision_cfg voxel_cfg quick_gelu (Some vt)))
     = None.
Proof.
  intros Hvt.
  destruct (init_with_invalid_voxel_type embed_dim vision_cfg voxel_cfg quick_gelu
              (Some vt) Hvt) as (Hbuilt & Hraise & Hnone).
  split; [exact Hbuilt|]. split; [apply contains_suffix|].
  split; [exact Hraise|exact Hnone].
Qed.

(** C10: a call that does not pass [voxel_type] uses the default ["flat"],
    which is not an accepted discriminator: once the vision tower is built
    the constructor raises [ValueError] with the message
    ["Invalid voxel type: flat"], and in every case it raises.  The
    assertion of the ["mlp"] branch still names ["flat"], and no instance
    the constructor returns has the discriminator ["flat"] that
    [init_parameters] tests for. *)
Theorem default_voxel_type_fails_construction (embed_dim : Z)
    (vision_cfg : CLIPVisionCfg.t) (voxel_cfg : CLIPVoxelCfg.t) (quick_gelu : bool) :
  VoxelCLIP.default_voxel_type = "flat"
  /\ ("flat" ∉ VoxelCLIP.accepted_voxel_types)
  /\ (forall v act,
        build_visual embed_dim vision_cfg quick_gelu = Ok (v, act) ->
        VoxelCLIP.__init__ embed_dim vision_cfg voxel_cfg quick_gelu None
        = (VoxelCLIP.Make (Some v) (Some "flat") None None,
           Some (ValueError "Invalid voxel type: flat")))
  /\ (exists e,
        snd (VoxelCLIP.__init__ embed_dim vision_cfg voxel_cfg quick_gelu None) = Some e)
  /\ (forall act,
        CLIPVoxelCfg.config_mlp voxel_cfg = None ->
        VoxelCLIP.build_voxel_encoder embed_dim voxel_cfg act "mlp"
        = Raise (AssertionError "config_mlp is required for voxel_type=flat"))
  /\ (forall voxel_type self,
        VoxelCLIP.__init__ embed_dim vision_cfg voxel_cfg quick_gelu voxel_type
        = (self, None) ->
        VoxelCLIP.voxel_type self <> Some "flat").
Proof.
  assert (Hflat : "flat" ∉ VoxelCLIP.accepted_voxel_types).
  { unfold VoxelCLIP.accepted_voxel_types.
    rewrite !elem_of_cons, elem_of_nil. intuition discriminate. }
  split; [reflexivity|]. split; [exact Hflat|].
  destruct (init_with_invalid_voxel_type embed_dim vision_cfg voxel_cfg
              quick_gelu None Hflat) as (Hbuilt & Hraise & _).
  split; [exact Hbuilt|]. split; [exact Hraise|]. split.
  - intros act Hnone. unfold VoxelCLIP.build_voxel_encoder. cbn. rewrite Hnone.
    reflexivity.
  - intros voxel_type self Hinit Hvt.
    apply constructed_voxel_type_accepted in Hinit as (vt & Hsome & Hin).
    rewrite Hsome in Hvt. inversion Hvt; subst vt. by apply Hflat.
Qed.

End Facts.

#[local] Existing Instances probe_runtime probe_specials probe_functional.

(** A vision configuration for concrete runs: a residual tower. *)
Definition resnet_cfg : CLIPVisionCfg.t :=
  CLIPVisionCfg.Make (inr [3; 4; 6; 3]) 64 64 4 16 (inl 224) None false "avg" "linear".

Definition empty_voxel_cfg : CLIPVoxelCfg.t := CLIPVoxelCfg.Make None None None None.

(** The theorem for the discriminator ["3d"], on the small runtime. *)
Lemma invalid_voxel_type_fails_construction_witness :
  snd (VoxelCLIP.__init__ (RT := probe_runtime) 512 resnet_cfg empty_voxel_cfg false
         (Some "3d"))
  = Some (ValueError "Invalid voxel type: 3d")
  /\ VoxelCLIP.voxel_encoder
       (fst (VoxelCLIP.__init__ (RT := probe_runtime) 512 resnet_cfg empty_voxel_cfg
               false (Some "3d")))
     = None.
Proof.
  assert (H3d : "3d" ∉ VoxelCLIP.accepted_voxel_types).
  { unfold VoxelCLIP.accepted_voxel_types.
    rewrite !elem_of_cons, elem_of_nil. intuition discriminate. }
  destruct (invalid_voxel_type_fails_construction (RT := probe_runtime)
              512 resnet_cfg empty_voxel_cfg false "3d" H3d)
    as (Hbuilt & _ & _ & Hnone).
  split; [|exact Hnone].
  erewrite Hbuilt; reflexivity.
Defined.

End VoxelCLIP_facts.

(** ** convert_weights_to_fp16 *)

Module fp16_facts.
Section Facts.
Context {E : Type} {RT : Runtime E}.

(** Induction over a module tree, with the hypothesis for every child. *)
Fixpoint mod_tree_ind' (P : mod_tree E -> Prop)
    (step : forall cls tensors children,
        Forall (fun nc => P (snd nc)) children -> P (ModTree cls tensors children))
    (m : mod_tree E) : P m :=
  match m with
  | ModTree cls tensors children =>
      step cls tensors children
        ((fix go (cs : list (string * mod_tree E))
            : Forall (fun nc => P (snd nc)) cs :=
            match cs with
            | [] => List.Forall_nil _
            | nc :: rest =>
                @List.Forall_cons _ _ nc rest (mod_tree_ind' P step (snd nc)) (go rest)
            end) children)
  end.

(** The attribute names the conversion goes through on a module of class
    [cls], in order. *)
Definition names_for (cls : pyclass) : list string :=
  ((if fp16.is_conv_or_linear cls then ["weight"; "bias"] else [])
   ++ (if fp16.is_mha cls then fp16.mha_attrs else [])
   ++ fp16.projection_names)%list.

(** The tensor attribute [name] of a module of class [cls] is one the
    conversion casts. *)
Definition selected (cls : pyclass) (name : string) : bool :=
  bool_decide (name ∈ names_for cls).

(** The tensor attributes of a converted module: the selected ones at half
    precision, every other one as it was. *)
Definition converted_tensors (cls : pyclass) (tensors : gmap string (option (tensor E)))
  : gmap string (option (tensor E)) :=
  map_imap (fun name (v : option (tensor E)) =>
              Some (if selected cls name then fp16.half <$> v else v))
    tensors.

(** The converted model: the same tree, with the selected tensors cast. *)
Fixpoint converted (m : mod_tree E) : mod_tree E :=
  match m with
  | ModTree cls tensors children =>
      ModTree cls (converted_tensors cls tensors)
        (map (fun nc => (fst nc, converted (snd nc))) children)
  end.

(** A module tree without the dtypes and the elements of its tensors: the
    classes, the attribute names, the shapes. *)
#[warnings="-register-all"]
Inductive shape_tree : Type :=
| ShapeTree (cls : pyclass) (shapes : gmap string (option (list Z)))
    (children : list (string * shape_tree)).

Definition shapes_of (tensors : gmap string (option (tensor E)))
  : gmap string (option (list Z)) :=
  (fun v : option (tensor E) => t_shape <$> v) <$> tensors.

Fixpoint tree_shapes (m : mod_tree E) : shape_tree :=
  match m with
  | ModTree cls tensors children =>
      ShapeTree cls (shapes_of tensors)
        (map (fun nc => (fst nc, tree_shapes (snd nc))) children)
  end.

Lemma half_shape (x : tensor E) : t_shape (fp16.half x) = t_shape x.
Proof. unfold fp16.half, tensor_to. destruct (decide _); reflexivity. Qed.

Lemma half_dtype (x : tensor E) : t_dtype (fp16.half x) = float16.
Proof. unfold fp16.half, tensor_to. destruct (decide _) as [H|H]; [exact H|reflexivity]. Qed.

Lemma half_idempotent (x : tensor E) : fp16.half (fp16.half x) = fp16.half x.
Proof.
  unfold fp16.half at 1. unfold tensor_to.
  rewrite decide_True by apply half_dtype. reflexivity.
Qed.

(** A run of statements that, when it completes, has cast the tensors
    named in [L]. *)
Definition realises (L : list string)
    (f : gmap string (option (tensor E)) -> gmap string (option (tensor E)) * option exn)
  : Prop :=
  forall ts ts', f ts = (ts', None) -> ts' = foldl (fun m n => fp16.set_half n m) ts L.

Lemma set_half_none (name : string) (ts : gmap string (option (tensor E))) :
  ts !! name = Some None -> fp16.set_half name ts = ts.
Proof.
  intros H. unfold fp16.set_half. apply alter_id. intros x Hx.
  rewrite H in Hx. by inversion Hx.
Qed.

Lemma set_half_missing (name : string) (ts : gmap string (option (tensor E))) :
  ts !! name = None -> fp16.set_half name ts = ts.
Proof. intros H. unfold fp16.set_half. by apply alter_id'. Qed.

Lemma lookup_attr_none (ts : gmap string (option (tensor E))) cs name :
  fp16.lookup_attr ts cs name = fp16.ANone -> ts !! name = Some None.
Proof.
  unfold fp16.lookup_attr. destruct (ts !! name) as [[x|]|]; try discriminate;
    [reflexivity|].
  destruct (list_find _ cs) as [[? [? ?]]|]; discriminate.
Qed.

Lemma lookup_attr_missing (ts : gmap string (option (tensor E))) cs name :
  fp16.lookup_attr ts cs name = fp16.AMissing -> ts !! name = None.
Proof.
  unfold fp16.lookup_attr. destruct (ts !! name) as [[x|]|]; try discriminate.
  reflexivity.
Qed.

Lemma realises_required (name : string) cs :
  realises [name] (fp16.convert_required name cs).
Proof.
  intros ts ts' H. unfold fp16.convert_required in H.
  destruct (fp16.lookup_attr ts cs name); inversion H; reflexivity.
Qed.

Lemma realises_optional (name : string) cs :
  realises [name] (fp16.convert_optional name cs).
Proof.
  intros ts ts' H. unfold fp16.convert_optional in H.
  destruct (fp16.lookup_attr ts cs name) eqn:Hl; inversion H; subst; cbn;
    [reflexivity|].
  symmetry. by apply set_half_none, (lookup_attr_none _ cs).
Qed.

Lemma realises_if_present (name : string) cs :
  realises [name] (fp16.convert_if_present name cs).
Proof.
  intros ts ts' H. unfold fp16.convert_if_present in H.
  destruct (fp16.lookup_attr ts cs name) eqn:Hl; inversion H; subst; cbn;
    [reflexivity| |].
  - symmetry. by apply set_half_none, (lookup_attr_none _ cs).
  - symmetry. by apply set_half_missing, (lookup_attr_missing _ cs).
Qed.

Lemma realises_skip : realises [] fp16.skip.
Proof. intros ts ts' H. by inversion H. Qed.

Lemma realises_and_then (L1 L2 : list string) f g :
  realises L1 f -> realises L2 g -> realises (L1 ++ L2) (fp16.and_then f g).
Proof.
  intros Hf Hg ts ts' H. unfold fp16.and_then in H.
  destruct (f ts) as [ts1 [e|]] eqn:Hfs; [discriminate|].
  rewrite foldl_app. rewrite <- (Hf _ _ Hfs). by apply Hg.
Qed.

Lemma realises_fold (names : list string) step :
  (forall n, realises [n] (step n)) ->
  realises names
    (fold_right (fun name k => fp16.and_then (step name) k) fp16.skip names).
Proof.
  intros Hstep. induction names as [|n names IH]; cbn; [apply realises_skip|].
  apply (realises_and_then [n] names); [apply Hstep|exact IH].
Qed.

Lemma realises_convert (cls : pyclass) cs :
  realises (names_for cls) (fp16._convert_weights_to_fp16 cls cs).
Proof.
  unfold fp16._convert_weights_to_fp16, names_for.
  apply realises_and_then; [|apply realises_and_then].
  - destruct (fp16.is_conv_or_linear cls); [|apply realises_skip].
    apply (realises_and_then ["weight"] ["bias"]);
      [apply realises_required|apply realises_optional].
  - destruct (fp16.is_mha cls); [|apply realises_skip].
    apply realises_fold. intros n. apply realises_optional.
  - apply realises_fold. intros n. apply realises_if_present.
Qed.

Lemma foldl_set_half_lookup (L : list string) (ts : gmap string (option (tensor E)))
    (n : string) :
  foldl (fun m k => fp16.set_half k m) ts L !! n
  = (fun v => if bool_decide (n ∈ L) then fp16.half <$> v else v) <$> ts !! n.
Proof.
  revert ts. induction L as [|a L IH]; intros ts; cbn.
  - destruct (ts !! n); reflexivity.
  - rewrite IH. unfold fp16.set_half.
    destruct (decide (a = n)) as [->|Hne].
    + rewrite lookup_alter_eq.
      rewrite (bool_decide_eq_true_2 (n ∈ n :: L)) by apply list_elem_of_here.
      destruct (ts !! n) as [[x|]|]; cbn;
        destruct (bool_decide (n ∈ L)); cbn; rewrite ?half_idempotent; reflexivity.
    + rewrite lookup_alter_ne by exact Hne.
      destruct (ts !! n) as [v|]; cbn; [|reflexivity].
      f_equal. destruct (decide (n ∈ L)) as [Hin|Hout].
      * rewrite !bool_decide_eq_true_2; [reflexivity| |exact Hin].
        by apply list_elem_of_further.
      * rewrite !bool_decide_eq_false_2; [reflexivity| |exact Hout].
        rewrite elem_of_cons. intros [->|?]; [by apply Hne|by apply Hout].
Qed.

(** One module: when [_convert_weights_to_fp16] completes, the selected
    tensor attributes are at half precision and the others are as before. *)
Lemma convert_node (cls : pyclass) cs (ts ts' : gmap string (option (tensor E))) :
  fp16._convert_weights_to_fp16 cls cs ts = (ts', None) ->
  ts' = converted_tensors cls ts.
Proof.
  intros H. apply realises_convert in H. subst ts'.
  apply map_eq. intros n.
  rewrite foldl_set_half_lookup. unfold converted_tensors.
  rewrite map_lookup_imap. unfold selected.
  destruct (ts !! n); reflexivity.
Qed.

Lemma converted_tensors_lookup (cls : pyclass) (ts : gmap string (option (tensor E)))
    (n : string) :
  converted_tensors cls ts !! n
  = (fun v => if selected cls n then fp16.half <$> v else v) <$> ts !! n.
Proof.
  unfold converted_tensors. rewrite map_lookup_imap.
  destruct (ts !! n); reflexivity.
Qed.

Lemma converted_tensors_shapes (cls : pyclass) (ts : gmap string (option (tensor E))) :
  shapes_of (converted_tensors cls ts) = shapes_of ts.
Proof.
  apply map_eq. intros n. unfold shapes_of.
  rewrite !lookup_fmap, converted_tensors_lookup.
  destruct (ts !! n) as [[x|]|]; cbn;
    destruct (selected cls n); cbn; rewrite ?half_shape; reflexivity.
Qed.

Lemma converted_shapes (m : mod_tree E) : tree_shapes (converted m) = tree_shapes m.
Proof.
  induction m as [cls ts cs IH] using mod_tree_ind'. cbn.
  rewrite converted_tensors_shapes. f_equal.
  induction IH as [|nc rest Hc _ IHrest]; [reflexivity|].
  cbn in *. by rewrite Hc, IHrest.
Qed.

Lemma apply_converted (m m' : mod_tree E) :
  fp16.apply m = (m', None) -> m' = converted m.
Proof.
  revert m'. induction m as [cls ts cs IH] using mod_tree_ind'. intros m' H.
  cbn in H.
  assert (Hgo : forall cs', fp16.apply_children fp16.apply cs = (cs', None) ->
                 cs' = map (fun nc => (fst nc, converted (snd nc))) cs).
  { clear H. induction IH as [|nc rest Hc _ IHrest]; intros cs' Hcs'.
    - by inversion Hcs'.
    - cbn in Hcs'. destruct (fp16.apply (snd nc)) as [c' [e|]] eqn:Hap; [discriminate|].
      destruct (fp16.apply_children fp16.apply rest) as [rest' err] eqn:Hrest.
      inversion Hcs'; subst.
      rewrite (Hc c' eq_refl), (IHrest rest' eq_refl). reflexivity. }
  destruct (fp16.apply_children fp16.apply cs) as [cs' [e|]] eqn:Hcs; [discriminate|].
  destruct (fp16._convert_weights_to_fp16 cls cs' ts) as [ts' err] eqn:Hts.
  inversion H; subst. cbn.
  rewrite (convert_node _ _ _ _ Hts), (Hgo cs' eq_refl). reflexivity.
Qed.

Lemma selected_spec (cls : pyclass) (n : string) :
  selected cls n = true
  <-> (fp16.is_conv_or_linear cls = true /\ n ∈ ["weight"; "bias"])
      \/ (fp16.is_mha cls = true /\ n ∈ fp16.mha_attrs)
      \/ n ∈ fp16.projection_names.
Proof.
  unfold selected, names_for. rewrite bool_decide_eq_true, !elem_of_app.
  destruct (fp16.is_conv_or_linear cls), (fp16.is_mha cls);
    rewrite ?elem_of_nil; intuition discriminate.
Qed.

(** C5, as the code has it: when the conversion completes, the model is the
    same tree in which the tensors cast to half precision are exactly the
    [weight] and [bias] of [Conv1d], [Conv2d] and [Linear] modules, the
    seven projection attributes of [MultiheadAttention] modules, and the
    tensor attributes named [text_projection] or [proj]; every other
    tensor, the parameters of [Conv3d] modules among them, keeps its dtype;
    no attribute is added or removed and no shape changes. *)
Theorem conversion_casts_selected_tensors (model model' : mod_tree E) :
  fp16.convert_weights_to_fp16 model = (model', None) ->
  model' = converted model
  /\ tree_shapes model' = tree_shapes model
  /\ (forall cls ts n,
        converted_tensors cls ts !! n
        = (fun v => if selected cls n then fp16.half <$> v else v) <$> ts !! n)
  /\ (forall cls n,
        selected cls n = true
        <-> (fp16.is_conv_or_linear cls = true /\ n ∈ ["weight"; "bias"])
            \/ (fp16.is_mha cls = true /\ n ∈ fp16.mha_attrs)
            \/ n ∈ fp16.projection_names)
  /\ (forall x : tensor E,
        t_dtype (fp16.half x) = float16 /\ t_shape (fp16.half x) = t_shape x)
  /\ fp16.is_conv_or_linear C_Conv3d = false.
Proof.
  intros H. apply apply_converted in H. subst model'.
  split; [reflexivity|]. split; [apply converted_shapes|].
  split; [apply converted_tensors_lookup|]. split; [apply selected_spec|].
  split; [|reflexivity]. intros x. split; [apply half_dtype|apply half_shape].
Qed.

End Facts.

#[local] Existing Instances probe_runtime probe_specials probe_functional.

Definition f32 (shape : list Z) : option (tensor val) :=
  Some (Tensor float32 shape []).

Definition f16 (shape : list Z) : option (tensor val) :=
  Some (Tensor float16 shape []).

(** A model for concrete runs: a projection parameter and a temperature at
    the root, a 2-D and a 3-D convolution, a normalization, and an
    attention layer with its output projection. *)
Definition small_model : mod_tree val :=
  ModTree (C_Other "VoxelCLIP")
    (<["proj" := f32 [4; 2]]> (<["logit_scale" := f32 []]> ∅))
    [ ("conv1", ModTree C_Conv2d (<["weight" := f32 [4; 3; 2; 2]]> (<["bias" := None]> ∅)) []);
      ("conv3d", ModTree C_Conv3d (<["weight" := f32 [4; 1; 3; 3; 3]]> (<["bias" := f32 [4]]> ∅)) []);
      ("ln_pre", ModTree (C_Other "LayerNorm") (<["weight" := f32 [4]]> (<["bias" := f32 [4]]> ∅)) []);
      ("attn", ModTree C_MultiheadAttention
         (<["in_proj_weight" := f32 [12; 4]]> (<["q_proj_weight" := None]>
          (<["k_proj_weight" := None]> (<["v_proj_weight" := None]>
          (<["in_proj_bias" := f32 [12]]> (<["bias_k" := None]> (<["bias_v" := None]> ∅)))))))
         [ ("out_proj", ModTree C_NonDynamicallyQuantizableLinear
              (<["weight" := f32 [4; 4]]> (<["bias" := f32 [4]]> ∅)) []) ]) ].

Definition small_model_half : mod_tree val :=
  ModTree (C_Other "VoxelCLIP")
    (<["proj" := f16 [4; 2]]> (<["logit_scale" := f32 []]> ∅))
    [ ("conv1", ModTree C_Conv2d (<["weight" := f16 [4; 3; 2; 2]]> (<["bias" := None]> ∅)) []);
      ("conv3d", ModTree C_Conv3d (<["weight" := f32 [4; 1; 3; 3; 3]]> (<["bias" := f32 [4]]> ∅)) []);
      ("ln_pre", ModTree (C_Other "LayerNorm") (<["weight" := f32 [4]]> (<["bias" := f32 [4]]> ∅)) []);
      ("attn", ModTree C_MultiheadAttention
         (<["in_proj_weight" := f16 [12; 4]]> (<["q_proj_weight" := None]>
          (<["k_proj_weight" := None]> (<["v_proj_weight" := None]>
          (<["in_proj_bias" := f16 [12]]> (<["bias_k" := None]> (<["bias_v" := None]> ∅)))))))
         [ ("out_proj", ModTree C_NonDynamicallyQuantizableLinear
              (<["weight" := f16 [4; 4]]> (<["bias" := f16 [4]]> ∅)) []) ]) ].

(** The theorem on that model. *)
Lemma conversion_casts_selected_tensors_witness :
  fp16.convert_weights_to_fp16 small_model = (small_model_half, None)
  /\ small_model_half = converted small_model
  /\ tree_shapes small_model_half = tree_shapes small_model.
Proof.
  assert (H : fp16.convert_weights_to_fp16 small_model = (small_model_half, None))
    by (vm_compute; reflexivity).
  destruct (conversion_casts_selected_tensors small_model small_model_half H)
    as (Hc & Hs & _).
  split; [exact H|]. split; [exact Hc|exact Hs].
Defined.

(** C5 fails as stated: the weight and bias of a 3-D convolution layer are
    not cast; the conversion completes and leaves them at single
    precision. *)
Lemma conv3d_weights_stay_single_precision :
  let conv := ModTree C_Conv3d
                (<["weight" := f32 [4; 1; 3; 3; 3]]> (<["bias" := f32 [4]]> ∅)) [] in
  fp16.convert_weights_to_fp16 conv = (conv, None)
  /\ fp16.lookup_attr (<["weight" := f32 [4; 1; 3; 3; 3]]> (<["bias" := f32 [4]]> ∅)) []
       "weight"
     = fp16.ATensor (Tensor float32 [4; 1; 3; 3; 3] []).
Proof. split; vm_compute; reflexivity. Qed.

(** The MLP of a [ResidualAttentionBlock] names its last layer [proj], so
    [getattr(mlp, "proj")] is a module and the conversion raises on it,
    after converting the layers below. *)
Lemma conversion_raises_on_module_named_proj :
  let linear d := ModTree C_Linear
                    (<["weight" := d [2; 2]]> (<["bias" := d [2]]> ∅)) [] in
  fp16.convert_weights_to_fp16
    (ModTree (C_Other "Sequential") ∅
       [("c_fc", linear f32); ("c_act", ModTree (C_Other "GELU") ∅ []);
        ("proj", linear f32)])
  = (ModTree (C_Other "Sequential") ∅
       [("c_fc", linear f16); ("c_act", ModTree (C_Other "GELU") ∅ []);
        ("proj", linear f16)],
     Some (AttributeError "object has no attribute 'data'")).
Proof. vm_compute. reflexivity. Qed.

End fp16_facts.

(** ** resize_pos_embed *)

Module pos_embed_facts.
Section Facts.
Context {E : Type} {RT : Runtime E}.












End Facts.

#[local] Existing Instances probe_runtime probe_specials probe_functional.



End pos_embed_facts.

(** ** MLP *)

Module MLP_facts.

(** An [OrderedDict] built from pairs with distinct keys is the list of the
    pairs. *)
Lemma OrderedDict_distinct {A : Type} (acc pairs : list (string * A)) :
  NoDup ((acc ++ pairs)%list.*1) ->
  foldl (fun d kv => OrderedDict_set d kv.1 kv.2) acc pairs = (acc ++ pairs)%list.
Proof.
  revert acc. induction pairs as [|[k v] pairs IH]; intros acc Hnd; cbn.
  - by rewrite app_nil_r.
  - assert (Hk : k ∉ acc.*1).
    { rewrite fmap_app in Hnd. apply NoDup_app in Hnd as (_ & Hd & _).
      intros Hin. apply (Hd k Hin). cbn. apply list_elem_of_here. }
    unfold OrderedDict_set at 2. cbn [fst snd].
    rewrite bool_decide_eq_false_2 by exact Hk.
    rewrite IH; rewrite <- app_assoc; [reflexivity|exact Hnd].
Qed.

(** The loop of [__init__] appends one group of four per index. *)
Lemma foldl_hidden (hidden_dim : Z) (act : act_layer) (acc : list (string * MLP.child))
    (l : list Z) :
  foldl (fun layers i => (layers ++ MLP.hidden hidden_dim act i)%list) acc l
  = (acc ++ concat (MLP.hidden hidden_dim act <$> l))%list.
Proof.
  revert acc. induction l as [|i l IH]; intros acc; cbn.
  - by rewrite app_nil_r.
  - rewrite IH. cbn. by rewrite <- !app_assoc.
Qed.

Lemma layer_list_closed_form (input_dim output_dim hidden_dim num_layers : Z)
    (act : act_layer) :
  MLP.layer_list input_dim output_dim hidden_dim num_layers act
  = (("input", MLP.Torch (Linear input_dim hidden_dim))
       :: concat (MLP.hidden hidden_dim act <$> range (num_layers - 1))
       ++ [("output", MLP.Torch (Linear hidden_dim output_dim))])%list.
Proof. unfold MLP.layer_list. rewrite foldl_hidden. reflexivity. Qed.

(** The names of the group of index [i]. *)
Definition hidden_names (i : Z) : list string :=
  ["fc" ++ pretty i; "gelu" ++ pretty (i + 2); "dropout" ++ pretty (i + 2);
   "ln" ++ pretty (i + 2)].

Lemma hidden_fst (hidden_dim : Z) (act : act_layer) (i : Z) :
  (MLP.hidden hidden_dim act i).*1 = hidden_names i.
Proof. reflexivity. Qed.

Lemma hidden_names_inj (i j : Z) (name : string) :
  name ∈ hidden_names i -> name ∈ hidden_names j -> i = j.
Proof.
  unfold hidden_names. rewrite !elem_of_cons, !elem_of_nil.
  intros [->|[->|[->|[->|[]]]]] [H|[H|[H|[H|[]]]]];
    try discriminate H; injection H as H; apply pretty_Z_inj in H; lia.
Qed.

Lemma hidden_names_NoDup (i : Z) : NoDup (hidden_names i).
Proof.
  unfold hidden_names. repeat apply NoDup_cons_2; try apply NoDup_nil_2;
    rewrite ?elem_of_cons, ?elem_of_nil; intros H;
    repeat (destruct H as [H|H]); try discriminate H; exact H.
Qed.

Lemma hidden_names_not_ends (i : Z) :
  ("input" ∉ hidden_names i) /\ ("output" ∉ hidden_names i).
Proof.
  unfold hidden_names. rewrite !elem_of_cons, !elem_of_nil.
  split; intros H; repeat (destruct H as [H|H]); try discriminate H; exact H.
Qed.

Lemma concat_hidden_names_NoDup (l : list Z) :
  NoDup l -> NoDup (concat (hidden_names <$> l)).
Proof.
  induction 1 as [|i l Hi Hnd IH]; cbn [fmap list_fmap concat]; [apply NoDup_nil_2|].
  apply NoDup_app. split; [apply hidden_names_NoDup|]. split; [|exact IH].
  intros name Hin Hin'.
  apply list_elem_of_In, in_concat in Hin' as (names & Hnames & Hname).
  apply list_elem_of_In, list_elem_of_fmap in Hnames as (j & -> & Hj).
  apply list_elem_of_In in Hname.
  rewrite (hidden_names_inj i j name Hin Hname) in Hi. by apply Hi.
Qed.

Lemma concat_hidden_names_not_ends (l : list Z) :
  ("input" ∉ concat (hidden_names <$> l)) /\ ("output" ∉ concat (hidden_names <$> l)).
Proof.
  split; intros Hin; apply list_elem_of_In, in_concat in Hin as (names & Hnames & Hname);
    apply list_elem_of_In, list_elem_of_fmap in Hnames as (j & -> & Hj);
    apply list_elem_of_In in Hname;
    destruct (hidden_names_not_ends j) as [Ha Hb]; first [by apply Ha|by apply Hb].
Qed.

Lemma layer_list_names (input_dim output_dim hidden_dim num_layers : Z) (act : act_layer) :
  (MLP.layer_list input_dim output_dim hidden_dim num_layers act).*1
  = ("input" :: concat (hidden_names <$> range (num_layers - 1)) ++ ["output"])%list.
Proof.
  rewrite layer_list_closed_form. cbn. f_equal. rewrite fmap_app. cbn. f_equal.
  induction (range (num_layers - 1)) as [|i l IH]; [reflexivity|].
  cbn [fmap list_fmap concat]. rewrite fmap_app, IH. reflexivity.
Qed.

Lemma layer_list_NoDup (input_dim output_dim hidden_dim num_layers : Z) (act : act_layer) :
  NoDup (MLP.layer_list input_dim output_dim hidden_dim num_layers act).*1.
Proof.
  rewrite layer_list_names.
  destruct (concat_hidden_names_not_ends (range (num_layers - 1))) as [Hi Ho].
  apply NoDup_cons_2.
  - rewrite elem_of_app, list_elem_of_singleton. intros [H|H]; [by apply Hi|discriminate].
  - apply NoDup_app. split; [apply concat_hidden_names_NoDup, NoDup_seqZ|].
    split; [|apply NoDup_singleton].
    intros name Hin Hout. apply list_elem_of_singleton in Hout. subst name. by apply Ho.
Qed.

Lemma init_layers (input_dim output_dim hidden_dim num_layers : Z) (act : act_layer) :
  MLP.layers (MLP.__init__ input_dim output_dim hidden_dim num_layers act)
  = MLP.layer_list input_dim output_dim hidden_dim num_layers act.
Proof.
  cbn. unfold OrderedDict. rewrite OrderedDict_distinct; [reflexivity|].
  apply layer_list_NoDup.
Qed.

Lemma length_concat_hidden (hidden_dim : Z) (act : act_layer) (l : list Z) :
  length (concat (MLP.hidden hidden_dim act <$> l)) = (4 * length l)%nat.
Proof. induction l as [|i l IH]; cbn; [reflexivity|]. rewrite IH. lia. Qed.

(** The [Linear] children, in order, by their input and output widths. *)
Definition linears (cs : list (string * MLP.child)) : list (Z * Z) :=
  omap (fun nc : string * MLP.child =>
          match nc.2 with
          | MLP.Torch (Linear a b) => Some (a, b)
          | _ => None
          end) cs.

(** The activation children, in order. *)
Definition activations (cs : list (string * MLP.child)) : list act_layer :=
  omap (fun nc : string * MLP.child =>
          match nc.2 with
          | MLP.Torch (Act a) => Some a
          | _ => None
          end) cs.

Lemma linears_hidden (hidden_dim : Z) (act : act_layer) (l : list Z) :
  linears (concat (MLP.hidden hidden_dim act <$> l))
  = replicate (length l) (hidden_dim, hidden_dim).
Proof. induction l as [|i l IH]; [reflexivity|]. cbn. f_equal. exact IH. Qed.

Lemma activations_hidden (hidden_dim : Z) (act : act_layer) (l : list Z) :
  activations (concat (MLP.hidden hidden_dim act <$> l)) = replicate (length l) act.
Proof. induction l as [|i l IH]; [reflexivity|]. cbn. f_equal. exact IH. Qed.

(** X1: the names [__init__] gives the layers are pairwise distinct, so the
    [OrderedDict] keeps every entry of the list in its place: the model has
    the input layer, four children for each index below [num_layers - 1],
    and the output layer. *)
Theorem no_layer_is_replaced (input_dim output_dim hidden_dim num_layers : Z)
    (act : act_layer) :
  let self := MLP.__init__ input_dim output_dim hidden_dim num_layers act in
  NoDup (MLP.layers self).*1
  /\ MLP.layers self
     = (("input", MLP.Torch (Linear input_dim hidden_dim))
          :: concat (MLP.hidden hidden_dim act <$> range (num_layers - 1))
          ++ [("output", MLP.Torch (Linear hidden_dim output_dim))])%list
  /\ length (MLP.layers self) = (2 + 4 * Z.to_nat (num_layers - 1))%nat.
Proof.
  intros self. unfold self. rewrite init_layers.
  split; [apply layer_list_NoDup|]. split; [apply layer_list_closed_form|].
  rewrite layer_list_closed_form. cbn. rewrite length_app, length_concat_hidden.
  unfold range. rewrite length_seqZ. cbn. lia.
Qed.

(** X2: the fully connected layers of the model are the input layer, one
    square layer for each index below [num_layers - 1] and the output layer,
    each taking the width the one before it gives; there is one activation
    for each square layer and none between the input layer and the layer
    after it. *)
Theorem linear_layers_chain (input_dim output_dim hidden_dim num_layers : Z)
    (act : act_layer) :
  let self := MLP.__init__ input_dim output_dim hidden_dim num_layers act in
  linears (MLP.layers self)
  = ((input_dim, hidden_dim)
       :: replicate (Z.to_nat (num_layers - 1)) (hidden_dim, hidden_dim)
       ++ [(hidden_dim, output_dim)])%list
  /\ activations (MLP.layers self) = replicate (Z.to_nat (num_layers - 1)) act
  /\ (forall c, MLP.layers self !! 1%nat = Some c ->
        exists a b, c.2 = MLP.Torch (Linear a b)).
Proof.
  intros self. unfold self. rewrite init_layers, layer_list_closed_form.
  assert (Hlen : length (range (num_layers - 1)) = Z.to_nat (num_layers - 1))
    by (unfold range; apply length_seqZ).
  split; [|split].
  - unfold linears. cbn [omap list_omap snd]. f_equal.
    change (linears (concat (MLP.hidden hidden_dim act <$> range (num_layers - 1))
                     ++ [("output", MLP.Torch (Linear hidden_dim output_dim))])
            = (replicate (Z.to_nat (num_layers - 1)) (hidden_dim, hidden_dim)
                 ++ [(hidden_dim, output_dim)])%list).
    unfold linears. rewrite omap_app. fold (linears (concat (MLP.hidden hidden_dim act <$> range (num_layers - 1)))).
    rewrite linears_hidden, Hlen. reflexivity.
  - unfold activations. cbn [omap list_omap snd].
    rewrite omap_app. fold (activations (concat (MLP.hidden hidden_dim act <$> range (num_layers - 1)))).
    rewrite activations_hidden, Hlen. cbn. by rewrite app_nil_r.
  - intros c Hc. cbn in Hc.
    destruct (range (num_layers - 1)) as [|i l]; cbn in Hc.
    + inversion Hc; subst c. eauto.
    + inversion Hc; subst c. eauto.
Qed.

Section Facts.
Context {E : Type} {RT : Runtime E}.

(** X3: with [num_layers <= 1] the model is the input layer followed by the
    output layer and nothing else: [forward] applies the two in turn, with
    no activation, dropout or normalization between them. *)
Theorem single_layer_has_no_activation (input_dim output_dim hidden_dim num_layers : Z)
    (act : act_layer) (x : tensor E) :
  num_layers <= 1 ->
  let self := MLP.__init__ input_dim output_dim hidden_dim num_layers act in
  MLP.layers self
  = [("input", MLP.Torch (Linear input_dim hidden_dim));
     ("output", MLP.Torch (Linear hidden_dim output_dim))]
  /\ MLP.forward self x
     = (y ← nn_call "layers.input" (Linear input_dim hidden_dim) x;
        nn_call "layers.output" (Linear hidden_dim output_dim) y).
Proof.
  intros Hn self.
  assert (Hl : MLP.layers self
               = [("input", MLP.Torch (Linear input_dim hidden_dim));
                  ("output", MLP.Torch (Linear hidden_dim output_dim))]).
  { unfold self. rewrite init_layers, layer_list_closed_form.
    unfold range. rewrite seqZ_nil by lia. reflexivity. }
  split; [exact Hl|]. unfold MLP.forward. rewrite Hl. cbn.
  destruct (nn_call _ _ x) as [y|e]; cbn; [|reflexivity].
  destruct (nn_call _ _ y); reflexivity.
Qed.

End Facts.

#[local] Existing Instances probe_runtime probe_specials probe_functional.

(** The theorem at [num_layers = 1], the default of the voxel MLP
    configuration. *)
Lemma single_layer_has_no_activation_witness :
  MLP.layers (MLP.__init__ 8 2 4 1 GELU)
  = [("input", MLP.Torch (Linear 8 4)); ("output", MLP.Torch (Linear 4 2))]
  /\ MLP.forward (MLP.__init__ 8 2 4 1 GELU) (Tensor float32 [1; 8] [VNum 1])
     = Ok (Tensor float32 [1; 8] [VNum 1]).
Proof.
  destruct (single_layer_has_no_activation (RT := probe_runtime) 8 2 4 1 GELU
              (Tensor float32 [1; 8] [VNum 1])) as [Hl Hf]; [lia|].
  split; [exact Hl|]. rewrite Hf. reflexivity.
Defined.

End MLP_facts.

(** ** The residual tower: channels and stages *)

Module ModifiedResNet_facts.

Definition in_channels (l : layer) : option Z :=
  match l with
  | Conv2d i _ _ _ _ _ => Some i
  | _ => None
  end.

Definition out_channels (l : layer) : option Z :=
  match l with
  | Conv2d _ o _ _ _ _ => Some o
  | _ => None
  end.

(** The factor by which a pooling layer divides the resolution. *)
Definition pool_factor (l : layer) : option Z :=
  match l with
  | AvgPool2d k => Some k
  | Identity => Some 1
  | _ => None
  end.

(** Channels of the main path of a block, after [conv3]. *)
Definition main_channels (b : Bottleneck.t) : option Z :=
  out_channels (Bottleneck.conv3 b).

(** Channels of what the block adds to the main path: the output of the
    convolution of [downsample], or the input itself. *)
Definition shortcut_channels (b : Bottleneck.t) : option Z :=
  match Bottleneck.downsample b with
  | Some ds => ds !! 1%nat ≫= fun nl => out_channels nl.2
  | None => in_channels (Bottleneck.conv1 b)
  end.

(** Pooling factor of the shortcut. *)
Definition shortcut_pool (b : Bottleneck.t) : option Z :=
  match Bottleneck.downsample b with
  | Some ds => ds !! 0%nat ≫= fun nl => pool_factor nl.2
  | None => Some 1
  end.

(** The blocks of a stage take [c_in] channels one after the other; the
    result is the number of channels the last one gives. *)
Fixpoint channel_chain (c_in : Z) (blocks : list Bottleneck.t) : option Z :=
  match blocks with
  | [] => Some c_in
  | b :: rest =>
      if bool_decide (in_channels (Bottleneck.conv1 b) = Some c_in
                      /\ shortcut_channels b = main_channels b)
      then main_channels b ≫= fun c => channel_chain c rest
      else None
  end.

(** The channels of a block, read off its layers. *)
Lemma block_channels (inplanes planes stride : Z) :
  let b := Bottleneck.__init__ inplanes planes stride in
  main_channels b = Some (planes * 4)
  /\ shortcut_channels b = Some (planes * 4)
  /\ in_channels (Bottleneck.conv1 b) = Some inplanes.
Proof.
  intros b. unfold b, main_channels, shortcut_channels. cbn.
  split; [reflexivity|]. split; [|reflexivity].
  destruct (bool_decide (stride > 1)); cbn; [reflexivity|].
  destruct (bool_decide (inplanes = planes * Bottleneck.expansion)) eqn:Hb; cbn;
    [|reflexivity].
  apply bool_decide_eq_true in Hb. by rewrite Hb.
Qed.

(** X4: in every block the shortcut and the main path carry the same number
    of channels, [planes * 4], so that [out += identity] adds tensors of one
    width; and for a stride of at least one both are pooled by the same
    factor. *)
Theorem shortcut_matches_main_path (inplanes planes stride : Z) :
  let b := Bottleneck.__init__ inplanes planes stride in
  main_channels b = Some (planes * 4)
  /\ shortcut_channels b = Some (planes * 4)
  /\ in_channels (Bottleneck.conv1 b) = Some inplanes
  /\ (1 <= stride -> pool_factor (Bottleneck.avgpool b) = shortcut_pool b).
Proof.
  intros b. destruct (block_channels inplanes planes stride) as (Hm & Hs & Hi).
  split; [exact Hm|]. split; [exact Hs|]. split; [exact Hi|].
  unfold b, shortcut_pool. cbn.
  intros Hs1. destruct (bool_decide (stride > 1)) eqn:Hb; cbn; [reflexivity|].
  apply bool_decide_eq_false in Hb.
  destruct (bool_decide (inplanes = planes * Bottleneck.expansion)); cbn;
    [reflexivity|]. f_equal. lia.
Qed.

Lemma foldl_snoc_const {A B : Type} (a : A) (acc : list A) (l : list B) :
  foldl (fun layers _ => (layers ++ [a])%list) acc l
  = (acc ++ replicate (length l) a)%list.
Proof.
  revert acc. induction l as [|b l IH]; intros acc; cbn.
  - by rewrite app_nil_r.
  - rewrite IH. by rewrite <- app_assoc.
Qed.

Lemma make_layer_closed_form (inplanes planes blocks stride : Z) :
  ModifiedResNet._make_layer inplanes planes blocks stride
  = (Bottleneck.__init__ inplanes planes stride
       :: replicate (Z.to_nat (blocks - 1)) (Bottleneck.__init__ (planes * 4) planes 1),
     planes * 4).
Proof.
  unfold ModifiedResNet._make_layer. rewrite foldl_snoc_const.
  unfold range_from. rewrite length_seqZ. reflexivity.
Qed.

(** X5: a stage is its first block followed by [blocks - 1] copies of one
    block, at least one block in all; it leaves [planes * 4] in
    [_inplanes]; only the first block takes the stride, and no later block
    has a [downsample] branch or a pooling layer. *)
Theorem stage_changes_shape_in_first_block_only (inplanes planes blocks stride : Z) :
  let stage := ModifiedResNet._make_layer inplanes planes blocks stride in
  stage.1 = Bottleneck.__init__ inplanes planes stride
            :: replicate (Z.to_nat (blocks - 1)) (Bottleneck.__init__ (planes * 4) planes 1)
  /\ stage.2 = planes * 4
  /\ length stage.1 = Z.to_nat (Z.max 1 blocks)
  /\ (forall b, b ∈ tail stage.1 ->
        Bottleneck.downsample b = None
        /\ Bottleneck.avgpool b = Identity
        /\ Bottleneck.stride b = 1).
Proof.
  intros stage. unfold stage. rewrite make_layer_closed_form. cbn [fst snd tail].
  split; [reflexivity|]. split; [reflexivity|]. split.
  - cbn. rewrite length_replicate. lia.
  - intros b Hb. apply elem_of_replicate in Hb as [-> _]. cbn.
    rewrite (bool_decide_eq_false_2 (1 > 1)) by lia. cbn.
    rewrite bool_decide_eq_true_2 by reflexivity. by cbn.
Qed.

Lemma channel_chain_app (c : Z) (l1 l2 : list Bottleneck.t) :
  channel_chain c (l1 ++ l2) = channel_chain c l1 ≫= fun c' => channel_chain c' l2.
Proof.
  revert c. induction l1 as [|b l1 IH]; intros c; cbn; [reflexivity|].
  destruct (bool_decide _); cbn; [|reflexivity].
  destruct (main_channels b) as [c'|]; cbn; [apply IH|reflexivity].
Qed.

Lemma channel_chain_replicate (planes : Z) (n : nat) :
  channel_chain (planes * 4) (replicate n (Bottleneck.__init__ (planes * 4) planes 1))
  = Some (planes * 4).
Proof.
  induction n as [|n IH]; [reflexivity|].
  cbn [replicate channel_chain].
  destruct (block_channels (planes * 4) planes 1) as (Hm & Hs & Hi).
  cbn zeta in Hm, Hs, Hi. rewrite Hm, Hs, Hi.
  rewrite bool_decide_eq_true_2 by (split; reflexivity). cbn. exact IH.
Qed.

Lemma channel_chain_stage (inplanes planes blocks stride : Z) :
  channel_chain inplanes (ModifiedResNet._make_layer inplanes planes blocks stride).1
  = Some (planes * 4).
Proof.
  rewrite make_layer_closed_form. cbn [fst channel_chain].
  destruct (block_channels inplanes planes stride) as (Hm & Hs & Hi).
  cbn zeta in Hm, Hs, Hi. rewrite Hm, Hs, Hi.
  rewrite bool_decide_eq_true_2 by (split; reflexivity). cbn.
  apply channel_chain_replicate.
Qed.

(** Inversion of a construction that returned. *)
Lemma init_inv (layers : list Z) (output_dim heads : Z) (image_size : Z + Z * Z)
    (width : Z) (net : ModifiedResNet.t) :
  ModifiedResNet.__init__ layers output_dim heads image_size width = Ok net ->
  exists b1 b2 b3 b4 n,
    py_index "tuple" layers 0 = Ok b1
    /\ py_index "tuple" layers 1 = Ok b2
    /\ py_index "tuple" layers 2 = Ok b3
    /\ py_index "tuple" layers 3 = Ok b4
    /\ image_size = inl n
    /\ ModifiedResNet.layer1 net = (ModifiedResNet._make_layer width width b1 1).1
    /\ ModifiedResNet.layer2 net
       = (ModifiedResNet._make_layer (width * 4) (width * 2) b2 2).1
    /\ ModifiedResNet.layer3 net
       = (ModifiedResNet._make_layer (width * 2 * 4) (width * 4) b3 2).1
    /\ ModifiedResNet.layer4 net
       = (ModifiedResNet._make_layer (width * 4 * 4) (width * 8) b4 2).1
    /\ ModifiedResNet._inplanes net = width * 8 * 4
    /\ ModifiedResNet.conv3 net = Conv2d (width / 2) width 3 1 1 false
    /\ ModifiedResNet.attnpool net
       = AttentionPool2d.__init__ (n / 32) (width * 32) heads (Some output_dim)
    /\ width <> 0.
Proof.
  unfold ModifiedResNet.__init__. intros H.
  destruct (py_index "tuple" layers 0) as [b1|];
    cbn [mbind result_mbind result_bind] in H; [|discriminate].
  rewrite make_layer_closed_form in H.
  destruct (py_index "tuple" layers 1) as [b2|];
    cbn [mbind result_mbind result_bind] in H; [|discriminate].
  rewrite make_layer_closed_form in H.
  destruct (py_index "tuple" layers 2) as [b3|];
    cbn [mbind result_mbind result_bind] in H; [|discriminate].
  rewrite make_layer_closed_form in H.
  destruct (py_index "tuple" layers 3) as [b4|];
    cbn [mbind result_mbind result_bind] in H; [|discriminate].
  rewrite make_layer_closed_form in H.
  destruct image_size as [n|p]; cbn [mbind result_mbind result_bind] in H;
    [|discriminate].
  unfold ModifiedResNet.init_parameters in H.
  cbn [ModifiedResNet.attnpool AttentionPool2d.__init__ AttentionPool2d.c_proj
       in_features mbind result_mbind result_bind] in H.
  unfold CLIP.pow_neg_half in H.
  destruct (bool_decide (width * 32 = 0)) eqn:Hw;
    cbn [mbind result_mbind result_bind] in H; [discriminate|].
  apply bool_decide_eq_false in Hw.
  inversion H; subst net; clear H.
  cbn [ModifiedResNet.layer1 ModifiedResNet.layer2 ModifiedResNet.layer3
       ModifiedResNet.layer4 ModifiedResNet._inplanes ModifiedResNet.conv3
       ModifiedResNet.attnpool].
  exists b1, b2, b3, b4, n. rewrite !make_layer_closed_form. cbn [fst].
  repeat split; try reflexivity. lia.
Qed.

(** X6: in a tower the constructor returns, the channels fit from end to
    end: the stem gives [width] channels, every block of the four stages
    takes what the block before it gives and adds a shortcut as wide as its
    main path, the last block gives [width * 32] channels, and that is the
    width the attention pool works at and what is left in [_inplanes]. *)
Theorem channels_fit_end_to_end (layers : list Z) (output_dim heads : Z)
    (image_size : Z + Z * Z) (width : Z) (net : ModifiedResNet.t) :
  ModifiedResNet.__init__ layers output_dim heads image_size width = Ok net ->
  out_channels (ModifiedResNet.conv3 net) = Some width
  /\ channel_chain width
       (ModifiedResNet.layer1 net ++ ModifiedResNet.layer2 net
        ++ ModifiedResNet.layer3 net ++ ModifiedResNet.layer4 net)
     = Some (width * 32)
  /\ ModifiedResNet._inplanes net = width * 32
  /\ in_features (AttentionPool2d.q_proj (ModifiedResNet.attnpool net)) = Ok (width * 32)
  /\ in_features (AttentionPool2d.k_proj (ModifiedResNet.attnpool net)) = Ok (width * 32)
  /\ in_features (AttentionPool2d.v_proj (ModifiedResNet.attnpool net)) = Ok (width * 32)
  /\ in_features (AttentionPool2d.c_proj (ModifiedResNet.attnpool net)) = Ok (width * 32).
Proof.
  intros H. apply init_inv in H
    as (b1 & b2 & b3 & b4 & n & _ & _ & _ & _ & _ & H1 & H2 & H3 & H4 & Hin & Hc & Ha & _).
  rewrite Hc, H1, H2, H3, H4, Hin, Ha.
  split; [reflexivity|]. split; [|split; [lia|repeat split]].
  do 3 (rewrite channel_chain_app, channel_chain_stage; cbn [mbind option_bind]).
  rewrite channel_chain_stage. f_equal. lia.
Qed.

(** X7: the constructor reads four stage sizes and divides the image size by
    32: with fewer than four entries in [layers] it raises [IndexError],
    and with four entries and an image size given as a pair it raises
    [TypeError]; entries after the fourth are not read. *)
Theorem init_needs_four_stages_and_integer_size (layers : list Z)
    (output_dim heads : Z) (image_size : Z + Z * Z) (width : Z) :
  2 <= width ->
  ((length layers < 4)%nat ->
     exists msg,
       ModifiedResNet.__init__ layers output_dim heads image_size width
       = Raise (IndexError msg))
  /\ ((4 <= length layers)%nat ->
        (forall p, image_size = inr p ->
           ModifiedResNet.__init__ layers output_dim heads image_size width
           = Raise (TypeError "unsupported operand type(s) for //: 'tuple' and 'int'"))
        /\ (forall extra,
              ModifiedResNet.__init__ (take 4 layers ++ extra) output_dim heads
                image_size width
              = ModifiedResNet.__init__ layers output_dim heads image_size width)).
Proof.
  intros Hw. split.
  - intros Hlen. unfold ModifiedResNet.__init__.
    destruct layers as [|a [|b [|c [|d rest]]]]; cbn in Hlen; try lia;
      cbn; rewrite ?make_layer_closed_form; cbn; eauto.
  - intros Hlen. destruct layers as [|a [|b [|c [|d rest]]]]; cbn in Hlen; try lia.
    split.
    + intros p ->. reflexivity.
    + intros extra. reflexivity.
Qed.

(** The tower of RN50: stages of 3, 4, 6 and 3 blocks at width 64. *)
Lemma channels_fit_end_to_end_witness :
  exists net,
    ModifiedResNet.__init__ [3; 4; 6; 3] 1024 32 (inl 224) 64 = Ok net
    /\ channel_chain 64
         (ModifiedResNet.layer1 net ++ ModifiedResNet.layer2 net
          ++ ModifiedResNet.layer3 net ++ ModifiedResNet.layer4 net)
       = Some 2048
    /\ length (ModifiedResNet.layer3 net) = 6%nat.
Proof.
  eexists. split; [reflexivity|].
  split; [|reflexivity].
  apply (channels_fit_end_to_end [3; 4; 6; 3] 1024 32 (inl 224) 64). reflexivity.
Defined.

(** A tower with three stage sizes, and one with a pair for the image
    size. *)
Lemma init_needs_four_stages_and_integer_size_witness :
  (exists msg,
     ModifiedResNet.__init__ [3; 4; 6] 1024 32 (inl 224) 64 = Raise (IndexError msg))
  /\ ModifiedResNet.__init__ [3; 4; 6; 3] 1024 32 (inr (224, 224)) 64
     = Raise (TypeError "unsupported operand type(s) for //: 'tuple' and 'int'").
Proof.
  split.
  - destruct (init_needs_four_stages_and_integer_size [3; 4; 6] 1024 32 (inl 224) 64)
      as [H _]; [lia|]. apply H. cbn. lia.
  - destruct (init_needs_four_stages_and_integer_size [3; 4; 6; 3] 1024 32
                (inr (224, 224)) 64) as [_ H]; [lia|].
    destruct H as [H _]; [cbn; lia|]. by apply (H (224, 224)).
Defined.

End ModifiedResNet_facts.

(** ** Voxel2DVisualTransformer: the channel axis and the padding *)

Module Voxel2DVisualTransformer_facts.
Section Facts.
Context {E : Type} {RT : Runtime E} {SP : Specials E}.

Lemma py_index_last {A : Type} (kind : string) (pre : list A) (h w : A) :
  py_index kind (pre ++ [h; w]) (-1) = Ok w
  /\ py_index kind (pre ++ [h; w]) (-2) = Ok h.
Proof.
  unfold py_index. rewrite length_app. cbn [length].
  rewrite !(bool_decide_eq_true_2 (_ < 0)) by lia.
  rewrite !(bool_decide_eq_true_2 (0 <= _)) by lia.
  replace (Z.to_nat (Z.of_nat (length pre + 2) + -1)) with (length pre + 1)%nat by lia.
  replace (Z.to_nat (Z.of_nat (length pre + 2) + -2)) with (length pre + 0)%nat by lia.
  rewrite !lookup_app_r by lia.
  replace (length pre + 1 - length pre)%nat with 1%nat by lia.
  replace (length pre + 0 - length pre)%nat with 0%nat by lia.
  split; reflexivity.
Qed.

(** The axes [forward] hands to [permute], for each channel axis. *)
Lemma permute_axes (self : Voxel2DVisualTransformer.t) :
  let cd := Voxel2DVisualTransformer.channel_dim self in
  let dims := 0 :: cd + 1
              :: ((fun i => i + 1) <$> filter (fun x => x <> cd) [0; 1; 2]) in
  (cd = 0 -> dims = [0; 1; 2; 3])
  /\ (cd = 1 -> dims = [0; 2; 1; 3])
  /\ (cd = 2 -> dims = [0; 3; 1; 2])
  /\ (cd <> 0 -> cd <> 1 -> cd <> 2 -> dims = [0; cd + 1; 1; 2; 3]).
Proof.
  intros cd dims. unfold dims.
  repeat split.
  - intros ->. reflexivity.
  - intros ->. reflexivity.
  - intros ->. reflexivity.
  - intros H0 H1 H2. rewrite !filter_cons, filter_nil.
    rewrite !decide_True by (intros Heq; symmetry in Heq; contradiction).
    reflexivity.
Qed.

Lemma permute_literal (dims : list Z) (x : tensor E) :
  length dims = length (t_shape x) ->
  Forall (fun d => 0 <= d < Z.of_nat (length (t_shape x))) dims ->
  Voxel2DVisualTransformer.permute dims x = torch.permute dims x.
Proof.
  intros Hlen Hall. unfold Voxel2DVisualTransformer.permute.
  rewrite bool_decide_eq_true_2 by exact Hlen.
  assert (Hf : forallb (fun d => bool_decide (- Z.of_nat (length (t_shape x)) <= d
                                              < Z.of_nat (length (t_shape x)))) dims
               = true).
  { apply forallb_forall. intros d Hd. apply bool_decide_eq_true.
    rewrite Forall_forall in Hall. apply list_elem_of_In in Hd.
    specialize (Hall d Hd). lia. }
  rewrite Hf. f_equal.
  clear Hlen Hf. induction Hall as [|d dims Hd _ IH]; [reflexivity|].
  cbn. rewrite bool_decide_eq_false_2 by lia. by rewrite IH.
Qed.

(** X8: on an input with four axes, a channel axis of 0, 1 or 2 moves that
    axis right behind the batch axis and keeps the order of the other two;
    any other channel axis makes [forward] raise at the [permute], which is
    then handed five axes. *)
Theorem channel_axis_moves_behind_batch (super_forward : callable E)
    (self : Voxel2DVisualTransformer.t) (x : tensor E) :
  length (t_shape x) = 4%nat ->
  let cd := Voxel2DVisualTransformer.channel_dim self in
  let dims := 0 :: cd + 1
              :: ((fun i => i + 1) <$> filter (fun x => x <> cd) [0; 1; 2]) in
  (cd = 0 -> Voxel2DVisualTransformer.permute dims x = torch.permute [0; 1; 2; 3] x)
  /\ (cd = 1 -> Voxel2DVisualTransformer.permute dims x = torch.permute [0; 2; 1; 3] x)
  /\ (cd = 2 -> Voxel2DVisualTransformer.permute dims x = torch.permute [0; 3; 1; 2] x)
  /\ (cd <> 0 -> cd <> 1 -> cd <> 2 ->
        exists msg,
          Voxel2DVisualTransformer.forward super_forward self x
          = Raise (RuntimeError msg)).
Proof.
  intros Hlen cd dims.
  destruct (permute_axes self) as (H0 & H1 & H2 & Hother).
  fold cd in H0, H1, H2, Hother. cbn zeta in H0, H1, H2, Hother. fold dims in H0, H1, H2, Hother.
  repeat split.
  - intros Hcd. rewrite (H0 Hcd). apply permute_literal; [by rewrite Hlen|].
    rewrite Hlen. repeat constructor; lia.
  - intros Hcd. rewrite (H1 Hcd). apply permute_literal; [by rewrite Hlen|].
    rewrite Hlen. repeat constructor; lia.
  - intros Hcd. rewrite (H2 Hcd). apply permute_literal; [by rewrite Hlen|].
    rewrite Hlen. repeat constructor; lia.
  - intros Hn0 Hn1 Hn2. eexists.
    unfold Voxel2DVisualTransformer.forward, Voxel2DVisualTransformer.prepare.
    fold cd. fold dims. rewrite (Hother Hn0 Hn1 Hn2).
    unfold Voxel2DVisualTransformer.permute.
    rewrite bool_decide_eq_false_2 by (rewrite Hlen; cbn; lia).
    reflexivity.
Qed.

(** The padded tensor: its shape and its elements. *)
Lemma F_pad_spec (x : tensor E) (pre : list Z) (h w S : Z) :
  t_shape x = (pre ++ [h; w])%list ->
  0 <= S ->
  exists y,
    Voxel2DVisualTransformer.F_pad x (S - w) (S - h) = Ok y
    /\ t_shape y = (pre ++ [S; S])%list
    /\ t_dtype y = t_dtype x
    /\ forall p i j,
         0 <= p < torch.numel pre -> 0 <= i < S -> 0 <= j < S ->
         t_data y !! Z.to_nat ((p * S + i) * S + j)
         = Some (if bool_decide (i < h /\ j < w)
                 then default zero (t_data x !! Z.to_nat ((p * h + i) * w + j))
                 else zero).
Proof.
  intros Hshape HS. unfold Voxel2DVisualTransformer.F_pad.
  rewrite Hshape, rev_app_distr. cbn [rev app].
  rewrite rev_involutive.
  replace (w + (S - w)) with S by lia. replace (h + (S - h)) with S by lia.
  rewrite bool_decide_eq_true_2 by lia.
  eexists. split; [reflexivity|]. cbn [t_shape t_dtype t_data].
  split; [reflexivity|]. split; [reflexivity|].
  intros p i j Hp Hi Hj.
  rewrite list_lookup_fmap.
  assert (Hk : 0 <= (p * S + i) * S + j < torch.numel pre * S * S) by nia.
  rewrite lookup_seqZ_lt by lia. cbn [fmap option_fmap option_map].
  rewrite Z.add_0_l, Z2Nat.id by lia.
  assert (Hj' : ((p * S + i) * S + j) mod S = j).
  { symmetry. apply (Z.mod_unique_pos _ _ (p * S + i)); lia. }
  assert (Hq : ((p * S + i) * S + j) / S = p * S + i).
  { symmetry. apply (Z.div_unique_pos _ _ _ j); lia. }
  assert (Hi' : (p * S + i) mod S = i).
  { symmetry. apply (Z.mod_unique_pos _ _ p); lia. }
  assert (Hp' : ((p * S + i) * S + j) / (S * S) = p).
  { symmetry. apply (Z.div_unique_pos _ _ _ (i * S + j)); nia. }
  rewrite Hj', Hq, Hi', Hp'. reflexivity.
Qed.

(** X9: when the two trailing axes of the permuted input are at most the
    image size, the tensor [forward] hands to the superclass has those two
    axes grown to the image size and the others unchanged; every element
    keeps its indices, and the elements outside the old extent are zero. *)
Theorem pads_trailing_axes_to_image_size (super_forward : callable E)
    (self : Voxel2DVisualTransformer.t) (x xp : tensor E) (pre : list Z) (h w : Z) :
  let cd := Voxel2DVisualTransformer.channel_dim self in
  let S := Voxel2DVisualTransformer.image_size self in
  Voxel2DVisualTransformer.permute
    (0 :: cd + 1 :: ((fun i => i + 1) <$> filter (fun x => x <> cd) [0; 1; 2])) x
  = Ok xp ->
  t_shape xp = (pre ++ [h; w])%list ->
  0 <= h <= S -> 0 <= w <= S ->
  exists y,
    Voxel2DVisualTransformer.prepare self x = Ok y
    /\ Voxel2DVisualTransformer.forward super_forward self x = super_forward y
    /\ t_shape y = (pre ++ [S; S])%list
    /\ t_dtype y = t_dtype xp
    /\ forall p i j,
         0 <= p < torch.numel pre -> 0 <= i < S -> 0 <= j < S ->
         t_data y !! Z.to_nat ((p * S + i) * S + j)
         = Some (if bool_decide (i < h /\ j < w)
                 then default zero (t_data xp !! Z.to_nat ((p * h + i) * w + j))
                 else zero).
Proof.
  intros cd S Hperm Hshape Hh Hw. subst cd S.
  destruct (F_pad_spec xp pre h w (Voxel2DVisualTransformer.image_size self) Hshape
              ltac:(lia)) as (y & Hpad & Hy).
  exists y.
  assert (Hprep : Voxel2DVisualTransformer.prepare self x = Ok y).
  { unfold Voxel2DVisualTransformer.prepare. rewrite Hperm.
    cbn [mbind result_mbind result_bind]. rewrite Hshape.
    destruct (py_index_last "tuple" pre h w) as [-> ->].
    cbn [mbind result_mbind result_bind].
    rewrite !bool_decide_eq_true_2 by lia.
    cbn [py_assert mbind result_mbind result_bind]. exact Hpad. }
  split; [exact Hprep|]. split; [|exact Hy].
  unfold Voxel2DVisualTransformer.forward. rewrite Hprep. reflexivity.
Qed.

(** X10: a trailing axis longer than the image size stops [forward] with an
    [AssertionError] that names both numbers; the last axis is checked
    first. *)
Theorem rejects_axes_beyond_image_size (super_forward : callable E)
    (self : Voxel2DVisualTransformer.t) (x xp : tensor E) (pre : list Z) (h w : Z) :
  let cd := Voxel2DVisualTransformer.channel_dim self in
  let S := Voxel2DVisualTransformer.image_size self in
  Voxel2DVisualTransformer.permute
    (0 :: cd + 1 :: ((fun i => i + 1) <$> filter (fun x => x <> cd) [0; 1; 2])) x
  = Ok xp ->
  t_shape xp = (pre ++ [h; w])%list ->
  (S < w ->
     Voxel2DVisualTransformer.forward super_forward self x
     = Raise (AssertionError
                ("Last channel dimension " ++ pretty w
                 ++ " is larger than image size " ++ pretty S)))
  /\ (w <= S -> S < h ->
        Voxel2DVisualTransformer.forward super_forward self x
        = Raise (AssertionError
                   ("Second to last channel dimension " ++ pretty h
                    ++ " is larger than image size " ++ pretty S))).
Proof.
  intros cd S Hperm Hshape. subst cd S.
  unfold Voxel2DVisualTransformer.forward, Voxel2DVisualTransformer.prepare.
  rewrite Hperm. cbn [mbind result_mbind result_bind]. rewrite Hshape.
  destruct (py_index_last "tuple" pre h w) as [-> ->].
  cbn [mbind result_mbind result_bind].
  split.
  - intros Hw.
    rewrite (bool_decide_eq_false_2 (w <= Voxel2DVisualTransformer.image_size self))
      by lia.
    reflexivity.
  - intros Hw Hh.
    rewrite (bool_decide_eq_true_2 (w <= Voxel2DVisualTransformer.image_size self))
      by lia.
    cbn [py_assert mbind result_mbind result_bind].
    rewrite (bool_decide_eq_false_2 (h <= Voxel2DVisualTransformer.image_size self))
      by lia.
    reflexivity.
Qed.

End Facts.

#[local] Existing Instances probe_runtime probe_specials probe_functional.

(** A volume of one by two by one voxels. *)
Definition volume : tensor val := Tensor float32 [1; 1; 2; 1] [VNum 7; VNum 8].

(** The theorem on that volume, for the channel axes 0 and 3. *)
Lemma channel_axis_moves_behind_batch_witness :
  Voxel2DVisualTransformer.permute [0; 1; 2; 3] volume = torch.permute [0; 1; 2; 3] volume
  /\ exists msg,
       Voxel2DVisualTransformer.forward (fun x => Ok x)
         (Voxel2DVisualTransformer.Make 3 2) volume
       = Raise (RuntimeError msg).
Proof.
  split.
  - apply (channel_axis_moves_behind_batch (fun x => Ok x)
             (Voxel2DVisualTransformer.Make 0 2) volume); reflexivity.
  - apply (channel_axis_moves_behind_batch (fun x => Ok x)
             (Voxel2DVisualTransformer.Make 3 2) volume); [reflexivity|cbn; lia..].
Defined.

(** The volume padded to planes of two by two: the two voxels keep their
    places in the first column, the second column is zero. *)
Lemma pads_trailing_axes_to_image_size_witness :
  Voxel2DVisualTransformer.prepare (Voxel2DVisualTransformer.Make 0 2) volume
  = Ok (Tensor float32 [1; 1; 2; 2] [VNum 7; VNum 0; VNum 8; VNum 0]).
Proof.
  destruct (pads_trailing_axes_to_image_size (fun x => Ok x)
              (Voxel2DVisualTransformer.Make 0 2) volume volume [1; 1] 2 1)
    as (y & Hy & _); [reflexivity|reflexivity|cbn; lia|cbn; lia|].
  rewrite Hy. f_equal.
  assert (Hy' : Voxel2DVisualTransformer.prepare (Voxel2DVisualTransformer.Make 0 2) volume
                = Ok (Tensor float32 [1; 1; 2; 2] [VNum 7; VNum 0; VNum 8; VNum 0]))
    by (vm_compute; reflexivity).
  rewrite Hy' in Hy. by inversion Hy.
Defined.

(** The volume against an image size of one: the axis of two voxels is too
    long. *)
Lemma rejects_axes_beyond_image_size_witness :
  Voxel2DVisualTransformer.forward (fun x => Ok x)
    (Voxel2DVisualTransformer.Make 0 1) volume
  = Raise (AssertionError
             "Second to last channel dimension 2 is larger than image size 1").
Proof.
  destruct (rejects_axes_beyond_image_size (fun x => Ok x)
              (Voxel2DVisualTransformer.Make 0 1) volume volume [1; 1] 2 1)
    as [_ H]; [reflexivity|reflexivity|].
  rewrite H; [reflexivity|cbn; lia..].
Defined.

End Voxel2DVisualTransformer_facts.

(** ** The 3-D convolution encoders: the sizes they book *)

Module conv_encoder_facts.





Lemma comprehension_prefix_raises {A B : Type} (f : A -> result B) (l1 l2 : list A)
    (e : exn) :
  py_comprehension f l1 = Raise e -> py_comprehension f (l1 ++ l2) = Raise e.
Proof.
  induction l1 as [|a l1 IH]; [discriminate|].
  cbn. destruct (f a) as [b|e']; cbn; [|trivial].
  destruct (py_comprehension f l1) as [bs|e']; cbn; [discriminate|].
  intros H. rewrite (IH H). reflexivity.
Qed.









(** X13: [Voxel3dConvEncoder] has eight strides and nine channel counts, so
    with [layers] of nine or more its constructor raises [IndexError]; and
    the MLP it ends in is built without the activation the encoder was
    given: four fully connected layers with [nn.GELU] between the hidden
    ones. *)
Theorem voxel_encoder_layers_and_head (dims : list Z) (layers output_dim : Z)
    (act : act_layer) :
  (9 <= layers ->
     exists msg,
       Voxel3dConvEncoder.__init__ dims layers output_dim act = Raise (IndexError msg))
  /\ (forall enc,
        Voxel3dConvEncoder.__init__ dims layers output_dim act = Ok enc ->
        MLP_facts.activations (MLP.layers (Voxel3dConvEncoder.mlp enc)) = [GELU; GELU]
        /\ exists features,
             MLP_facts.linears (MLP.layers (Voxel3dConvEncoder.mlp enc))
             = [(features, output_dim * 4); (output_dim * 4, output_dim * 4);
                (output_dim * 4, output_dim * 4); (output_dim * 4, output_dim)]).
Proof.
  split.
  - intros Hl. unfold Voxel3dConvEncoder.__init__, range.
    replace layers with (9 + (layers - 9)) by lia.
    rewrite seqZ_app by lia.
    erewrite comprehension_prefix_raises; [cbn; eauto|]. reflexivity.
  - intros enc H. unfold Voxel3dConvEncoder.__init__ in H.
    destruct (py_comprehension _ (range layers)) as [blocks|];
      cbn [mbind result_mbind result_bind] in H; [|discriminate].
    destruct (py_for _ _ dims) as [dims'|];
      cbn [mbind result_mbind result_bind] in H; [|discriminate].
    destruct (py_index "list" _ layers) as [c|];
      cbn [mbind result_mbind result_bind] in H; [|discriminate].
    destruct (py_index "list" dims' 0) as [a0|];
      cbn [mbind result_mbind result_bind] in H; [|discriminate].
    destruct (py_index "list" dims' 1) as [a1|];
      cbn [mbind result_mbind result_bind] in H; [|discriminate].
    destruct (py_index "list" dims' 2) as [a2|];
      cbn [mbind result_mbind result_bind] in H; [|discriminate].
    inversion H; subst enc; clear H. cbn [Voxel3dConvEncoder.mlp].
    rewrite MLP_facts.init_layers, MLP_facts.layer_list_closed_form.
    split; [reflexivity|]. eexists. reflexivity.
Qed.



End conv_encoder_facts.

(** ** CLIP and the OpenAI state dict: no model is returned *)

Module construction_facts.
Section Facts.
Context {E : Type} {RT : Runtime E} {SP : Specials E} {FN : Functional E}.

(** X14: [CLIP.__init__] raises for every text tower with zero or more
    layers.  With one block or more, the loop of [init_parameters] looks up
    [block.mlp.c_proj], and the MLP of a block names its layers [c_fc],
    [c_act] and [proj]; with no block, [(2 * layers) ** -0.5] divides by
    zero. *)
Theorem clip_constructor_raises (embed_dim : Z) (vision_cfg : CLIPVisionCfg.t)
    (text_cfg : CLIPTextCfg.t) (quick_gelu : bool) :
  0 <= CLIPTextCfg.layers text_cfg ->
  (exists e, CLIP.__init__ embed_dim vision_cfg text_cfg quick_gelu = Raise e)
  /\ (1 <= CLIPTextCfg.layers text_cfg ->
      forall act,
        CLIP.init_blocks
          (Transformer.resblocks
             (Transformer.__init__ (CLIPTextCfg.width text_cfg)
                (CLIPTextCfg.layers text_cfg) (CLIPTextCfg.heads text_cfg) 4 act 0))
        = Raise (AttributeError "'Sequential' object has no attribute 'c_proj'"))
  /\ (CLIPTextCfg.layers text_cfg = 0 ->
      exists msg,
        CLIP.pow_neg_half (2 * CLIPTextCfg.layers text_cfg)
        = Raise (ZeroDivisionError msg)).
Proof.
  intros Hl. split; [|split].
  - destruct (CLIP.__init__ embed_dim vision_cfg text_cfg quick_gelu) as [m|e] eqn:H;
      [|eauto].
    apply CLIP_facts.constructed_without_blocks in H. lia.
  - intros H1 act. cbn [Transformer.resblocks Transformer.__init__].
    destruct (Z.to_nat (CLIPTextCfg.layers text_cfg)) as [|n] eqn:Hn; [lia|].
    apply CLIP_facts.init_blocks_raises.
  - intros ->. eexists. reflexivity.
Qed.

Lemma count_blocks_nonneg (keys : list string) (prefix : string) (n : Z) :
  openai.count_blocks keys prefix = Ok n -> 0 <= n.
Proof.
  unfold openai.count_blocks. intros H.
  destruct (py_comprehension _ _) as [parts|]; cbn in H; [|discriminate].
  inversion H. lia.
Qed.

(** X15: [build_model_from_openai_state_dict] returns no model, whatever the
    state dict holds: either one of its lookups raises, or the [CLIP]
    constructor it calls does, since the number of text layers it counts is
    never negative.  The conversion to half precision and the loading of
    the weights are not reached. *)
Theorem openai_builder_never_returns {A : Type}
    (finish : CLIP.t E -> gmap string (tensor E) -> result A)
    (state_dict : gmap string (tensor E)) :
  exists e, openai.build_model_from_openai_state_dict finish state_dict = Raise e.
Proof.
  unfold openai.build_model_from_openai_state_dict.
  match goal with
  | |- exists e, (?m ≫= _) = Raise e =>
      destruct m as [[[[vision_layers vision_width] vision_patch_size] image_size]|];
        cbn [mbind result_mbind result_bind]; [|eauto]
  end.
  repeat match goal with
         | |- exists e, (openai.getitem ?sd ?k ≫= _) = Raise e =>
             destruct (openai.getitem sd k);
               cbn [mbind result_mbind result_bind]; [|eauto]
         | |- exists e, (openai.shape_at ?x ?i ≫= _) = Raise e =>
             destruct (openai.shape_at x i);
               cbn [mbind result_mbind result_bind]; [|eauto]
         end.
  destruct (openai.count_blocks _ "transformer.resblocks") as [transformer_layers|]
    eqn:Hcount; cbn [mbind result_mbind result_bind]; [|eauto].
  apply count_blocks_nonneg in Hcount.
  match goal with
  | |- exists e, (CLIP.__init__ ?d ?v ?t ?q ≫= _) = Raise e =>
      destruct (CLIP.__init__ d v t q) as [model|] eqn:Hinit;
        cbn [mbind result_mbind result_bind]; [|eauto]
  end.
  apply CLIP_facts.constructed_without_blocks in Hinit. cbn in Hinit. lia.
Qed.

End Facts.

#[local] Existing Instances probe_runtime probe_specials probe_functional.

(** The constructor on a text tower of twelve blocks. *)
Lemma clip_constructor_raises_witness :
  exists e,
    CLIP.__init__ 512 CLIP_facts.vit_cfg (CLIPTextCfg.Make 77 49408 512 8 12) true
    = Raise e.
Proof.
  apply (clip_constructor_raises (RT := probe_runtime) 512 CLIP_facts.vit_cfg
           (CLIPTextCfg.Make 77 49408 512 8 12) true).
  cbn. lia.
Defined.

End construction_facts.

(** ** convert_weights_to_fp16: a second run, and the modules it cannot pass *)

Module fp16_more_facts.
Import fp16_facts.
Section Facts.
Context {E : Type} {RT : Runtime E}.

(** A statement of the conversion: the tensor attributes after it, and
    the exception if it raised. *)
Definition stmt : Type :=
  gmap string (option (tensor E)) -> gmap string (option (tensor E)) * option exn.

(** An attribute holds a tensor, not [None]. *)
Definition present (v : option (tensor E)) : bool :=
  match v with
  | Some _ => true
  | None => false
  end.

(** Two attribute dicts with the same names, and [None] under the same
    names. *)
Definition same_layout (ts1 ts2 : gmap string (option (tensor E))) : Prop :=
  forall n, present <$> ts1 !! n = present <$> ts2 !! n.

Lemma same_layout_refl (ts : gmap string (option (tensor E))) : same_layout ts ts.
Proof. intros n. reflexivity. Qed.

Lemma same_layout_trans (a b c : gmap string (option (tensor E))) :
  same_layout a b -> same_layout b c -> same_layout a c.
Proof. intros H1 H2 n. by rewrite H1. Qed.

Lemma same_layout_sym (a b : gmap string (option (tensor E))) : same_layout a b -> same_layout b a.
Proof. intros H n. by rewrite H. Qed.

Lemma set_half_layout (name : string) (ts : gmap string (option (tensor E))) :
  same_layout ts (fp16.set_half name ts).
Proof.
  intros n. unfold fp16.set_half. destruct (decide (name = n)) as [->|Hne].
  - rewrite lookup_alter_eq. by destruct (ts !! n) as [[x|]|].
  - by rewrite lookup_alter_ne.
Qed.

Lemma set_half_congr (name : string) (ts1 ts2 : gmap string (option (tensor E))) :
  same_layout ts1 ts2 ->
  same_layout (fp16.set_half name ts1) (fp16.set_half name ts2).
Proof.
  intros H. eapply same_layout_trans; [apply same_layout_sym, set_half_layout|].
  eapply same_layout_trans; [exact H|apply set_half_layout].
Qed.

(** What [getattr] finds depends on the layout only. *)
Lemma lookup_attr_layout (ts1 ts2 : gmap string (option (tensor E))) cs (n : string) :
  same_layout ts1 ts2 ->
  match fp16.lookup_attr ts1 cs n, fp16.lookup_attr ts2 cs n with
  | fp16.ATensor _, fp16.ATensor _
  | fp16.ANone, fp16.ANone
  | fp16.AModule _, fp16.AModule _
  | fp16.AMissing, fp16.AMissing => True
  | _, _ => False
  end.
Proof.
  intros H. specialize (H n). unfold fp16.lookup_attr.
  destruct (ts1 !! n) as [[x|]|], (ts2 !! n) as [[y|]|]; cbn in H;
    try discriminate H; try exact I.
  destruct (list_find _ cs) as [[? [? ?]]|]; exact I.
Qed.

(** A statement that, when it completes on one dict, completes on every
    dict of the same layout, and keeps the layout. *)
Definition transfers (f : stmt) : Prop :=
  forall ts ts1 ts2,
    f ts = (ts1, None) -> same_layout ts ts2 ->
    exists ts2', f ts2 = (ts2', None) /\ same_layout ts1 ts2'.

Lemma transfers_required (name : string) cs : transfers (fp16.convert_required name cs).
Proof.
  intros ts ts1 ts2 H Hs. unfold fp16.convert_required in *.
  pose proof (lookup_attr_layout ts ts2 cs name Hs) as Hk.
  destruct (fp16.lookup_attr ts cs name); inversion H; subst;
    destruct (fp16.lookup_attr ts2 cs name); try contradiction.
  eexists. split; [reflexivity|]. by apply set_half_congr.
Qed.

Lemma transfers_optional (name : string) cs : transfers (fp16.convert_optional name cs).
Proof.
  intros ts ts1 ts2 H Hs. unfold fp16.convert_optional in *.
  pose proof (lookup_attr_layout ts ts2 cs name Hs) as Hk.
  destruct (fp16.lookup_attr ts cs name); inversion H; subst;
    destruct (fp16.lookup_attr ts2 cs name); try contradiction.
  - eexists. split; [reflexivity|]. by apply set_half_congr.
  - eexists. split; [reflexivity|]. exact Hs.
Qed.

Lemma transfers_if_present (name : string) cs :
  transfers (fp16.convert_if_present name cs).
Proof.
  intros ts ts1 ts2 H Hs. unfold fp16.convert_if_present in *.
  pose proof (lookup_attr_layout ts ts2 cs name Hs) as Hk.
  destruct (fp16.lookup_attr ts cs name); inversion H; subst;
    destruct (fp16.lookup_attr ts2 cs name); try contradiction.
  - eexists. split; [reflexivity|]. by apply set_half_congr.
  - eexists. split; [reflexivity|]. exact Hs.
  - eexists. split; [reflexivity|]. exact Hs.
Qed.

Lemma transfers_skip : transfers fp16.skip.
Proof. intros ts ts1 ts2 H Hs. inversion H; subst. eexists. split; [reflexivity|exact Hs]. Qed.

Lemma transfers_and_then (f g : stmt) :
  transfers f -> transfers g -> transfers (fp16.and_then f g).
Proof.
  intros Hf Hg ts ts1 ts2 H Hs. unfold fp16.and_then in *.
  destruct (f ts) as [tsa [e|]] eqn:Hfa; [discriminate|].
  destruct (Hf _ _ _ Hfa Hs) as (tsb & Hfb & Hsb). rewrite Hfb.
  exact (Hg _ _ _ H Hsb).
Qed.

Lemma transfers_fold (names : list string) (step : string -> stmt) :
  (forall n, transfers (step n)) ->
  transfers (fold_right (fun name k => fp16.and_then (step name) k) fp16.skip names).
Proof.
  intros Hstep. induction names as [|n names IH]; cbn; [apply transfers_skip|].
  apply transfers_and_then; [apply Hstep|exact IH].
Qed.

Lemma transfers_convert (cls : pyclass) cs :
  transfers (fp16._convert_weights_to_fp16 cls cs).
Proof.
  unfold fp16._convert_weights_to_fp16.
  apply transfers_and_then; [|apply transfers_and_then].
  - destruct (fp16.is_conv_or_linear cls); [|apply transfers_skip].
    apply transfers_and_then; [apply transfers_required|apply transfers_optional].
  - destruct (fp16.is_mha cls); [|apply transfers_skip].
    apply transfers_fold. intros n. apply transfers_optional.
  - apply transfers_fold. intros n. apply transfers_if_present.
Qed.

Lemma converted_tensors_layout (cls : pyclass) (ts : gmap string (option (tensor E))) :
  same_layout ts (converted_tensors cls ts).
Proof.
  intros n. rewrite converted_tensors_lookup.
  destruct (ts !! n) as [[x|]|]; cbn; destruct (selected cls n); reflexivity.
Qed.

Lemma converted_tensors_idempotent (cls : pyclass) (ts : gmap string (option (tensor E))) :
  converted_tensors cls (converted_tensors cls ts) = converted_tensors cls ts.
Proof.
  apply map_eq. intros n. rewrite !converted_tensors_lookup.
  destruct (ts !! n) as [[x|]|]; cbn; destruct (selected cls n); cbn;
    rewrite ?half_idempotent; reflexivity.
Qed.

(** One module: a second run completes and changes nothing. *)
Lemma convert_node_again (cls : pyclass) cs (ts ts' : gmap string (option (tensor E))) :
  fp16._convert_weights_to_fp16 cls cs ts = (ts', None) ->
  fp16._convert_weights_to_fp16 cls cs ts' = (ts', None).
Proof.
  intros H. pose proof (convert_node _ _ _ _ H) as Hts'.
  destruct (transfers_convert cls cs ts ts' ts' H) as (ts'' & H2 & _).
  { subst ts'. apply converted_tensors_layout. }
  rewrite H2. f_equal.
  rewrite (convert_node _ _ _ _ H2). subst ts'. apply converted_tensors_idempotent.
Qed.

(** The loop over the children, when it completes. *)
Lemma apply_children_inv (cs cs' : list (string * mod_tree E)) :
  fp16.apply_children fp16.apply cs = (cs', None) ->
  Forall2 (fun nc nc' => nc.1 = nc'.1 /\ fp16.apply nc.2 = (nc'.2, None)) cs cs'.
Proof.
  revert cs'. induction cs as [|nc rest IH]; intros cs' H; cbn in H.
  - inversion H. constructor.
  - destruct (fp16.apply nc.2) as [c' [e|]] eqn:Hap; [discriminate|].
    destruct (fp16.apply_children fp16.apply rest) as [rest' err] eqn:Hrest.
    inversion H; subst. constructor; [split; reflexivity || exact Hap|].
    by apply IH.
Qed.

Lemma apply_again (m m' : mod_tree E) :
  fp16.apply m = (m', None) -> fp16.apply m' = (m', None).
Proof.
  revert m'. induction m as [cls ts cs IH] using mod_tree_ind'. intros m' H.
  cbn in H.
  destruct (fp16.apply_children fp16.apply cs) as [cs' [e|]] eqn:Hcs; [discriminate|].
  destruct (fp16._convert_weights_to_fp16 cls cs' ts) as [ts' err] eqn:Hts.
  inversion H; subst; clear H. cbn.
  assert (Hcs' : fp16.apply_children fp16.apply cs' = (cs', None)).
  { apply apply_children_inv in Hcs. clear Hts.
    induction Hcs as [|nc nc' rest rest' [Hn Hap] _ IHrest]; [reflexivity|].
    apply Forall_cons in IH as [IHc IHr].
    cbn. rewrite (IHc _ Hap). rewrite (IHrest IHr). by destruct nc'. }
  rewrite Hcs'. rewrite (convert_node_again _ _ _ _ Hts). reflexivity.
Qed.

(** X16: the conversion is idempotent: on a model it has converted, a second
    run completes and returns the model as it is. *)
Theorem conversion_is_idempotent (model model' : mod_tree E) :
  fp16.convert_weights_to_fp16 model = (model', None) ->
  fp16.convert_weights_to_fp16 model' = (model', None)
  /\ converted model' = model'.
Proof.
  unfold fp16.convert_weights_to_fp16. intros H.
  pose proof (apply_again _ _ H) as H2. split; [exact H2|].
  symmetry. by apply apply_converted.
Qed.

(** *** Modules named like a projection *)

(** A module has a child module under one of the names of the last loop,
    and no tensor attribute of that name. *)
Definition shadows (ts : gmap string (option (tensor E))) (cs : list (string * mod_tree E)) : bool :=
  existsb (fun n => bool_decide (ts !! n = None) && bool_decide (n ∈ cs.*1))
    fp16.projection_names.

(** Some module of the tree does. *)
Fixpoint shadowed (m : mod_tree E) : bool :=
  match m with
  | ModTree cls ts cs => shadows ts cs || existsb (fun nc => shadowed nc.2) cs
  end.

(** A statement whose exceptions are all [AttributeError]. *)
Definition attribute_errors (f : stmt) : Prop :=
  forall ts ts' e, f ts = (ts', Some e) -> exists msg, e = AttributeError msg.

Lemma attribute_errors_required (name : string) cs :
  attribute_errors (fp16.convert_required name cs).
Proof.
  intros ts ts' e H. unfold fp16.convert_required in H.
  destruct (fp16.lookup_attr ts cs name); inversion H; unfold fp16.no_attribute; eauto.
Qed.

Lemma attribute_errors_optional (name : string) cs :
  attribute_errors (fp16.convert_optional name cs).
Proof.
  intros ts ts' e H. unfold fp16.convert_optional in H.
  destruct (fp16.lookup_attr ts cs name); inversion H; unfold fp16.no_attribute; eauto.
Qed.

Lemma attribute_errors_if_present (name : string) cs :
  attribute_errors (fp16.convert_if_present name cs).
Proof.
  intros ts ts' e H. unfold fp16.convert_if_present in H.
  destruct (fp16.lookup_attr ts cs name); inversion H; unfold fp16.no_attribute; eauto.
Qed.

Lemma attribute_errors_skip : attribute_errors fp16.skip.
Proof. intros ts ts' e H. inversion H. Qed.

Lemma attribute_errors_and_then (f g : stmt) :
  attribute_errors f -> attribute_errors g -> attribute_errors (fp16.and_then f g).
Proof.
  intros Hf Hg ts ts' e H. unfold fp16.and_then in H.
  destruct (f ts) as [ts1 [e1|]] eqn:Hfa.
  - inversion H; subst. by apply (Hf _ _ _ Hfa).
  - by apply (Hg _ _ _ H).
Qed.

Lemma attribute_errors_fold (names : list string) (step : string -> stmt) :
  (forall n, attribute_errors (step n)) ->
  attribute_errors
    (fold_right (fun name k => fp16.and_then (step name) k) fp16.skip names).
Proof.
  intros Hstep. induction names as [|n names IH]; cbn; [apply attribute_errors_skip|].
  apply attribute_errors_and_then; [apply Hstep|exact IH].
Qed.

Lemma attribute_errors_convert (cls : pyclass) cs :
  attribute_errors (fp16._convert_weights_to_fp16 cls cs).
Proof.
  unfold fp16._convert_weights_to_fp16.
  apply attribute_errors_and_then; [|apply attribute_errors_and_then].
  - destruct (fp16.is_conv_or_linear cls); [|apply attribute_errors_skip].
    apply attribute_errors_and_then;
      [apply attribute_errors_required|apply attribute_errors_optional].
  - destruct (fp16.is_mha cls); [|apply attribute_errors_skip].
    apply attribute_errors_fold. intros n. apply attribute_errors_optional.
  - apply attribute_errors_fold. intros n. apply attribute_errors_if_present.
Qed.

Lemma apply_children_names (cs : list (string * mod_tree E)) :
  (fp16.apply_children fp16.apply cs).1.*1 = cs.*1.
Proof.
  induction cs as [|nc rest IH]; [reflexivity|]. cbn.
  destruct (fp16.apply nc.2) as [c' [e|]]; [reflexivity|].
  destruct (fp16.apply_children fp16.apply rest) as [rest' err]. cbn in *.
  by rewrite IH.
Qed.

Lemma apply_attribute_errors (m : mod_tree E) (e : exn) :
  (fp16.apply m).2 = Some e -> exists msg, e = AttributeError msg.
Proof.
  revert e. induction m as [cls ts cs IH] using mod_tree_ind'. intros e H. cbn in H.
  destruct (fp16.apply_children fp16.apply cs) as [cs' [e'|]] eqn:Hcs.
  - cbn in H. inversion H; subst e'; clear H.
    clear -IH Hcs. revert cs' Hcs.
    induction IH as [|nc rest Hc _ IHrest]; intros cs' Hcs; cbn in Hcs; [discriminate|].
    destruct (fp16.apply nc.2) as [c' [e1|]] eqn:Hap.
    + inversion Hcs; subst. apply Hc. reflexivity.
    + destruct (fp16.apply_children fp16.apply rest) as [rest' [e2|]] eqn:Hrest;
        inversion Hcs; subst. by apply (IHrest rest').
  - destruct (fp16._convert_weights_to_fp16 cls cs' ts) as [ts' err] eqn:Hts.
    cbn in H. subst err. by apply (attribute_errors_convert _ _ _ _ _ Hts).
Qed.

Lemma find_child (cs : list (string * mod_tree E)) (n : string) :
  n ∈ cs.*1 ->
  exists i c, list_find (fun kv => bool_decide (kv.1 = n)) cs = Some (i, (n, c)).
Proof.
  intros Hin. apply list_elem_of_fmap in Hin as ([k c] & -> & Hin). cbn [fst].
  destruct (list_find (fun kv : string * mod_tree E => bool_decide (kv.1 = k)) cs)
    as [[i [k' c']]|] eqn:Hfind.
  - apply list_find_Some in Hfind as (_ & Hk & _).
    apply bool_decide_unpack in Hk. cbn in Hk. subst k'. cbn. eauto.
  - exfalso. apply list_find_None in Hfind. rewrite Forall_forall in Hfind.
    apply (Hfind _ Hin). by apply bool_decide_pack.
Qed.

(** The last loop meets a child module under [n]. *)
Lemma if_present_on_module (n : string) cs (ts : gmap string (option (tensor E))) :
  ts !! n = None -> n ∈ cs.*1 ->
  fp16.convert_if_present n cs ts = (ts, Some (fp16.no_attribute "data")).
Proof.
  intros Hts Hin. unfold fp16.convert_if_present, fp16.lookup_attr. rewrite Hts.
  destruct (find_child cs n Hin) as (i & c & ->). reflexivity.
Qed.

Lemma realises_keeps_none (L : list string) (f : stmt) (ts ts' : gmap string (option (tensor E))) (n : string) :
  realises L f -> f ts = (ts', None) -> ts !! n = None -> ts' !! n = None.
Proof.
  intros Hf H Hn. rewrite (Hf _ _ H), foldl_set_half_lookup, Hn. reflexivity.
Qed.

Lemma convert_shadowed_node (cls : pyclass) cs (ts : gmap string (option (tensor E))) :
  shadows ts cs = true ->
  exists ts' msg, fp16._convert_weights_to_fp16 cls cs ts = (ts', Some (AttributeError msg)).
Proof.
  intros Hsh.
  destruct (fp16._convert_weights_to_fp16 cls cs ts) as [ts' [e|]] eqn:Hrun.
  { destruct (attribute_errors_convert _ _ _ _ _ Hrun) as [msg ->]. eauto. }
  exfalso. unfold fp16._convert_weights_to_fp16, fp16.and_then in Hrun.
  match type of Hrun with
  | context [if fp16.is_conv_or_linear cls then ?a else ?b] =>
      set (first := if fp16.is_conv_or_linear cls then a else b) in *;
      assert (H1 : realises (if fp16.is_conv_or_linear cls then ["weight"; "bias"] else [])
                     first)
  end.
  { unfold first. destruct (fp16.is_conv_or_linear cls); [|apply realises_skip].
    apply (realises_and_then ["weight"] ["bias"]);
      [apply realises_required|apply realises_optional]. }
  destruct (first ts) as [ts1 [e|]] eqn:Hf1; [discriminate|].
  match type of Hrun with
  | context [if fp16.is_mha cls then ?a else ?b] =>
      set (second := if fp16.is_mha cls then a else b) in *;
      assert (H2 : realises (if fp16.is_mha cls then fp16.mha_attrs else []) second)
  end.
  { unfold second. destruct (fp16.is_mha cls); [|apply realises_skip].
    apply realises_fold. intros n. apply realises_optional. }
  destruct (second ts1) as [ts2 [e|]] eqn:Hf2; [discriminate|].
  assert (Hkeep : forall n, ts !! n = None -> ts2 !! n = None).
  { intros n Hn. eapply realises_keeps_none; [exact H2|exact Hf2|].
    eapply realises_keeps_none; [exact H1|exact Hf1|exact Hn]. }
  unfold shadows, fp16.projection_names in Hsh. cbn [existsb] in Hsh.
  rewrite orb_false_r in Hsh.
  cbn [fold_right fp16.projection_names] in Hrun. unfold fp16.and_then in Hrun.
  apply orb_true_iff in Hsh as [Hsh|Hsh];
    apply andb_true_iff in Hsh as [Hn Hin];
    apply bool_decide_eq_true in Hn, Hin.
  - rewrite (if_present_on_module "text_projection" cs ts2) in Hrun
      by (auto using Hkeep). discriminate.
  - destruct (fp16.convert_if_present "text_projection" cs ts2) as [ts3 [e|]] eqn:H3;
      [discriminate|].
    rewrite (if_present_on_module "proj" cs ts3) in Hrun; [discriminate| |exact Hin].
    eapply realises_keeps_none; [apply realises_if_present|exact H3|by apply Hkeep].
Qed.

Lemma shadows_names (ts : gmap string (option (tensor E))) (cs cs' : list (string * mod_tree E)) :
  cs'.*1 = cs.*1 -> shadows ts cs' = shadows ts cs.
Proof. intros H. unfold shadows. by rewrite H. Qed.

Lemma apply_shadowed (m : mod_tree E) :
  shadowed m = true -> exists msg, (fp16.apply m).2 = Some (AttributeError msg).
Proof.
  induction m as [cls ts cs IH] using mod_tree_ind'. intros Hsh.
  destruct (fp16.apply (ModTree cls ts cs)) as [m' [e|]] eqn:Hrun.
  { assert (He : (fp16.apply (ModTree cls ts cs)).2 = Some e) by (by rewrite Hrun).
    destruct (apply_attribute_errors _ _ He) as [msg ->]. eauto. }
  exfalso. cbn in Hrun.
  destruct (fp16.apply_children fp16.apply cs) as [cs' [e|]] eqn:Hcs; [discriminate|].
  pose proof (apply_children_names cs) as Hnames. rewrite Hcs in Hnames. cbn in Hnames.
  cbn [shadowed] in Hsh. apply orb_true_iff in Hsh as [Hnode|Hchild].
  - rewrite <- (shadows_names ts cs cs' Hnames) in Hnode.
    destruct (convert_shadowed_node cls cs' ts Hnode) as (ts' & msg & Hc).
    rewrite Hc in Hrun. discriminate.
  - apply apply_children_inv in Hcs.
    apply existsb_exists in Hchild as (nc & Hin & Hnc).
    apply list_elem_of_In in Hin.
    rewrite Forall_forall in IH. destruct (IH nc Hin Hnc) as [msg Hmsg].
    clear -Hcs Hin Hmsg. induction Hcs as [|a a' rest rest' [_ Hap] _ IHrest].
    + by apply elem_of_nil in Hin.
    + apply elem_of_cons in Hin as [->|Hin]; [|by apply IHrest].
      rewrite Hap in Hmsg. discriminate.
Qed.

(** X17: the conversion raises on every model in which some module has a
    child module named [text_projection] or [proj] and no tensor of that
    name: [getattr] then returns the child, which has no [data].  The MLP
    of every [ResidualAttentionBlock] is such a module, whatever tensors its
    layers hold.  And the only exception the conversion raises is
    [AttributeError]. *)
Theorem conversion_raises_below_projection_name :
  (forall model : mod_tree E,
      shadowed model = true ->
      exists msg, (fp16.convert_weights_to_fp16 model).2 = Some (AttributeError msg))
  /\ (forall d_model n_head mlp_ratio act dropout cls (ts : gmap string (option (tensor E)))
             (cs : list (string * mod_tree E)),
        cs.*1 = (ResidualAttentionBlock.mlp
                   (ResidualAttentionBlock.__init__ d_model n_head mlp_ratio act dropout)).*1 ->
        ts !! "proj" = None ->
        shadowed (ModTree cls ts cs) = true)
  /\ (forall (model : mod_tree E) e,
        (fp16.convert_weights_to_fp16 model).2 = Some e ->
        exists msg, e = AttributeError msg).
Proof.
  split; [|split].
  - intros model. apply apply_shadowed.
  - intros d_model n_head mlp_ratio act dropout cls ts cs Hnames Hproj.
    cbn [shadowed]. apply orb_true_iff. left.
    unfold shadows, fp16.projection_names. cbn [existsb].
    rewrite !orb_true_iff. right. left.
    apply andb_true_iff. split; apply bool_decide_eq_true; [exact Hproj|].
    rewrite Hnames. cbn. destruct (Qgtb dropout 0); cbn;
      repeat first [apply list_elem_of_here|apply list_elem_of_further].
  - intros model. apply apply_attribute_errors.
Qed.

End Facts.

#[local] Existing Instances probe_runtime probe_specials probe_functional.

(** A second run on the converted small model. *)
Lemma conversion_is_idempotent_witness :
  fp16.convert_weights_to_fp16 small_model_half = (small_model_half, None).
Proof.
  apply (conversion_is_idempotent (RT := probe_runtime) small_model small_model_half).
  vm_compute. reflexivity.
Defined.

End fp16_more_facts.

(** ** resize_pos_embed: what it leaves alone *)

Module pos_embed_frame.
Section Facts.
Context {E : Type} {RT : Runtime E}.

(** X18: whenever [resize_pos_embed] returns, every entry of the state dict
    other than [visual.positional_embedding] is what it was, no key is added
    or removed, and the embedding keeps its dtype. *)
Theorem resize_changes_one_entry (state_dict state_dict' : gmap string (tensor E))
    (grid_size : option (Z + Z * Z)) (interpolation : string) :
  pos_embed.resize_pos_embed state_dict grid_size interpolation = Ok state_dict' ->
  (forall k, k <> "visual.positional_embedding" -> state_dict' !! k = state_dict !! k)
  /\ dom state_dict' = dom state_dict
  /\ (forall old new,
        state_dict !! "visual.positional_embedding" = Some old ->
        state_dict' !! "visual.positional_embedding" = Some new ->
        t_dtype new = t_dtype old).
Proof.
  unfold pos_embed.resize_pos_embed. intros H.
  destruct (state_dict !! "visual.positional_embedding") as [old|] eqn:Hold;
    [|inversion H; subst; repeat split; intros; congruence].
  destruct grid_size as [g|];
    [|inversion H; subst; repeat split; intros; congruence].
  destruct (torch.shape0 old) as [old_len|]; cbn [mbind result_mbind result_bind] in H;
    [|discriminate].
  destruct (bool_decide _);
    [inversion H; subst; repeat split; intros; congruence|].
  destruct (torch.slice_to 1 old) as [tok|] eqn:Htok;
    cbn [mbind result_mbind result_bind] in H; [|discriminate].
  do 8 match type of H with
       | (?m ≫= _) = Ok _ =>
           destruct m; cbn [mbind result_mbind result_bind] in H; [|discriminate]
       end.
  match type of H with
  | (torch.cat0 tok ?img ≫= _) = Ok _ =>
      destruct (torch.cat0 tok img) as [new|] eqn:Hcat;
        cbn [mbind result_mbind result_bind] in H; [|discriminate]
  end.
  inversion H; subst state_dict'.
  split; [|split].
  - intros k Hk. by rewrite lookup_insert_ne.
  - rewrite dom_insert_L. apply (subseteq_union_1_L (C := gset string)).
    apply singleton_subseteq_l. by apply elem_of_dom_2 in Hold.
  - intros old' new' Ho Hn. inversion Ho; subst old'.
    rewrite lookup_insert_eq in Hn. inversion Hn; subst new'.
    assert (Hnew : t_dtype new = t_dtype tok).
    { unfold torch.cat0 in Hcat.
      destruct (t_shape tok) as [|na resta]; [discriminate|].
      match type of Hcat with
      | context [t_shape ?img] => destruct (t_shape img) as [|nb restb]; [discriminate|]
      end.
      destruct (bool_decide _); [|discriminate].
      by inversion Hcat. }
    rewrite Hnew. unfold torch.slice_to in Htok.
    destruct (t_shape old); [discriminate|]. by inversion Htok.
Qed.

End Facts.

#[local] Existing Instances probe_runtime probe_specials probe_functional.

(** A state dict with a second entry, resized from one image token to two. *)
Lemma resize_changes_one_entry_witness :
  let old := Tensor float16 [2; 2] [VNum 10; VNum 11; VNum 20; VNum 21] in
  let w := Tensor float32 [1] [VNum 5] in
  let sd := <["visual.positional_embedding" := old]> (<["visual.proj" := w]> ∅) in
  exists sd',
    pos_embed.resize_pos_embed sd (Some (inr (2, 1))) "bicubic" = Ok sd'
    /\ sd' !! "visual.proj" = Some w
    /\ (forall new, sd' !! "visual.positional_embedding" = Some new ->
          t_dtype new = float16).
Proof.
  intros old w sd.
  assert (Hrun : pos_embed.resize_pos_embed sd (Some (inr (2, 1))) "bicubic"
                 = Ok (<["visual.positional_embedding" :=
                          Tensor float16 [3; 2]
                            [VNum 10; VNum 11; VNum 0; VNum 1; VNum 2; VNum 3]]> sd)).
  { unfold pos_embed.resize_pos_embed, sd. rewrite lookup_insert_eq. reflexivity. }
  eexists. split; [exact Hrun|].
  destruct (resize_changes_one_entry (RT := probe_runtime) _ _ _ _ Hrun)
    as (Hframe & _ & Hdt).
  split.
  - rewrite Hframe by discriminate. unfold sd.
    rewrite lookup_insert_ne by discriminate. apply lookup_insert_eq.
  - intros new Hnew. apply (Hdt old new); [apply lookup_insert_eq|exact Hnew].
Defined.

End pos_embed_frame.

(** ** VoxelCLIP: configurations and the constructed instance *)

Module VoxelCLIP_more_facts.
Section Facts.
Context {E : Type} {RT : Runtime E} {FN : Functional E}.


(** X20: the encoder of ["3d-transformer"] does not depend on the
    configuration it asks for, and the one of ["flat-transformer"] on no
    configuration at all: the first is always a [VisualTransformer3d] over
    42 by 46 by 61 voxels, 1408 wide with 14 layers, the second always a
    [FlatTransformer] 512 wide with 4 layers. *)
Theorem transformer_encoders_ignore_configuration (embed_dim : Z)
    (voxel_cfg : CLIPVoxelCfg.t) (act : act_layer) :
  (forall cfg,
      CLIPVoxelCfg.config_3d_transformer voxel_cfg = Some cfg ->
      VoxelCLIP.build_voxel_encoder embed_dim voxel_cfg act "3d-transformer"
      = (let spec := VisualTransformer3d [42; 46; 61] 8 1408 14 8 (43637 # 10000)
                       embed_dim act (4 # 10) in
         f ← instantiate spec; Ok (Module_ spec f)))
  /\ VoxelCLIP.build_voxel_encoder embed_dim voxel_cfg act "flat-transformer"
     = Ok (Module_ (FlatTransformerSpec 512 4 8 4 embed_dim act (4 # 10))
             (FlatTransformer.forward
                (FlatTransformer.__init__ 512 4 8 4 embed_dim act (4 # 10)))).
Proof.
  unfold VoxelCLIP.build_voxel_encoder. split; [|reflexivity].
  intros cfg Hcfg. cbn. rewrite Hcfg. reflexivity.
Qed.

Lemma accepted_not_initialised (vt : string) :
  vt ∈ VoxelCLIP.accepted_voxel_types -> vt <> "flat" /\ vt <> "3d" /\ vt <> "3d-flat".
Proof.
  unfold VoxelCLIP.accepted_voxel_types. rewrite !elem_of_cons, elem_of_nil.
  intros H. repeat split; intros ->; intuition discriminate.
Qed.

(** X21: in an instance the constructor returns, the voxel encoder is the one
    the discriminator chain built, which [init_parameters] has not touched:
    its three branches test for ["flat"], ["3d"] and ["3d-flat"], and the
    discriminator of a constructed instance is none of them.  The
    temperature is [log(1 / 0.07)] and the vision tower is the built one
    after its own [init_parameters]. *)
Theorem constructed_instance_keeps_built_encoder (embed_dim : Z)
    (vision_cfg : CLIPVisionCfg.t) (voxel_cfg : CLIPVoxelCfg.t) (quick_gelu : bool)
    (voxel_type : option string) (self : VoxelCLIP.t E) :
  VoxelCLIP.__init__ embed_dim vision_cfg voxel_cfg quick_gelu voxel_type = (self, None) ->
  exists v act ve v' vt,
    voxel_type = Some vt
    /\ vt ∈ VoxelCLIP.accepted_voxel_types
    /\ build_visual embed_dim vision_cfg quick_gelu = Ok (v, act)
    /\ VoxelCLIP.build_voxel_encoder embed_dim voxel_cfg act vt = Ok ve
    /\ visual_init_parameters v = Ok v'
    /\ self = VoxelCLIP.Make (Some v') (Some vt) (Some ve) (Some initial_logit_scale).
Proof.
  unfold VoxelCLIP.__init__. intros H.
  destruct (build_visual _ _ _) as [[v act]|]; [|discriminate].
  destruct (VoxelCLIP.build_voxel_encoder _ _ _ _) as [ve|] eqn:Hve; [|discriminate].
  pose proof (VoxelCLIP_facts.build_voxel_encoder_accepted _ _ _ _ _ Hve) as Hacc.
  destruct (accepted_not_initialised _ Hacc) as (Hflat & H3d & H3dflat).
  destruct voxel_type as [vt|]; cbn [default] in *;
    [|exfalso; by apply Hflat].
  destruct (VoxelCLIP.init_parameters _) as [self'|] eqn:Hinit; [|discriminate].
  inversion H; subst self'; clear H.
  unfold VoxelCLIP.init_parameters in Hinit.
  cbn [VoxelCLIP.logit_scale VoxelCLIP.visual VoxelCLIP.voxel_type
       VoxelCLIP.voxel_encoder getattr mbind result_mbind result_bind] in Hinit.
  destruct (visual_init_parameters v) as [v'|] eqn:Hv';
    cbn [VoxelCLIP.logit_scale VoxelCLIP.visual VoxelCLIP.voxel_type
         VoxelCLIP.voxel_encoder getattr mbind result_mbind result_bind] in Hinit;
    [|discriminate].
  rewrite !decide_False in Hinit by assumption.
  inversion Hinit; subst self.
  exists v, act, ve, v', vt. repeat split; assumption.
Qed.

(** X22: with a timm model name the vision tower is a [TimmModel] and the
    activation handed to the second tower is [nn.GELU] whatever [quick_gelu]
    is; without one (or with the empty name) the activation follows
    [quick_gelu], a tuple of layers gives a [ModifiedResNet] with
    [width * 32 // head_width] heads and an integer a [VisualTransformer]
    with [width // head_width] heads, and a head width of zero raises
    [ZeroDivisionError]. *)
Theorem vision_tower_and_activation (embed_dim : Z) (vision_cfg : CLIPVisionCfg.t)
    (quick_gelu : bool) :
  let named := match CLIPVisionCfg.timm_model_name vision_cfg with
               | Some (String _ _) => true
               | _ => false
               end in
  (forall v act,
      build_visual embed_dim vision_cfg quick_gelu = Ok (v, act) ->
      if named then
        act = GELU
        /\ exists name,
             CLIPVisionCfg.timm_model_name vision_cfg = Some name
             /\ m_spec v = TimmModel name (CLIPVisionCfg.timm_model_pretrained vision_cfg)
                             (CLIPVisionCfg.timm_pool vision_cfg)
                             (CLIPVisionCfg.timm_proj vision_cfg) embed_dim
                             (CLIPVisionCfg.image_size vision_cfg)
      else
        act = (if quick_gelu then QuickGELU else GELU)
        /\ CLIPVisionCfg.head_width vision_cfg <> 0
        /\ m_spec v
           = match CLIPVisionCfg.layers vision_cfg with
             | inr layers =>
                 ModifiedResNet layers embed_dim
                   (CLIPVisionCfg.width vision_cfg * 32 / CLIPVisionCfg.head_width vision_cfg)
                   (CLIPVisionCfg.image_size vision_cfg) (CLIPVisionCfg.width vision_cfg)
             | inl layers =>
                 VisualTransformer (CLIPVisionCfg.image_size vision_cfg)
                   (CLIPVisionCfg.patch_size vision_cfg) (CLIPVisionCfg.width vision_cfg)
                   layers
                   (CLIPVisionCfg.width vision_cfg / CLIPVisionCfg.head_width vision_cfg)
                   (CLIPVisionCfg.mlp_ratio vision_cfg) embed_dim act
             end)
  /\ (named = false -> CLIPVisionCfg.head_width vision_cfg = 0 ->
      exists msg,
        build_visual embed_dim vision_cfg quick_gelu = Raise (ZeroDivisionError msg)).
Proof.
  intros named. unfold named, build_visual. split.
  - intros v act H.
    destruct (CLIPVisionCfg.timm_model_name vision_cfg) as [[|c rest]|].
    + destruct (CLIPVisionCfg.layers vision_cfg) as [n|l];
        unfold int_floordiv in H;
        destruct (bool_decide (CLIPVisionCfg.head_width vision_cfg = 0)) eqn:Hhw;
        cbn [mbind result_mbind result_bind] in H; try discriminate;
        apply bool_decide_eq_false in Hhw;
        destruct (instantiate _) as [f|]; cbn [mbind result_mbind result_bind] in H;
        try discriminate; inversion H; subst; repeat split; assumption.
    + destruct (instantiate _) as [f|]; cbn [mbind result_mbind result_bind] in H;
        [|discriminate].
      inversion H; subst. split; [reflexivity|]. eexists. split; reflexivity.
    + destruct (CLIPVisionCfg.layers vision_cfg) as [n|l];
        unfold int_floordiv in H;
        destruct (bool_decide (CLIPVisionCfg.head_width vision_cfg = 0)) eqn:Hhw;
        cbn [mbind result_mbind result_bind] in H; try discriminate;
        apply bool_decide_eq_false in Hhw;
        destruct (instantiate _) as [f|]; cbn [mbind result_mbind result_bind] in H;
        try discriminate; inversion H; subst; repeat split; assumption.
  - intros Hnamed Hhw.
    destruct (CLIPVisionCfg.timm_model_name vision_cfg) as [[|c rest]|];
      try discriminate Hnamed;
      destruct (CLIPVisionCfg.layers vision_cfg); unfold int_floordiv;
      rewrite Hhw; eexists; reflexivity.
Qed.

End Facts.

#[local] Existing Instances probe_runtime probe_specials probe_functional.

(** The constructor with the flat transformer, on the small runtime. *)
Lemma constructed_instance_keeps_built_encoder_witness :
  exists self ve,
    VoxelCLIP.__init__ 512 VoxelCLIP_facts.resnet_cfg VoxelCLIP_facts.empty_voxel_cfg true
      (Some "flat-transformer") = (self, None)
    /\ VoxelCLIP.build_voxel_encoder 512 VoxelCLIP_facts.empty_voxel_cfg QuickGELU
         "flat-transformer" = Ok ve
    /\ VoxelCLIP.voxel_encoder self = Some ve.
Proof.
  eexists _, _. split; [vm_compute; reflexivity|].
  match goal with
  | |- _ /\ VoxelCLIP.voxel_encoder ?self = _ =>
      destruct (constructed_instance_keeps_built_encoder (RT := probe_runtime)
                  512 VoxelCLIP_facts.resnet_cfg VoxelCLIP_facts.empty_voxel_cfg true
                  (Some "flat-transformer") self)
        as (v & act & ve & v' & vt & Hvt & _ & Hv & Hve & _ & Hself);
        [vm_compute; reflexivity|]
  end.
  split; reflexivity.
Defined.

End VoxelCLIP_more_facts.

(** ** Transformer: the blocks in sequence *)

Module Transformer_facts.
Section Facts.
Context {E : Type} {RT : Runtime E}.

Lemma run_blocks_app (path : string) (checkpointing : bool) (i : nat)
    (a b : list ResidualAttentionBlock.t) (x : tensor E) (mask : option (tensor E)) :
  Transformer.run_blocks path checkpointing i (a ++ b) x mask
  = (y ← Transformer.run_blocks path checkpointing i a x mask;
     Transformer.run_blocks path checkpointing (i + length a) b y mask).
Proof.
  revert i x. induction a as [|r a IH]; intros i x; cbn.
  - by rewrite Nat.add_0_r.
  - destruct checkpointing;
      (destruct (ResidualAttentionBlock.forward _ r x mask) as [y|]; cbn;
       [|reflexivity]);
      rewrite IH; by replace (S i + length a)%nat with (i + S (length a))%nat by lia.
Qed.

(** X23: [Transformer.forward] runs its blocks in order, each on the output
    of the one before it and all with the same mask, and stops at the first
    block that raises; a transformer built with [layers <= 0] has no block
    and returns its input. *)
Theorem forward_runs_blocks_in_sequence (path : string) (self : Transformer.t)
    (a b : list ResidualAttentionBlock.t) (x : tensor E) (mask : option (tensor E)) :
  Transformer.resblocks self = (a ++ b)%list ->
  Transformer.forward path self x mask
  = (y ← Transformer.run_blocks path (Transformer.grad_checkpointing self) 0 a x mask;
     Transformer.run_blocks path (Transformer.grad_checkpointing self) (length a) b y mask)
  /\ (forall e,
        Transformer.run_blocks path (Transformer.grad_checkpointing self) 0 a x mask
        = Raise e ->
        Transformer.forward path self x mask = Raise e)
  /\ (forall width layers heads mlp_ratio act dropout,
        layers <= 0 ->
        Transformer.forward path
          (Transformer.__init__ width layers heads mlp_ratio act dropout) x mask
        = Ok x).
Proof.
  intros Hab. unfold Transformer.forward. rewrite Hab, run_blocks_app. cbn [Nat.add].
  split; [reflexivity|]. split.
  - intros e He. rewrite He. reflexivity.
  - intros width layers heads mlp_ratio act dropout Hl. cbn.
    replace (Z.to_nat layers) with 0%nat by lia. reflexivity.
Qed.

End Facts.

#[local] Existing Instances probe_runtime probe_specials probe_functional.

(** A transformer of three blocks, split after the first. *)
Lemma forward_runs_blocks_in_sequence_witness :
  let self := Transformer.__init__ 8 3 2 4 GELU 0 in
  let x := Tensor float32 [1; 1; 8] [VNum 1] in
  Transformer.forward "transformer" self x None
  = (y ← Transformer.run_blocks "transformer" false 0 (take 1 (Transformer.resblocks self))
           x None;
     Transformer.run_blocks "transformer" false 1 (drop 1 (Transformer.resblocks self))
       y None).
Proof.
  intros self x.
  destruct (forward_runs_blocks_in_sequence (RT := probe_runtime) "transformer" self
              (take 1 (Transformer.resblocks self)) (drop 1 (Transformer.resblocks self))
              x None) as [H _]; [reflexivity|exact H].
Defined.

End Transformer_facts.

(** ** QuickGELU, in exact real arithmetic *)

Module QuickGELU_facts.
Import QuickGELU.






End QuickGELU_facts.
